(** * Normalisation of routing-rule list files

    A shallow embedding of the list-maintenance scripts [domains.py],
    [ip.py], [domains_ip.py] and [clean_bak.py]: the domain-suffix
    normaliser, the IP/CIDR normaliser, the backup-and-rewrite driver,
    the directory loops of the [main] functions and the removal of the
    backups, together with the parts of the Python runtime they call
    ([str] methods and the [ipaddress] module of CPython 3.11).

    Python strings are sequences of Unicode code points; a code point is
    a number in [N] and a string is a [list N].  The file store maps a
    path to the decoded text of the file.  Each script module gives the
    run in which every write and every removal of a file goes through
    and, in [Io], the run in which one can raise.  What a script prints
    is kept as a list of messages: the standard output is taken to
    encode their characters, as a UTF-8 terminal does, so that [print]
    does not raise. *)

From Stdlib Require Import NArith ZArith Ascii String List Lia Bool.
From stdpp Require Import base numbers option list strings gmap.

Local Open Scope N_scope.

(** Code points and strings. *)
Abbreviation char := N (only parsing).
Abbreviation str := (list N) (only parsing).

(** [lit s] is the Python literal [s] (ASCII only). *)
Definition lit (s : string) : str :=
  List.map N_of_ascii (list_ascii_of_string s).

Definition ch (a : ascii) : char := N_of_ascii a.

Global Opaque lit ch.

(** ** The [str] methods used by the scripts *)

Module Py.

(** [str.isspace] on one code point: the characters [str.strip()]
    removes (Unicode 14, CPython 3.11). *)
Definition isspace (c : char) : bool :=
  ((0x09 <=? c) && (c <=? 0x0D)) || ((0x1C <=? c) && (c <=? 0x20))
  || (c =? 0x85) || (c =? 0xA0) || (c =? 0x1680)
  || ((0x2000 <=? c) && (c <=? 0x200A))
  || (c =? 0x2028) || (c =? 0x2029) || (c =? 0x202F) || (c =? 0x205F)
  || (c =? 0x3000).

Fixpoint lstrip (s : str) : str :=
  match s with
  | [] => []
  | c :: t => if isspace c then lstrip t else s
  end.

Fixpoint rstrip (s : str) : str :=
  match s with
  | [] => []
  | c :: t =>
      match rstrip t with
      | [] => if isspace c then [] else [c]
      | r => c :: r
      end
  end.

(** [s.strip()] *)
Definition strip (s : str) : str := rstrip (lstrip s).

(** [a == b] on strings. *)
Fixpoint str_eqb (a b : str) : bool :=
  match a, b with
  | [], [] => true
  | x :: a', y :: b' => (x =? y) && str_eqb a' b'
  | _, _ => false
  end.

(** [s.startswith(p)] *)
Fixpoint startswith (p s : str) : bool :=
  match p, s with
  | [], _ => true
  | _ :: _, [] => false
  | a :: p', b :: s' => (a =? b) && startswith p' s'
  end.

(** [s.endswith(p)] *)
Definition endswith (p s : str) : bool := startswith (rev p) (rev s).

(** [c in s] for a one-character [c]. *)
Definition contains (c : char) (s : str) : bool := existsb (N.eqb c) s.

(** [s.partition(sep)] for a one-character separator: the text before
    the first [sep], whether [sep] was found, and the text after it. *)
Fixpoint partition (sep : char) (s : str) : str * bool * str :=
  match s with
  | [] => ([], false, [])
  | c :: t =>
      if c =? sep then ([], true, t)
      else let '(b, f, a) := partition sep t in (c :: b, f, a)
  end.

(** [s.split(sep, 1)] *)
Definition split1 (sep : char) (s : str) : list str :=
  let '(b, f, a) := partition sep s in
  if f then [b; a] else [b].

(** [s.split(sep)] for a one-character separator; never empty. *)
Fixpoint split (sep : char) (s : str) : list str :=
  match s with
  | [] => [[]]
  | c :: t =>
      if c =? sep then [] :: split sep t
      else match split sep t with
           | h :: r => (c :: h) :: r
           | [] => [[c]]
           end
  end.

(** [sep.join(l)] *)
Fixpoint join (sep : str) (l : list str) : str :=
  match l with
  | [] => []
  | x :: r =>
      match r with
      | [] => x
      | _ :: _ => x ++ sep ++ join sep r
      end
  end.

(** One code point of [str.upper()].  The table agrees with CPython on
    ASCII and on every other code point whose upper-case form contains
    an ASCII character.  The upper-case form of any remaining code point
    is made of non-ASCII characters only; the scripts only ever compare
    the result with an ASCII literal, so such a code point is kept as it
    is. *)
Definition upper_char (c : char) : str :=
  if (0x61 <=? c) && (c <=? 0x7A) then [c - 0x20]
  else if c =? 0xDF then [0x53; 0x53]
  else if c =? 0x131 then [0x49]
  else if c =? 0x149 then [0x2BC; 0x4E]
  else if c =? 0x17F then [0x53]
  else if c =? 0x1F0 then [0x4A; 0x30C]
  else if c =? 0x1E96 then [0x48; 0x331]
  else if c =? 0x1E97 then [0x54; 0x308]
  else if c =? 0x1E98 then [0x57; 0x30A]
  else if c =? 0x1E99 then [0x59; 0x30A]
  else if c =? 0x1E9A then [0x41; 0x2BE]
  else if c =? 0xFB00 then [0x46; 0x46]
  else if c =? 0xFB01 then [0x46; 0x49]
  else if c =? 0xFB02 then [0x46; 0x4C]
  else if c =? 0xFB03 then [0x46; 0x46; 0x49]
  else if c =? 0xFB04 then [0x46; 0x46; 0x4C]
  else if c =? 0xFB05 then [0x53; 0x54]
  else if c =? 0xFB06 then [0x53; 0x54]
  else [c].

(** [s.upper()] *)
Definition upper (s : str) : str := flat_map upper_char s.

(** Line boundaries of [str.splitlines()]. *)
Definition islinebreak (c : char) : bool :=
  ((0x0A <=? c) && (c <=? 0x0D)) || ((0x1C <=? c) && (c <=? 0x1E))
  || (c =? 0x85) || (c =? 0x2028) || (c =? 0x2029).

(** [s.splitlines()]: a carriage return followed by a line feed is one
    boundary, and a final boundary opens no further line. *)
Fixpoint splitlines (s : str) : list str :=
  match s with
  | [] => []
  | c :: t =>
      if islinebreak c then
        match t with
        | d :: t' =>
            if (c =? 0x0D) && (d =? 0x0A) then [] :: splitlines t'
            else [] :: splitlines t
        | [] => [[]]
        end
      else
        match splitlines t with
        | [] => [[c]]
        | l :: r => (c :: l) :: r
        end
  end.

(** Universal-newlines translation of a text-mode read: [\r\n] and a
    lone [\r] become [\n]. *)
Fixpoint translate_newlines (s : str) : str :=
  match s with
  | [] => []
  | c :: t =>
      if c =? 0x0D then
        match t with
        | d :: t' =>
            if d =? 0x0A then 0x0A :: translate_newlines t'
            else 0x0A :: translate_newlines t
        | [] => [0x0A]
        end
      else c :: translate_newlines t
  end.

(** Truth value of a string: [not s] is [is_empty s]. *)
Definition is_empty (s : str) : bool :=
  match s with [] => true | _ :: _ => false end.

End Py.

(** ** The file store *)

(** A store maps a path to the text of the file; [read_text] is a
    text-mode read, [write_text] a whole-file overwrite (on a platform
    whose line separator is [\n]).  A path names one file: the store
    has no links, and two paths are the same file only when they are
    equal. *)
Definition read_text (fs : gmap string (list N)) (path : string)
  : option str :=
  Py.translate_newlines <$> fs !! path.

Definition write_text (fs : gmap string (list N)) (path : string)
  (data : str) : gmap string (list N) :=
  <[path := data]> fs.

(** [write_text] above is a write that goes through.  [Path.write_text]
    raises when the path cannot be opened for writing: a directory is at
    the path, or the process may not write there.  [writable path] tells
    whether the open succeeds; when it fails nothing is written, and
    [None] stands for the exception.  The text written is one that
    [read_text] has decoded, so encoding it cannot fail. *)
Definition try_write_text (writable : string -> bool)
  (fs : gmap string (list N)) (path : string) (data : str)
  : option (gmap string (list N)) :=
  if writable path then Some (write_text fs path data) else None.

(** [path.with_suffix(path.suffix + ".bak")] *)
Definition bak_path (path : string) : string := (path +:+ ".bak")%string.

Definition NL : str := [0x0A].

(** [path.unlink()]: a path that is not a file of the store (a
    directory, or a name that is gone) raises. *)
Definition unlink (fs : gmap string (list N)) (path : string)
  : option (gmap string (list N)) :=
  match fs !! path with
  | Some _ => Some (delete path fs)
  | None => None
  end.

(** [unlink] above removes every file of the store.  [path.unlink()]
    also raises when the process may not remove the file;
    [removable path] tells whether it may. *)
Definition try_unlink (removable : string -> bool)
  (fs : gmap string (list N)) (path : string)
  : option (gmap string (list N)) :=
  if removable path then unlink fs path else None.

(** ** The directories

    What a run asks of the directories.  [is_dir env d] is
    [Path(d).is_dir()].  [rglob env d pattern fs] is the list of the
    paths that [Path(d).rglob(pattern)] yields, as [str(file)] and in
    the order of the scan, when the files are those of [fs].  The scan
    reads the names of a directory before the loop body runs on any of
    them, and the loop bodies neither add a name that matches the
    pattern of the running scan nor remove one that it has yet to
    yield, so the list is the one of the store in which the loop
    starts. *)
Record Env : Type := MkEnv {
  is_dir : string -> bool;
  rglob : string -> string -> gmap string (list N) -> list string
}.

(** ** The [ipaddress] module (CPython 3.11)

    Addresses are the integers the library keeps in [_ip]; every
    [AddressValueError] and [NetmaskValueError] is a [ValueError], which
    is all the scripts catch, so a raised error is [None]. *)

Module ipaddress.
Import Py.

Definition IPV4LENGTH : N := 32.
Definition IPV6LENGTH : N := 128.
Definition V4_ALL_ONES : N := 2 ^ IPV4LENGTH - 1.
Definition V6_ALL_ONES : N := 2 ^ IPV6LENGTH - 1.

(** An [IPv4Address] holds [_ip]; an [IPv6Address] holds [_ip] and
    [_scope_id]. *)
Inductive Address : Type :=
| V4 (ip : N)
| V6 (ip : N) (scope_id : option (list N)).

(** An [IPv4Network] or [IPv6Network]: its [network_address] and
    [_prefixlen] (the netmask is a function of the prefix length). *)
Record Network : Type := MkNetwork {
  network_address : Address;
  prefixlen : N
}.

Definition is_v4 (a : Address) : bool :=
  match a with V4 _ => true | V6 _ _ => false end.

Definition _ip (a : Address) : N :=
  match a with V4 ip => ip | V6 ip _ => ip end.

(** *** Numbers and their text *)

Definition isdigit_char (c : char) : bool := (0x30 <=? c) && (c <=? 0x39).

(** [s.isascii() and s.isdigit()]; false on the empty string. *)
Definition isascii_isdigit (s : str) : bool :=
  negb (is_empty s) && forallb isdigit_char s.

(** [int(s, 10)] on a string of ASCII digits. *)
Definition int10 (s : str) : N :=
  fold_left (fun acc c => 10 * acc + (c - 0x30)) s 0.

(** The most digits that [int] converts in a decimal string
    ([sys.int_info.default_max_str_digits] of CPython 3.11; the scripts
    do not change it). *)
Definition max_str_digits : N := 4300.

(** [int(s)] on a string of ASCII digits.  A string with more digits
    than the limit raises [ValueError], which is [None]; zeros at the
    head count as digits. *)
Definition int (s : str) : option N :=
  if max_str_digits <? N.of_nat (length s) then None else Some (int10 s).

Fixpoint dec_digits (fuel : nat) (n : N) (acc : str) : str :=
  match fuel with
  | O => acc
  | S f =>
      let acc' := (0x30 + n mod 10) :: acc in
      if n / 10 =? 0 then acc' else dec_digits f (n / 10) acc'
  end.

(** [str(n)] and ['%d' % n] *)
Definition str_of_int (n : N) : str := dec_digits (S (N.size_nat n)) n [].

Definition ishex_char (c : char) : bool :=
  isdigit_char c || ((0x41 <=? c) && (c <=? 0x46))
  || ((0x61 <=? c) && (c <=? 0x66)).

Definition hexval (c : char) : N :=
  if isdigit_char c then c - 0x30
  else if (0x41 <=? c) && (c <=? 0x46) then c - 0x41 + 10
  else c - 0x61 + 10.

(** [int(s, 16)] on a string of hexadecimal digits. *)
Definition int16 (s : str) : N :=
  fold_left (fun acc c => 16 * acc + hexval c) s 0.

Definition hexdigit (d : N) : char :=
  if d <? 10 then 0x30 + d else 0x61 + (d - 10).

Fixpoint hex_digits (fuel : nat) (n : N) (acc : str) : str :=
  match fuel with
  | O => acc
  | S f =>
      let acc' := hexdigit (n mod 16) :: acc in
      if n / 16 =? 0 then acc' else hex_digits f (n / 16) acc'
  end.

(** ['%x' % n] *)
Definition format_x (n : N) : str := hex_digits (S (N.size_nat n)) n [].

(** *** Prefix lengths *)

(** [_ip_int_from_prefix] *)
Definition _ip_int_from_prefix (all_ones prefixlen : N) : N :=
  N.lxor all_ones (N.shiftr all_ones prefixlen).

(** [_count_righthand_zero_bits]; [~number & (number - 1)] keeps the
    bits of [number - 1] that [number] does not have. *)
Definition _count_righthand_zero_bits (number bits : N) : N :=
  if number =? 0 then bits
  else N.min bits (N.size (N.ldiff (number - 1) number)).

(** [_prefix_from_ip_int] *)
Definition _prefix_from_ip_int (max_prefixlen ip_int : N) : option N :=
  let trailing_zeroes := _count_righthand_zero_bits ip_int max_prefixlen in
  let prefixlen := max_prefixlen - trailing_zeroes in
  let leading_ones := N.shiftr ip_int trailing_zeroes in
  let all_ones := N.shiftl 1 prefixlen - 1 in
  if negb (leading_ones =? all_ones) then None else Some prefixlen.

(** [_prefix_from_prefix_string] *)
Definition _prefix_from_prefix_string (max_prefixlen : N)
  (prefixlen_str : str) : option N :=
  if negb (isascii_isdigit prefixlen_str) then None
  else
    match int prefixlen_str with
    | None => None
    | Some prefixlen =>
        if negb (prefixlen <=? max_prefixlen) then None else Some prefixlen
    end.

(** [_split_optional_netmask] and [_split_addr_prefix]: the address
    text and the mask text; no mask text stands for the integer
    [_max_prefixlen]. *)
Definition _split_addr_prefix (address : str)
  : option (str * option (list N)) :=
  match split (ch "/") address with
  | [a] => Some (a, None)
  | [a; m] => Some (a, Some m)
  | _ => None
  end.

(** *** IPv4 *)

(** [_BaseV4._parse_octet]; [int(octet_str, 10)] is given at most three
    digits. *)
Definition _parse_octet (octet_str : str) : option N :=
  if is_empty octet_str then None
  else if negb (isascii_isdigit octet_str) then None
  else if (3 <? length octet_str)%nat then None
  else if negb (str_eqb octet_str (lit "0"))
          && startswith (lit "0") octet_str then None
  else
    let octet_int := int10 octet_str in
    if 255 <? octet_int then None else Some octet_int.

(** [int.from_bytes(bs, 'big')] *)
Definition int_from_bytes (bs : list N) : N :=
  fold_left (fun acc b => acc * 256 + b) bs 0.

(** [_BaseV4._ip_int_from_string] *)
Definition v4_ip_int_from_string (ip_str : str) : option N :=
  if is_empty ip_str then None
  else
    let octets := split (ch ".") ip_str in
    if negb (length octets =? 4)%nat then None
    else int_from_bytes <$> mapM _parse_octet octets.

(** [n.to_bytes(4, 'big')] *)
Definition to_bytes4 (n : N) : list N :=
  [N.shiftr n 24 mod 256; N.shiftr n 16 mod 256; N.shiftr n 8 mod 256;
   n mod 256].

(** [_BaseV4._string_from_ip_int] *)
Definition v4_string_from_ip_int (ip_int : N) : str :=
  join (lit ".") (List.map str_of_int (to_bytes4 ip_int)).

(** [IPv4Address(address)] for a string. *)
Definition IPv4Address (address : str) : option Address :=
  if contains (ch "/") address then None
  else V4 <$> v4_ip_int_from_string address.

(** [_BaseV4._prefix_from_ip_string]: a dotted netmask, or else a
    dotted hostmask. *)
Definition v4_prefix_from_ip_string (ip_str : str) : option N :=
  ip_int ← v4_ip_int_from_string ip_str;
  match _prefix_from_ip_int IPV4LENGTH ip_int with
  | Some p => Some p
  | None => _prefix_from_ip_int IPV4LENGTH (N.lxor ip_int V4_ALL_ONES)
  end.

(** [_BaseV4._make_netmask]; the result is the prefix length. *)
Definition v4_make_netmask (arg : option (list N)) : option N :=
  match arg with
  | None => Some IPV4LENGTH
  | Some s =>
      match _prefix_from_prefix_string IPV4LENGTH s with
      | Some p => Some p
      | None => v4_prefix_from_ip_string s
      end
  end.

(** [IPv4Network(address, strict=False)] *)
Definition IPv4Network (address : str) : option Network :=
  '(addr, mask) ← _split_addr_prefix address;
  a ← IPv4Address addr;
  prefixlen ← v4_make_netmask mask;
  let netmask := _ip_int_from_prefix V4_ALL_ONES prefixlen in
  let packed := _ip a in
  if negb (N.land packed netmask =? packed)
  then Some (MkNetwork (V4 (N.land packed netmask)) prefixlen)
  else Some (MkNetwork a prefixlen).

(** *** IPv6 *)

Definition _HEXTET_COUNT : nat := 8.

(** [_BaseV6._parse_hextet]; [int('', 16)] raises [ValueError]. *)
Definition _parse_hextet (hextet_str : str) : option N :=
  if negb (forallb ishex_char hextet_str) then None
  else if (4 <? length hextet_str)%nat then None
  else if is_empty hextet_str then None
  else Some (int16 hextet_str).

(** One turn of the loop that looks for the ['::'] between the end
    points; the state is [None] once a second one has been met. *)
Definition find_skip_step (parts : list (list N))
  (st : option (option nat)) (i : nat) : option (option nat) :=
  skip_index ← st;
  if is_empty (nth i parts []) then
    match skip_index with
    | Some _ => None
    | None => Some (Some i)
    end
  else Some skip_index.

Definition find_skip_index (parts : list (list N))
  : option (option nat) :=
  fold_left (find_skip_step parts) (seq 1 (length parts - 2)) (Some None).

(** One turn of the loops that shift the hextets in. *)
Definition parse_hextets_step (st : option N) (p : str) : option N :=
  ip_int ← st;
  h ← _parse_hextet p;
  Some (N.lor (N.shiftl ip_int 16) h).

(** [_BaseV6._ip_int_from_string] *)
Definition v6_ip_int_from_string (ip_str : str) : option N :=
  if is_empty ip_str then None
  else
    let parts := split (ch ":") ip_str in
    if (length parts <? 3)%nat then None
    else
      parts ← (if contains (ch ".") (List.last parts [])
               then
                 a ← IPv4Address (List.last parts []);
                 let ipv4_int := _ip a in
                 Some (removelast parts ++
                       [format_x (N.land (N.shiftr ipv4_int 16) 0xFFFF);
                        format_x (N.land ipv4_int 0xFFFF)])
               else Some parts);
      if (_HEXTET_COUNT + 1 <? length parts)%nat then None
      else
        skip_index ← find_skip_index parts;
        '(parts_hi, parts_lo, parts_skipped) ←
          match skip_index with
          | Some skip_index =>
              let parts_hi := skip_index in
              let parts_lo := (length parts - skip_index - 1)%nat in
              parts_hi ← (if is_empty (nth 0 parts []) then
                            let parts_hi := (parts_hi - 1)%nat in
                            if negb (parts_hi =? 0)%nat then None
                            else Some parts_hi
                          else Some parts_hi);
              parts_lo ← (if is_empty (List.last parts []) then
                            let parts_lo := (parts_lo - 1)%nat in
                            if negb (parts_lo =? 0)%nat then None
                            else Some parts_lo
                          else Some parts_lo);
              let parts_skipped :=
                (_HEXTET_COUNT - (parts_hi + parts_lo))%nat in
              if (parts_skipped <? 1)%nat then None
              else Some (parts_hi, parts_lo, parts_skipped)
          | None =>
              if negb (length parts =? _HEXTET_COUNT)%nat then None
              else if is_empty (nth 0 parts []) then None
              else if is_empty (List.last parts []) then None
              else Some (length parts, 0%nat, 0%nat)
          end;
        ip_int ← fold_left parse_hextets_step (take parts_hi parts) (Some 0);
        let ip_int := N.shiftl ip_int (16 * N.of_nat parts_skipped) in
        fold_left parse_hextets_step
          (drop (length parts - parts_lo) parts) (Some ip_int).

(** One turn of the loop of [_compress_hextets]; the state is
    [(best_doublecolon_start, best_doublecolon_len, doublecolon_start,
    doublecolon_len)]. *)
Definition compress_step (st : Z * Z * Z * Z) (ih : nat * list N)
  : Z * Z * Z * Z :=
  let '(best_doublecolon_start, best_doublecolon_len,
        doublecolon_start, doublecolon_len) := st in
  let '(index, hextet) := ih in
  if str_eqb hextet (lit "0") then
    let doublecolon_len := (doublecolon_len + 1)%Z in
    let doublecolon_start :=
      if (doublecolon_start =? -1)%Z then Z.of_nat index
      else doublecolon_start in
    if (best_doublecolon_len <? doublecolon_len)%Z
    then (doublecolon_start, doublecolon_len,
          doublecolon_start, doublecolon_len)
    else (best_doublecolon_start, best_doublecolon_len,
          doublecolon_start, doublecolon_len)
  else (best_doublecolon_start, best_doublecolon_len, (-1)%Z, 0%Z).

(** [_BaseV6._compress_hextets] *)
Definition _compress_hextets (hextets : list (list N)) : list (list N) :=
  let '(best_doublecolon_start, best_doublecolon_len, _, _) :=
    fold_left compress_step
      (combine (seq 0 (length hextets)) hextets)
      ((-1)%Z, 0%Z, (-1)%Z, 0%Z) in
  if (1 <? best_doublecolon_len)%Z then
    let best_doublecolon_end :=
      (best_doublecolon_start + best_doublecolon_len)%Z in
    let hextets :=
      if (best_doublecolon_end =? Z.of_nat (length hextets))%Z
      then hextets ++ [[]] else hextets in
    let hextets :=
      take (Z.to_nat best_doublecolon_start) hextets ++ [[]] ++
      drop (Z.to_nat best_doublecolon_end) hextets in
    if (best_doublecolon_start =? 0)%Z then [] :: hextets else hextets
  else hextets.

(** The [i]-th group of sixteen bits, from the most significant: the
    value of the [i]-th four characters of ['%032x' % ip_int]. *)
Definition hextet_of (ip_int : N) (i : N) : N :=
  N.land (N.shiftr ip_int (16 * (7 - i))) 0xFFFF.

(** [_BaseV6._string_from_ip_int] *)
Definition v6_string_from_ip_int (ip_int : N) : str :=
  let hextets :=
    List.map (fun i => format_x (hextet_of ip_int i))
      [0; 1; 2; 3; 4; 5; 6; 7] in
  join (lit ":") (_compress_hextets hextets).

(** [_BaseV6._split_scope_id] *)
Definition _split_scope_id (ip_str : str)
  : option (str * option (list N)) :=
  let '(addr, sep, scope_id) := partition (ch "%") ip_str in
  if negb sep then Some (addr, None)
  else if is_empty scope_id || contains (ch "%") scope_id then None
  else Some (addr, Some scope_id).

(** [IPv6Address(address)] for a string. *)
Definition IPv6Address (address : str) : option Address :=
  if contains (ch "/") address then None
  else
    '(addr_str, scope_id) ← _split_scope_id address;
    ip ← v6_ip_int_from_string addr_str;
    Some (V6 ip scope_id).

(** [_BaseV6._make_netmask]; the result is the prefix length. *)
Definition v6_make_netmask (arg : option (list N)) : option N :=
  match arg with
  | None => Some IPV6LENGTH
  | Some s => _prefix_from_prefix_string IPV6LENGTH s
  end.

(** [IPv6Network(address, strict=False)] *)
Definition IPv6Network (address : str) : option Network :=
  '(addr, mask) ← _split_addr_prefix address;
  a ← IPv6Address addr;
  prefixlen ← v6_make_netmask mask;
  let netmask := _ip_int_from_prefix V6_ALL_ONES prefixlen in
  let packed := _ip a in
  if negb (N.land packed netmask =? packed)
  then Some (MkNetwork (V6 (N.land packed netmask) None) prefixlen)
  else Some (MkNetwork a prefixlen).

(** *** The factory functions and [str()] *)

(** [ipaddress.ip_address(address)] *)
Definition ip_address (address : str) : option Address :=
  match IPv4Address address with
  | Some a => Some a
  | None => IPv6Address address
  end.

(** [ipaddress.ip_network(address, strict=False)] *)
Definition ip_network (address : str) : option Network :=
  match IPv4Network address with
  | Some n => Some n
  | None => IPv6Network address
  end.

(** [net.netmask], as an integer. *)
Definition netmask (n : Network) : N :=
  _ip_int_from_prefix
    (if is_v4 (network_address n) then V4_ALL_ONES else V6_ALL_ONES)
    (prefixlen n).

(** [str(ip)] for an address. *)
Definition str_of_address (a : Address) : str :=
  match a with
  | V4 ip => v4_string_from_ip_int ip
  | V6 ip scope_id =>
      let ip_str := v6_string_from_ip_int ip in
      match scope_id with
      | Some sc => if is_empty sc then ip_str else ip_str ++ lit "%" ++ sc
      | None => ip_str
      end
  end.

(** [str(net)]: ['%s/%d' % (network_address, prefixlen)] *)
Definition str_of_network (n : Network) : str :=
  str_of_address (network_address n) ++ lit "/" ++ str_of_int (prefixlen n).

End ipaddress.

(** ** The scripts *)

(** The f-strings the IP scripts share: the CIDR text of a bare address
    and the rule line of a CIDR text. *)
Definition host_cidr (ip : ipaddress.Address) : str :=
  if ipaddress.is_v4 ip then ipaddress.str_of_address ip ++ lit "/32"
  else ipaddress.str_of_address ip ++ lit "/128".

Definition ip_rule (cidr : str) : str :=
  lit "IP-CIDR," ++ cidr ++ lit ",no-resolve".

Definition domain_rule (line : str) : str := lit "DOMAIN-SUFFIX," ++ line.

(** *** [domains.py] *)

Module Domains.
Import Py.

Definition MAKE_BACKUP : bool := true.

(** The body of the loop over [src_lines]; the state is
    [(out_lines, changed)]. *)
Definition loop_body (st : list (list N) * nat) (raw : str)
  : list (list N) * nat :=
  let '(out_lines, changed) := st in
  let line := strip raw in
  if is_empty line then (out_lines ++ [raw], changed)
  else if startswith (lit "#") line then (out_lines ++ [raw], changed)
  else if startswith (lit "DOMAIN-SUFFIX,") line
       then (out_lines ++ [line], changed)
  else (out_lines ++ [domain_rule line], S changed).

Definition process_lines (src_lines : list (list N))
  : list (list N) * nat :=
  fold_left loop_body src_lines ([], O).

Definition process_lst_file (path : string) (fs : gmap string (list N))
  : option (gmap string (list N) * nat) :=
  text ← read_text fs path;
  let src_lines := splitlines text in
  let '(out_lines, changed) := process_lines src_lines in
  let fs :=
    if MAKE_BACKUP then write_text fs (bak_path path) (join NL src_lines)
    else fs in
  let fs := write_text fs path (join NL out_lines ++ NL) in
  Some (fs, changed).

Definition TARGET_DIRS : list string := ["domains/services"%string].

(** The lines that [main] prints: the warning for a directory that is
    not found, the line of a processed file with its count, and the last
    line with the totals. *)
Inductive Msg : Type :=
| DirNotFound (d : string)
| FileDone (file : string) (changed : nat)
| Done (total_files total_lines : nat).

(** The body of the loop over the files of a directory.  The state is
    the store, the lines printed so far and
    [(total_files, total_lines)]; the totals are [None] once an
    exception of [process_lst_file] has ended the run. *)
Definition file_step
  (st : gmap string (list N) * list Msg * option (nat * nat))
  (file : string) : gmap string (list N) * list Msg * option (nat * nat) :=
  let '(fs, out, totals) := st in
  match totals with
  | None => st
  | Some (total_files, total_lines) =>
      match process_lst_file file fs with
      | None => (fs, out, None)
      | Some (fs, changed) =>
          (fs, out ++ [FileDone file changed],
           Some (S total_files, (total_lines + changed)%nat))
      end
  end.

(** The body of the loop over [TARGET_DIRS]. *)
Definition dir_step (env : Env)
  (st : gmap string (list N) * list Msg * option (nat * nat))
  (d : string) : gmap string (list N) * list Msg * option (nat * nat) :=
  let '(fs, out, totals) := st in
  match totals with
  | None => st
  | Some _ =>
      if negb (is_dir env d) then (fs, out ++ [DirNotFound d], totals)
      else fold_left file_step (rglob env d "*.lst" fs) st
  end.

(** [main()]: the store it leaves, the lines it printed and the totals
    it reached, [None] when an exception ended it. *)
Definition main (env : Env) (fs : gmap string (list N))
  : gmap string (list N) * list Msg * option (nat * nat) :=
  let '(fs, out, totals) :=
    fold_left (dir_step env) TARGET_DIRS (fs, [], Some (O, O)) in
  match totals with
  | None => (fs, out, None)
  | Some (total_files, total_lines) =>
      (fs, out ++ [Done total_files total_lines], totals)
  end.

(** *** The run with the errors of its writes

    The definitions above take the two writes of a file to go through.
    In [Io] they can raise, as the read does: a file function returns
    the store that it leaves and its result, [None] when an exception
    ended it, and the loops stop there. *)
Module Io.

Definition process_lst_file (writable : string -> bool) (path : string)
  (fs : gmap string (list N)) : gmap string (list N) * option nat :=
  match read_text fs path with
  | None => (fs, None)
  | Some text =>
      let src_lines := splitlines text in
      let '(out_lines, changed) := process_lines src_lines in
      match (if MAKE_BACKUP
             then try_write_text writable fs (bak_path path)
                    (join NL src_lines)
             else Some fs) with
      | None => (fs, None)
      | Some fs =>
          match try_write_text writable fs path (join NL out_lines ++ NL) with
          | None => (fs, None)
          | Some fs => (fs, Some changed)
          end
      end
  end.

Definition file_step (writable : string -> bool)
  (st : gmap string (list N) * list Msg * option (nat * nat))
  (file : string) : gmap string (list N) * list Msg * option (nat * nat) :=
  let '(fs, out, totals) := st in
  match totals with
  | None => st
  | Some (total_files, total_lines) =>
      match process_lst_file writable file fs with
      | (fs, None) => (fs, out, None)
      | (fs, Some changed) =>
          (fs, out ++ [FileDone file changed],
           Some (S total_files, (total_lines + changed)%nat))
      end
  end.

Definition dir_step (writable : string -> bool) (env : Env)
  (st : gmap string (list N) * list Msg * option (nat * nat))
  (d : string) : gmap string (list N) * list Msg * option (nat * nat) :=
  let '(fs, out, totals) := st in
  match totals with
  | None => st
  | Some _ =>
      if negb (is_dir env d) then (fs, out ++ [DirNotFound d], totals)
      else fold_left (file_step writable) (rglob env d "*.lst" fs) st
  end.

Definition main (writable : string -> bool) (env : Env)
  (fs : gmap string (list N))
  : gmap string (list N) * list Msg * option (nat * nat) :=
  let '(fs, out, totals) :=
    fold_left (dir_step writable env) TARGET_DIRS (fs, [], Some (O, O)) in
  match totals with
  | None => (fs, out, None)
  | Some (total_files, total_lines) =>
      (fs, out ++ [Done total_files total_lines], totals)
  end.

End Io.

End Domains.

(** *** [ip.py] *)

Module Ip.
Import Py ipaddress.

Definition MAKE_BACKUP : bool := true.

Definition normalize_ip_or_cidr (line : str) : option str :=
  let s := strip line in
  if startswith (lit "IP-CIDR,") (upper s) then
    let body := strip (nth 1 (split1 (ch ",") s) []) in
    let parts := List.map strip (split (ch ",") body) in
    let cidr_raw := match parts with p :: _ => p | [] => [] end in
    match (if contains (ch "/") cidr_raw
           then str_of_network <$> ip_network cidr_raw
           else host_cidr <$> ip_address cidr_raw) with
    | Some cidr => Some (ip_rule cidr)
    | None => None
    end
  else if is_empty s || startswith (lit "#") s then Some s
  else
    match (if contains (ch "/") s then ip_network s else None) with
    | Some net => Some (ip_rule (str_of_network net))
    | None =>
        match ip_address s with
        | Some ip => Some (ip_rule (host_cidr ip))
        | None => None
        end
    end.

(** The body of the loop over [src_lines]; the state is
    [(out_lines, changed, kept)]. *)
Definition loop_body (st : list (list N) * nat * nat) (raw : str)
  : list (list N) * nat * nat :=
  let '(out_lines, changed, kept) := st in
  match normalize_ip_or_cidr raw with
  | None => st
  | Some res =>
      if str_eqb res raw then (out_lines ++ [raw], changed, S kept)
      else (out_lines ++ [res], S changed, kept)
  end.

Definition process_lines (src_lines : list (list N))
  : list (list N) * nat * nat :=
  fold_left loop_body src_lines ([], O, O).

Definition process_lst_file (path : string) (fs : gmap string (list N))
  : option (gmap string (list N) * (nat * nat)) :=
  text ← read_text fs path;
  let src_lines := splitlines text in
  let '(out_lines, changed, kept) := process_lines src_lines in
  let fs :=
    if MAKE_BACKUP then write_text fs (bak_path path) (join NL src_lines)
    else fs in
  let fs := write_text fs path (join NL out_lines ++ NL) in
  Some (fs, (changed, kept)).

Definition TARGET_DIRS : list string := ["domains/ip"%string].

(** The lines that [main] prints: the warning for a directory that is
    not found, the line of a processed file with its two counts, and the
    last line with the totals. *)
Inductive Msg : Type :=
| DirNotFound (d : string)
| FileDone (file : string) (changed kept : nat)
| Done (total_files total_changed total_kept : nat).

(** The body of the loop over the files of a directory.  The state is
    the store, the lines printed so far and
    [(total_files, total_changed, total_kept)]; the totals are [None]
    once an exception of [process_lst_file] has ended the run. *)
Definition file_step
  (st : gmap string (list N) * list Msg * option (nat * nat * nat))
  (file : string)
  : gmap string (list N) * list Msg * option (nat * nat * nat) :=
  let '(fs, out, totals) := st in
  match totals with
  | None => st
  | Some (total_files, total_changed, total_kept) =>
      match process_lst_file file fs with
      | None => (fs, out, None)
      | Some (fs, (changed, kept)) =>
          (fs, out ++ [FileDone file changed kept],
           Some (S total_files, (total_changed + changed)%nat,
                 (total_kept + kept)%nat))
      end
  end.

(** The body of the loop over [TARGET_DIRS]. *)
Definition dir_step (env : Env)
  (st : gmap string (list N) * list Msg * option (nat * nat * nat))
  (d : string)
  : gmap string (list N) * list Msg * option (nat * nat * nat) :=
  let '(fs, out, totals) := st in
  match totals with
  | None => st
  | Some _ =>
      if negb (is_dir env d) then (fs, out ++ [DirNotFound d], totals)
      else fold_left file_step (rglob env d "*.lst" fs) st
  end.

(** [main()]: the store it leaves, the lines it printed and the totals
    it reached, [None] when an exception ended it. *)
Definition main (env : Env) (fs : gmap string (list N))
  : gmap string (list N) * list Msg * option (nat * nat * nat) :=
  let '(fs, out, totals) :=
    fold_left (dir_step env) TARGET_DIRS (fs, [], Some (O, O, O)) in
  match totals with
  | None => (fs, out, None)
  | Some (total_files, total_changed, total_kept) =>
      (fs, out ++ [Done total_files total_changed total_kept], totals)
  end.

(** *** The run with the errors of its writes

    The definitions above take the two writes of a file to go through.
    In [Io] they can raise, as the read does: a file function returns
    the store that it leaves and its result, [None] when an exception
    ended it, and the loops stop there. *)
Module Io.

Definition process_lst_file (writable : string -> bool) (path : string)
  (fs : gmap string (list N)) : gmap string (list N) * option (nat * nat) :=
  match read_text fs path with
  | None => (fs, None)
  | Some text =>
      let src_lines := splitlines text in
      let '(out_lines, changed, kept) := process_lines src_lines in
      match (if MAKE_BACKUP
             then try_write_text writable fs (bak_path path)
                    (join NL src_lines)
             else Some fs) with
      | None => (fs, None)
      | Some fs =>
          match try_write_text writable fs path (join NL out_lines ++ NL) with
          | None => (fs, None)
          | Some fs => (fs, Some (changed, kept))
          end
      end
  end.

Definition file_step (writable : string -> bool)
  (st : gmap string (list N) * list Msg * option (nat * nat * nat))
  (file : string)
  : gmap string (list N) * list Msg * option (nat * nat * nat) :=
  let '(fs, out, totals) := st in
  match totals with
  | None => st
  | Some (total_files, total_changed, total_kept) =>
      match process_lst_file writable file fs with
      | (fs, None) => (fs, out, None)
      | (fs, Some (changed, kept)) =>
          (fs, out ++ [FileDone file changed kept],
           Some (S total_files, (total_changed + changed)%nat,
                 (total_kept + kept)%nat))
      end
  end.

Definition dir_step (writable : string -> bool) (env : Env)
  (st : gmap string (list N) * list Msg * option (nat * nat * nat))
  (d : string)
  : gmap string (list N) * list Msg * option (nat * nat * nat) :=
  let '(fs, out, totals) := st in
  match totals with
  | None => st
  | Some _ =>
      if negb (is_dir env d) then (fs, out ++ [DirNotFound d], totals)
      else fold_left (file_step writable) (rglob env d "*.lst" fs) st
  end.

Definition main (writable : string -> bool) (env : Env)
  (fs : gmap string (list N))
  : gmap string (list N) * list Msg * option (nat * nat * nat) :=
  let '(fs, out, totals) :=
    fold_left (dir_step writable env) TARGET_DIRS (fs, [], Some (O, O, O)) in
  match totals with
  | None => (fs, out, None)
  | Some (total_files, total_changed, total_kept) =>
      (fs, out ++ [Done total_files total_changed total_kept], totals)
  end.

End Io.

End Ip.

(** *** [domains_ip.py] *)

Module DomainsIp.
Import Py ipaddress.

Definition MAKE_BACKUP : bool := true.

(** The body of the loop of [process_domain_lst_file]. *)
Definition domain_loop_body (st : list (list N) * nat) (raw : str)
  : list (list N) * nat :=
  let '(out_lines, changed) := st in
  let line := strip raw in
  if is_empty line || startswith (lit "#") line
  then (out_lines ++ [raw], changed)
  else if startswith (lit "DOMAIN-SUFFIX,") line
       then (out_lines ++ [line], changed)
  else (out_lines ++ [domain_rule line], S changed).

Definition process_domain_lines (src_lines : list (list N))
  : list (list N) * nat :=
  fold_left domain_loop_body src_lines ([], O).

Definition process_domain_lst_file (path : string)
  (fs : gmap string (list N)) : option (gmap string (list N) * nat) :=
  text ← read_text fs path;
  let src_lines := splitlines text in
  let '(out_lines, changed) := process_domain_lines src_lines in
  let fs :=
    if MAKE_BACKUP then write_text fs (bak_path path) (join NL src_lines)
    else fs in
  let fs := write_text fs path (join NL out_lines ++ NL) in
  Some (fs, changed).

Definition normalize_ip_or_cidr (line : str) : option str :=
  let s := strip line in
  if startswith (lit "IP-CIDR,") (upper s) then
    let body := strip (nth 1 (split1 (ch ",") s) []) in
    let parts := List.map strip (split (ch ",") body) in
    let cidr_raw := match parts with p :: _ => p | [] => [] end in
    match (if contains (ch "/") cidr_raw
           then str_of_network <$> ip_network cidr_raw
           else host_cidr <$> ip_address cidr_raw) with
    | Some cidr => Some (ip_rule cidr)
    | None => None
    end
  else if is_empty s || startswith (lit "#") s then Some line
  else
    match (if contains (ch "/") s then ip_network s else None) with
    | Some net => Some (ip_rule (str_of_network net))
    | None =>
        match ip_address s with
        | Some ip => Some (ip_rule (host_cidr ip))
        | None => None
        end
    end.

(** The body of the loop of [process_ip_lst_file]. *)
Definition ip_loop_body (st : list (list N) * nat * nat) (raw : str)
  : list (list N) * nat * nat :=
  let '(out_lines, changed, kept) := st in
  match normalize_ip_or_cidr raw with
  | None => st
  | Some res =>
      if str_eqb res raw then (out_lines ++ [raw], changed, S kept)
      else (out_lines ++ [res], S changed, kept)
  end.

Definition process_ip_lines (src_lines : list (list N))
  : list (list N) * nat * nat :=
  fold_left ip_loop_body src_lines ([], O, O).

Definition process_ip_lst_file (path : string) (fs : gmap string (list N))
  : option (gmap string (list N) * (nat * nat)) :=
  text ← read_text fs path;
  let src_lines := splitlines text in
  let '(out_lines, changed, kept) := process_ip_lines src_lines in
  let fs :=
    if MAKE_BACKUP then write_text fs (bak_path path) (join NL src_lines)
    else fs in
  let fs := write_text fs path (join NL out_lines ++ NL) in
  Some (fs, (changed, kept)).

Definition DOMAIN_DIRS : list string := ["domains/services"%string].
Definition IP_DIRS : list string := ["domains/ip"%string].

(** The lines that [main] prints: for the domain lists and for the IP
    lists the warning for a directory that is not found and the line of
    a processed file, then the heading of the summary and its two
    lines. *)
Inductive Msg : Type :=
| DomainDirNotFound (d : string)
| DomainFileDone (file : string) (changed : nat)
| IpDirNotFound (d : string)
| IpFileDone (file : string) (changed kept : nat)
| Summary
| DomainTotals (total_dom_files total_dom_changed : nat)
| IpTotals (total_ip_files total_ip_changed total_ip_kept : nat).

(** The bodies of the two loops over the domain lists; the state is the
    store, the lines printed so far and
    [(total_dom_files, total_dom_changed)], [None] once an exception has
    ended the run. *)
Definition domain_file_step
  (st : gmap string (list N) * list Msg * option (nat * nat))
  (file : string) : gmap string (list N) * list Msg * option (nat * nat) :=
  let '(fs, out, totals) := st in
  match totals with
  | None => st
  | Some (total_dom_files, total_dom_changed) =>
      match process_domain_lst_file file fs with
      | None => (fs, out, None)
      | Some (fs, changed) =>
          (fs, out ++ [DomainFileDone file changed],
           Some (S total_dom_files, (total_dom_changed + changed)%nat))
      end
  end.

Definition domain_dir_step (env : Env)
  (st : gmap string (list N) * list Msg * option (nat * nat))
  (d : string) : gmap string (list N) * list Msg * option (nat * nat) :=
  let '(fs, out, totals) := st in
  match totals with
  | None => st
  | Some _ =>
      if negb (is_dir env d) then (fs, out ++ [DomainDirNotFound d], totals)
      else fold_left domain_file_step (rglob env d "*.lst" fs) st
  end.

(** The bodies of the two loops over the IP lists; the totals are
    [(total_ip_files, total_ip_changed, total_ip_kept)]. *)
Definition ip_file_step
  (st : gmap string (list N) * list Msg * option (nat * nat * nat))
  (file : string)
  : gmap string (list N) * list Msg * option (nat * nat * nat) :=
  let '(fs, out, totals) := st in
  match totals with
  | None => st
  | Some (total_ip_files, total_ip_changed, total_ip_kept) =>
      match process_ip_lst_file file fs with
      | None => (fs, out, None)
      | Some (fs, (changed, kept)) =>
          (fs, out ++ [IpFileDone file changed kept],
           Some (S total_ip_files, (total_ip_changed + changed)%nat,
                 (total_ip_kept + kept)%nat))
      end
  end.

Definition ip_dir_step (env : Env)
  (st : gmap string (list N) * list Msg * option (nat * nat * nat))
  (d : string)
  : gmap string (list N) * list Msg * option (nat * nat * nat) :=
  let '(fs, out, totals) := st in
  match totals with
  | None => st
  | Some _ =>
      if negb (is_dir env d) then (fs, out ++ [IpDirNotFound d], totals)
      else fold_left ip_file_step (rglob env d "*.lst" fs) st
  end.

(** [main()]: the store it leaves, the lines it printed and the totals
    of the two kinds of lists, [None] when an exception ended it. *)
Definition main (env : Env) (fs : gmap string (list N))
  : gmap string (list N) * list Msg *
    option ((nat * nat) * (nat * nat * nat)) :=
  let '(fs, out, dom_totals) :=
    fold_left (domain_dir_step env) DOMAIN_DIRS (fs, [], Some (O, O)) in
  match dom_totals with
  | None => (fs, out, None)
  | Some (total_dom_files, total_dom_changed) =>
      let '(fs, out, ip_totals) :=
        fold_left (ip_dir_step env) IP_DIRS (fs, out, Some (O, O, O)) in
      match ip_totals with
      | None => (fs, out, None)
      | Some (total_ip_files, total_ip_changed, total_ip_kept) =>
          (fs,
           out ++ [Summary;
                   DomainTotals total_dom_files total_dom_changed;
                   IpTotals total_ip_files total_ip_changed total_ip_kept],
           Some ((total_dom_files, total_dom_changed),
                 (total_ip_files, total_ip_changed, total_ip_kept)))
      end
  end.

(** *** The run with the errors of its writes

    The definitions above take the two writes of a file to go through.
    In [Io] they can raise, as the read does: a file function returns
    the store that it leaves and its result, [None] when an exception
    ended it, and the loops stop there. *)
Module Io.

Definition process_domain_lst_file (writable : string -> bool)
  (path : string) (fs : gmap string (list N))
  : gmap string (list N) * option nat :=
  match read_text fs path with
  | None => (fs, None)
  | Some text =>
      let src_lines := splitlines text in
      let '(out_lines, changed) := process_domain_lines src_lines in
      match (if MAKE_BACKUP
             then try_write_text writable fs (bak_path path)
                    (join NL src_lines)
             else Some fs) with
      | None => (fs, None)
      | Some fs =>
          match try_write_text writable fs path (join NL out_lines ++ NL) with
          | None => (fs, None)
          | Some fs => (fs, Some changed)
          end
      end
  end.

Definition process_ip_lst_file (writable : string -> bool) (path : string)
  (fs : gmap string (list N)) : gmap string (list N) * option (nat * nat) :=
  match read_text fs path with
  | None => (fs, None)
  | Some text =>
      let src_lines := splitlines text in
      let '(out_lines, changed, kept) := process_ip_lines src_lines in
      match (if MAKE_BACKUP
             then try_write_text writable fs (bak_path path)
                    (join NL src_lines)
             else Some fs) with
      | None => (fs, None)
      | Some fs =>
          match try_write_text writable fs path (join NL out_lines ++ NL) with
          | None => (fs, None)
          | Some fs => (fs, Some (changed, kept))
          end
      end
  end.

Definition domain_file_step (writable : string -> bool)
  (st : gmap string (list N) * list Msg * option (nat * nat))
  (file : string) : gmap string (list N) * list Msg * option (nat * nat) :=
  let '(fs, out, totals) := st in
  match totals with
  | None => st
  | Some (total_dom_files, total_dom_changed) =>
      match process_domain_lst_file writable file fs with
      | (fs, None) => (fs, out, None)
      | (fs, Some changed) =>
          (fs, out ++ [DomainFileDone file changed],
           Some (S total_dom_files, (total_dom_changed + changed)%nat))
      end
  end.

Definition domain_dir_step (writable : string -> bool) (env : Env)
  (st : gmap string (list N) * list Msg * option (nat * nat))
  (d : string) : gmap string (list N) * list Msg * option (nat * nat) :=
  let '(fs, out, totals) := st in
  match totals with
  | None => st
  | Some _ =>
      if negb (is_dir env d) then (fs, out ++ [DomainDirNotFound d], totals)
      else fold_left (domain_file_step writable) (rglob env d "*.lst" fs) st
  end.

Definition ip_file_step (writable : string -> bool)
  (st : gmap string (list N) * list Msg * option (nat * nat * nat))
  (file : string)
  : gmap string (list N) * list Msg * option (nat * nat * nat) :=
  let '(fs, out, totals) := st in
  match totals with
  | None => st
  | Some (total_ip_files, total_ip_changed, total_ip_kept) =>
      match process_ip_lst_file writable file fs with
      | (fs, None) => (fs, out, None)
      | (fs, Some (changed, kept)) =>
          (fs, out ++ [IpFileDone file changed kept],
           Some (S total_ip_files, (total_ip_changed + changed)%nat,
                 (total_ip_kept + kept)%nat))
      end
  end.

Definition ip_dir_step (writable : string -> bool) (env : Env)
  (st : gmap string (list N) * list Msg * option (nat * nat * nat))
  (d : string)
  : gmap string (list N) * list Msg * option (nat * nat * nat) :=
  let '(fs, out, totals) := st in
  match totals with
  | None => st
  | Some _ =>
      if negb (is_dir env d) then (fs, out ++ [IpDirNotFound d], totals)
      else fold_left (ip_file_step writable) (rglob env d "*.lst" fs) st
  end.

Definition main (writable : string -> bool) (env : Env)
  (fs : gmap string (list N))
  : gmap string (list N) * list Msg *
    option ((nat * nat) * (nat * nat * nat)) :=
  let '(fs, out, dom_totals) :=
    fold_left (domain_dir_step writable env) DOMAIN_DIRS
      (fs, [], Some (O, O)) in
  match dom_totals with
  | None => (fs, out, None)
  | Some (total_dom_files, total_dom_changed) =>
      let '(fs, out, ip_totals) :=
        fold_left (ip_dir_step writable env) IP_DIRS
          (fs, out, Some (O, O, O)) in
      match ip_totals with
      | None => (fs, out, None)
      | Some (total_ip_files, total_ip_changed, total_ip_kept) =>
          (fs,
           out ++ [Summary;
                   DomainTotals total_dom_files total_dom_changed;
                   IpTotals total_ip_files total_ip_changed total_ip_kept],
           Some ((total_dom_files, total_dom_changed),
                 (total_ip_files, total_ip_changed, total_ip_kept)))
      end
  end.

End Io.

End DomainsIp.

(** *** [clean_bak.py] *)

Module CleanBak.

Definition DOMAIN_DIRS : list string := ["domains/services"%string].
Definition IP_DIRS : list string := ["domains/ip"%string].

(** The lines that the script prints: the warning for a directory that
    is not found, the line of a removed file, the line of a file whose
    removal raised, and the last line of [main] with the total. *)
Inductive Msg : Type :=
| DirNotFound (d : string)
| Removed (file : string)
| RemoveFailed (file : string)
| Total (total : nat).

(** The body of the loop over the backups of a directory, with its
    [try] and [except]; the state is the store, the lines printed so far
    and [total_removed]. *)
Definition remove_step (st : gmap string (list N) * list Msg * nat)
  (file : string) : gmap string (list N) * list Msg * nat :=
  let '(fs, out, total_removed) := st in
  match unlink fs file with
  | Some fs => (fs, out ++ [Removed file], S total_removed)
  | None => (fs, out ++ [RemoveFailed file], total_removed)
  end.

(** The body of the loop over [dirs]. *)
Definition dir_step (env : Env) (st : gmap string (list N) * list Msg * nat)
  (d : string) : gmap string (list N) * list Msg * nat :=
  let '(fs, out, total_removed) := st in
  if negb (is_dir env d) then (fs, out ++ [DirNotFound d], total_removed)
  else fold_left remove_step (rglob env d "*.bak" fs) st.

(** [clean_backups(dirs)], from a store and the lines printed so far. *)
Definition clean_backups (env : Env) (dirs : list string)
  (fs : gmap string (list N)) (out : list Msg)
  : gmap string (list N) * list Msg * nat :=
  fold_left (dir_step env) dirs (fs, out, O).

(** [main()]: the store it leaves, the lines it printed and the total
    of the last line. *)
Definition main (env : Env) (fs : gmap string (list N))
  : gmap string (list N) * list Msg * nat :=
  let total := O in
  let '(fs, out, removed) := clean_backups env DOMAIN_DIRS fs [] in
  let total := (total + removed)%nat in
  let '(fs, out, removed) := clean_backups env IP_DIRS fs out in
  let total := (total + removed)%nat in
  (fs, out ++ [Total total], total).

(** *** The run with the removals that are refused

    The definitions above take every file of the store to be removable.
    In [Io] a removal can also raise on a file; the [except] of the loop
    body catches that as it catches the others. *)
Module Io.

Definition remove_step (removable : string -> bool)
  (st : gmap string (list N) * list Msg * nat) (file : string)
  : gmap string (list N) * list Msg * nat :=
  let '(fs, out, total_removed) := st in
  match try_unlink removable fs file with
  | Some fs => (fs, out ++ [Removed file], S total_removed)
  | None => (fs, out ++ [RemoveFailed file], total_removed)
  end.

Definition dir_step (removable : string -> bool) (env : Env)
  (st : gmap string (list N) * list Msg * nat) (d : string)
  : gmap string (list N) * list Msg * nat :=
  let '(fs, out, total_removed) := st in
  if negb (is_dir env d) then (fs, out ++ [DirNotFound d], total_removed)
  else fold_left (remove_step removable) (rglob env d "*.bak" fs) st.

Definition clean_backups (removable : string -> bool) (env : Env)
  (dirs : list string) (fs : gmap string (list N)) (out : list Msg)
  : gmap string (list N) * list Msg * nat :=
  fold_left (dir_step removable env) dirs (fs, out, O).

Definition main (removable : string -> bool) (env : Env)
  (fs : gmap string (list N))
  : gmap string (list N) * list Msg * nat :=
  let total := O in
  let '(fs, out, removed) :=
    clean_backups removable env DOMAIN_DIRS fs [] in
  let total := (total + removed)%nat in
  let '(fs, out, removed) := clean_backups removable env IP_DIRS fs out in
  let total := (total + removed)%nat in
  (fs, out ++ [Total total], total).

End Io.

End CleanBak.

(** ** The specification's reading of the normalisers

    Definitions that follow the words of the specification; the
    theorems below compare them with the scripts. *)

Module Spec.
Import Py.

(** A blank line: nothing but white space. *)
Definition is_blank (raw : str) : bool := forallb isspace raw.

(** A comment line: the first character that is not white space is
    [#]. *)
Definition is_comment (raw : str) : bool :=
  match lstrip raw with
  | c :: _ => c =? ch "#"
  | [] => false
  end.

(** The trimmed line already starts with the exact literal. *)
Definition has_domain_prefix (raw : str) : bool :=
  startswith (lit "DOMAIN-SUFFIX,") (strip raw).

(** The transformation of one line of a domain list. *)
Definition domain_line (raw : str) : str :=
  if is_blank raw then raw
  else if is_comment raw then raw
  else if has_domain_prefix raw then strip raw
  else lit "DOMAIN-SUFFIX," ++ strip raw.

(** The lines that receive a new prefix. *)
Definition receives_prefix (raw : str) : bool :=
  negb (is_blank raw) && negb (is_comment raw)
  && negb (has_domain_prefix raw).

Definition domain_normalizer (src_lines : list (list N))
  : list (list N) * nat :=
  (List.map domain_line src_lines,
   length (List.filter receives_prefix src_lines)).

(** The line is taken as already prefixed (whatever its casing). *)
Definition is_prefixed (s : str) : bool :=
  startswith (lit "IP-CIDR,") (upper s).

(** The first comma-separated field of what follows the eight
    characters of the prefix. *)
Definition prefixed_candidate (s : str) : str :=
  strip (hd [] (split (ch ",") (strip (drop 8 s)))).

(** The canonical CIDR text of a candidate: a network when it has a
    [/], a bare address otherwise. *)
Definition candidate_cidr (c : str) : option str :=
  if contains (ch "/") c
  then ipaddress.str_of_network <$> ipaddress.ip_network c
  else host_cidr <$> ipaddress.ip_address c.

(** The whole-file IP transformation for a line normaliser: rejected
    lines are left out, the others are kept in order; a line counts as
    kept when its result is the raw line and as changed otherwise. *)
Definition line_changed (normalize : list N -> option (list N))
  (raw : str) : bool :=
  match normalize raw with
  | Some res => negb (str_eqb res raw)
  | None => false
  end.

Definition line_kept (normalize : list N -> option (list N))
  (raw : str) : bool :=
  match normalize raw with
  | Some res => str_eqb res raw
  | None => false
  end.

Definition ip_normalizer (normalize : list N -> option (list N))
  (src_lines : list (list N)) : list (list N) * nat * nat :=
  (omap normalize src_lines,
   length (List.filter (line_changed normalize) src_lines),
   length (List.filter (line_kept normalize) src_lines)).

(** Two texts that differ in the case of their ASCII letters only. *)
Definition ascii_lower (c : char) : char :=
  if (0x41 <=? c) && (c <=? 0x5A) then c + 0x20 else c.

Definition same_ignoring_case (a b : str) : Prop :=
  List.map ascii_lower a = List.map ascii_lower b.

(** A text whose only line boundaries are line feeds, and a text that
    ends with a line feed. *)
Definition lf_only (s : str) : bool :=
  forallb (fun c => negb (islinebreak c) || (c =? 0x0A)) s.

Definition ends_with_newline (s : str) : bool := List.last s 0 =? 0x0A.

(** The lines joined by a line feed and followed by one more: each line
    is followed by one line feed, and no line at all gives a single line
    feed. *)
Definition terminated_lines (lines : list str) : str :=
  match lines with
  | [] => NL
  | _ :: _ => List.concat (List.map (fun l => l ++ NL) lines)
  end.

(** A text that ends with exactly one line terminator: its last
    character is a line feed and the character before it, if there is
    one, is not a line boundary. *)
Definition one_trailing_newline (s : str) : bool :=
  match rev s with
  | [] => false
  | c :: before =>
      (c =? 0x0A) &&
      match before with
      | [] => true
      | d :: _ => negb (islinebreak d)
      end
  end.

(** The CIDR text of a rule line, and the rule lines whose CIDR text
    has no comma. *)
Definition rule_cidr (r : str) : str := take (length r - 19) (drop 8 r).

Definition comma_free_rule (r : str) : bool :=
  negb (startswith (lit "IP-CIDR,") r && contains (ch ",") (rule_cidr r)).

End Spec.

(** ** Definitions used by the proofs *)

Module Aux.
Import Py ipaddress.

(** The characters that occur in ["IP-CIDR,"]. *)
Definition prefix_chars : list N :=
  [0x49; 0x50; 0x2D; 0x43; 0x44; 0x52; 0x2C].

(** The first character of an address or network text. *)
Definition valid_start (s : list N) : Prop :=
  exists c t, s = c :: t /\ (ishex_char c = true \/ c = ch ":").

(** The decimal digits. *)
Definition digits : list N :=
  [0x30; 0x31; 0x32; 0x33; 0x34; 0x35; 0x36; 0x37; 0x38; 0x39].

(** The text of a parsed octet is the octet text. *)
Definition octet_ok (o : list N) : bool :=
  match _parse_octet o with
  | Some v => str_eqb (str_of_int v) o
  | None => true
  end.

(** The loop body shared by [ip.py] and [domains_ip.py], over the
    line normaliser of either. *)
Definition body (normalize : list N -> option (list N))
  (st : list (list N) * nat * nat) (raw : list N)
  : list (list N) * nat * nat :=
  let '(out_lines, changed, kept) := st in
  match normalize raw with
  | None => st
  | Some res =>
      if str_eqb res raw then (out_lines ++ [raw], changed, S kept)
      else (out_lines ++ [res], S changed, kept)
  end.

(** [P] holds of the [fuel] numbers from [i] on. *)
Fixpoint forall_from (fuel : nat) (i : N) (P : N -> bool) : bool :=
  match fuel with
  | O => true
  | S k => P i && forall_from k (N.succ i) P
  end.

(** The text of a hextet is made of hexadecimal digits, is read back as
    the hextet, and is ["0"] exactly for 0. *)
Definition hextet_ok (h : N) : bool :=
  match _parse_hextet (format_x h) with
  | Some v => v =? h
  | None => false
  end
  && negb (is_empty (format_x h))
  && forallb ishex_char (format_x h)
  && eqb (str_eqb (format_x h) (lit "0")) (h =? 0).

(** The loop of [_compress_hextets] over the flags "this hextet is 0". *)
Definition flag_step (st : Z * Z * Z * Z) (ib : nat * bool) : Z * Z * Z * Z :=
  let '(best_start, best_len, start, len) := st in
  let '(index, zero) := ib in
  if zero then
    let len := (len + 1)%Z in
    let start := if (start =? -1)%Z then Z.of_nat index else start in
    if (best_len <? len)%Z then (start, len, start, len)
    else (best_start, best_len, start, len)
  else (best_start, best_len, (-1)%Z, 0%Z).

(** [_compress_hextets] over a list of any type, the zero hextets given
    by [flags] and the empty text by [e]. *)
Definition compress_with {A : Type} (e : A) (flags : list bool)
  (hextets : list A) : list A :=
  let '(best_start, best_len, _, _) :=
    fold_left flag_step (combine (seq 0 (length flags)) flags)
      ((-1)%Z, 0%Z, (-1)%Z, 0%Z) in
  if (1 <? best_len)%Z then
    let best_end := (best_start + best_len)%Z in
    let hextets :=
      if (best_end =? Z.of_nat (length hextets))%Z
      then hextets ++ [e] else hextets in
    let hextets :=
      take (Z.to_nat best_start) hextets ++ [e] ++
      drop (Z.to_nat best_end) hextets in
    if (best_start =? 0)%Z then e :: hextets else hextets
  else hextets.

(** The body of [_ip_int_from_string] after the split. *)
Definition v6_from_parts (parts : list (list N)) : option N :=
  if (length parts <? 3)%nat then None
  else
    parts ← (if contains (ch ".") (List.last parts [])
             then
               a ← IPv4Address (List.last parts []);
               let ipv4_int := _ip a in
               Some (removelast parts ++
                     [format_x (N.land (N.shiftr ipv4_int 16) 0xFFFF);
                      format_x (N.land ipv4_int 0xFFFF)])
             else Some parts);
    if (_HEXTET_COUNT + 1 <? length parts)%nat then None
    else
      skip_index ← find_skip_index parts;
      '(parts_hi, parts_lo, parts_skipped) ←
        match skip_index with
        | Some skip_index =>
            let parts_hi := skip_index in
            let parts_lo := (length parts - skip_index - 1)%nat in
            parts_hi ← (if is_empty (nth 0 parts []) then
                          let parts_hi := (parts_hi - 1)%nat in
                          if negb (parts_hi =? 0)%nat then None
                          else Some parts_hi
                        else Some parts_hi);
            parts_lo ← (if is_empty (List.last parts []) then
                          let parts_lo := (parts_lo - 1)%nat in
                          if negb (parts_lo =? 0)%nat then None
                          else Some parts_lo
                        else Some parts_lo);
            let parts_skipped :=
              (_HEXTET_COUNT - (parts_hi + parts_lo))%nat in
            if (parts_skipped <? 1)%nat then None
            else Some (parts_hi, parts_lo, parts_skipped)
        | None =>
            if negb (length parts =? _HEXTET_COUNT)%nat then None
            else if is_empty (nth 0 parts []) then None
            else if is_empty (List.last parts []) then None
            else Some (length parts, 0%nat, 0%nat)
        end;
      ip_int ← fold_left parse_hextets_step (take parts_hi parts) (Some 0);
      let ip_int := N.shiftl ip_int (16 * N.of_nat parts_skipped) in
      fold_left parse_hextets_step
        (drop (length parts - parts_lo) parts) (Some ip_int).

(** [o] is [None]. *)
Definition is_none {A : Type} (o : option A) : bool :=
  match o with None => true | Some _ => false end.

(** The loop of [find_skip_index] over parsed parts: [None] stands for
    an empty part. *)
Definition abs_find_skip_step (ps : list (option N))
  (st : option (option nat)) (i : nat) : option (option nat) :=
  skip_index ← st;
  if is_none (nth i ps None) then
    match skip_index with
    | Some _ => None
    | None => Some (Some i)
    end
  else Some skip_index.

(** [parse_hextets_step] over parsed parts. *)
Definition abs_step (st : option N) (p : option N) : option N :=
  ip_int ← st;
  h ← p;
  Some (N.lor (N.shiftl ip_int 16) h).

(** [v6_from_parts] over parsed parts. *)
Definition abs_from_parts (ps : list (option N)) : option N :=
  if (length ps <? 3)%nat then None
  else if (_HEXTET_COUNT + 1 <? length ps)%nat then None
  else
    skip_index ←
      fold_left (abs_find_skip_step ps) (seq 1 (length ps - 2)) (Some None);
    '(parts_hi, parts_lo, parts_skipped) ←
      match skip_index with
      | Some skip_index =>
          let parts_hi := skip_index in
          let parts_lo := (length ps - skip_index - 1)%nat in
          parts_hi ← (if is_none (nth 0 ps None) then
                        let parts_hi := (parts_hi - 1)%nat in
                        if negb (parts_hi =? 0)%nat then None
                        else Some parts_hi
                      else Some parts_hi);
          parts_lo ← (if is_none (List.last ps None) then
                        let parts_lo := (parts_lo - 1)%nat in
                        if negb (parts_lo =? 0)%nat then None
                        else Some parts_lo
                      else Some parts_lo);
          let parts_skipped :=
            (_HEXTET_COUNT - (parts_hi + parts_lo))%nat in
          if (parts_skipped <? 1)%nat then None
          else Some (parts_hi, parts_lo, parts_skipped)
      | None =>
          if negb (length ps =? _HEXTET_COUNT)%nat then None
          else if is_none (nth 0 ps None) then None
          else if is_none (List.last ps None) then None
          else Some (length ps, 0%nat, 0%nat)
      end;
    ip_int ← fold_left abs_step (take parts_hi ps) (Some 0);
    let ip_int := N.shiftl ip_int (16 * N.of_nat parts_skipped) in
    fold_left abs_step (drop (length ps - parts_lo) ps) (Some ip_int).

(** A part made of hexadecimal digits, which is empty exactly when it
    is not a hextet. *)
Definition hex_part (p : list N) : Prop :=
  forallb ishex_char p = true /\ is_empty p = is_none (_parse_hextet p).

(** The number whose hextets are [hs], the most significant first. *)
Definition combine8 (hs : list N) : N :=
  fold_left (fun acc h => acc * 65536 + h) hs 0.

(** The decimal text of a byte is made of digits and is read back as
    the byte. *)
Definition dec_ok (b : N) : bool :=
  forallb isdigit_char (str_of_int b) && negb (is_empty (str_of_int b))
  && (int10 (str_of_int b) =? b)
  && match _parse_octet (str_of_int b) with
     | Some v => v =? b
     | None => false
     end.

(** The characters of the text of an IPv4 address. *)
Definition v4_char (c : N) : bool := isdigit_char c || (c =? ch ".").

(** A zone identifier that [_split_scope_id] accepts. *)
Definition scope_ok (sc : option (list N)) : Prop :=
  match sc with
  | None => True
  | Some sc =>
      is_empty sc = false /\ contains (ch "%") sc = false /\
      contains (ch "/") sc = false
  end.

(** The width of the family of [a]. *)
Definition max_prefixlen (a : Address) : N :=
  if is_v4 a then IPV4LENGTH else IPV6LENGTH.

(** An address as the constructors build it: below 2^32 or 2^128. *)
Definition wf_address (a : Address) : Prop :=
  match a with
  | V4 n => n < 2 ^ 32
  | V6 n sc => n < 2 ^ 128 /\ scope_ok sc
  end.

(** A network as [ip_network] builds it: the prefix length within the
    width and no host bit set. *)
Definition wf_network (net : Network) : Prop :=
  wf_address (network_address net) /\
  prefixlen net <= max_prefixlen (network_address net) /\
  N.land (_ip (network_address net)) (netmask net) =
    _ip (network_address net).

(** The characters of the text of an IPv6 address without zone. *)
Definition v6_char (c : N) : bool := ishex_char c || (c =? ch ":").

(** The lines of the file [path], as the file functions read them. *)
Definition lines_of (fs : gmap string (list N)) (path : string)
  : list (list N) :=
  splitlines (translate_newlines (default [] (fs !! path))).

(** [s] ends with [sfx]. *)
Fixpoint has_suffix (sfx s : string) : bool :=
  String.eqb sfx s ||
  match s with
  | EmptyString => false
  | String _ t => has_suffix sfx t
  end.

(** What a file function makes of the text of a file, for the
    transformation [process] of its lines: the text of the backup, the
    new text of the file and the counts it returns. *)
Definition file_result {C : Type}
  (process : list (list N) -> list (list N) * C) (content : list N)
  : list N * list N * C :=
  let src_lines := splitlines (translate_newlines content) in
  let '(out_lines, c) := process src_lines in
  (join NL src_lines, join NL out_lines ++ NL, c).

(** The result of the IP loop, with its two counts as one value. *)
Definition ip_counts (r : list (list N) * nat * nat)
  : list (list N) * (nat * nat) :=
  let '(out_lines, changed, kept) := r in (out_lines, (changed, kept)).

Section Walk.
Context {C T M : Type}.
Variable proc :
  string -> gmap string (list N) -> option (gmap string (list N) * C).
Variable msg : string -> C -> M.
Variable acc : T -> C -> T.

(** The loop body the [main] functions share: the file function
    [proc], the printed line [msg] and the update [acc] of the
    totals. *)
Definition walk_step (st : gmap string (list N) * list M * option T)
  (file : string) : gmap string (list N) * list M * option T :=
  let '(fs, out, totals) := st in
  match totals with
  | None => st
  | Some t =>
      match proc file fs with
      | None => (fs, out, None)
      | Some (fs', c) => (fs', out ++ [msg file c], Some (acc t c))
      end
  end.
End Walk.

Section WalkIo.
Context {C T M : Type}.
Variable proc :
  string -> gmap string (list N) -> gmap string (list N) * option C.
Variable msg : string -> C -> M.
Variable acc : T -> C -> T.

(** The loop body of the [main] functions of [Io]: the store is the one
    that the file function leaves, also when it raised. *)
Definition walk_step_io (st : gmap string (list N) * list M * option T)
  (file : string) : gmap string (list N) * list M * option T :=
  let '(fs, out, totals) := st in
  match totals with
  | None => st
  | Some t =>
      match proc file fs with
      | (fs', None) => (fs', out, None)
      | (fs', Some c) => (fs', out ++ [msg file c], Some (acc t c))
      end
  end.
End WalkIo.

(** [proc] reads the file, writes its backup and rewrites it as
    [result] says. *)
Definition rewrites {C : Type}
  (proc : string -> gmap string (list N) -> option (gmap string (list N) * C))
  (result : list N -> list N * list N * C) : Prop :=
  forall path fs,
    proc path fs =
    (fun content =>
       (<[path := snd (fst (result content))]>
          (<[bak_path path := fst (fst (result content))]> fs),
        snd (result content))) <$> fs !! path.

(** [proc] does the same where its writes can raise: it leaves the
    store as it is when the file cannot be read or its backup cannot be
    written, and leaves the backup behind when the file cannot be
    rewritten. *)
Definition rewrites_io {C : Type}
  (proc : (string -> bool) -> string -> gmap string (list N) ->
          gmap string (list N) * option C)
  (result : list N -> list N * list N * C) : Prop :=
  forall writable path fs,
    proc writable path fs =
    match fs !! path with
    | None => (fs, None)
    | Some content =>
        if writable (bak_path path) then
          let fs1 := <[bak_path path := fst (fst (result content))]> fs in
          if writable path
          then (<[path := snd (fst (result content))]> fs1,
                Some (snd (result content)))
          else (fs1, None)
        else (fs, None)
    end.

(** The text of the file [path], empty when there is none. *)
Definition text_of (fs : gmap string (list N)) (path : string) : list N :=
  default [] (fs !! path).

(** [path] is a file of the store. *)
Definition is_file (fs : gmap string (list N)) (path : string) : bool :=
  match fs !! path with Some _ => true | None => false end.

(** What a run of removals keeps: no file is made or changed, the count
    grows by the number of files that went, and each of them is in the
    lines printed. *)
Definition clean_inv (st st' : gmap string (list N) * list CleanBak.Msg * nat)
  : Prop :=
  let '(fs, out, n) := st in
  let '(fs', out', n') := st' in
  (forall p t, fs' !! p = Some t -> fs !! p = Some t) /\
  (size fs' + n' = size fs + n)%nat /\
  (forall m, In m out -> In m out') /\
  (forall p, is_Some (fs !! p) -> fs' !! p = None ->
     In (CleanBak.Removed p) out').

(** A text without a line boundary. *)
Definition one_line (s : list N) : bool :=
  forallb (fun c => negb (islinebreak c)) s.

(** The zone identifier of an address, if it has one, has no line
    boundary. *)
Definition scope_one_line (a : Address) : Prop :=
  match a with
  | V6 _ (Some sc) => one_line sc = true
  | _ => True
  end.

(** The lines that the file functions read in a file that holds
    [lines] as they write them: no line is written as one empty line. *)
Definition reread (lines : list (list N)) : list (list N) :=
  match lines with [] => [[]] | _ :: _ => lines end.

(** The characters of an address text without zone identifier. *)
Definition addr_char (c : N) : bool :=
  ishex_char c || (c =? ch ":") || (c =? ch ".").

(** The characters of a network text without zone identifier. *)
Definition net_char (c : N) : bool := addr_char c || (c =? ch "/").

End Aux.

(** * Facts about the string methods *)

(** Replace the literals of the goal by the lists they stand for. *)
Ltac eval_lits :=
  repeat match goal with
  | |- context [lit ?s] =>
      let v := eval vm_compute in (lit s) in change (lit s) with v
  | |- context [ch ?a] =>
      let v := eval vm_compute in (ch a) in change (ch a) with v
  end.

Ltac eval_lits_in H :=
  repeat match type of H with
  | context [lit ?s] =>
      let v := eval vm_compute in (lit s) in change (lit s) with v in H
  | context [ch ?a] =>
      let v := eval vm_compute in (ch a) in change (ch a) with v in H
  end.

Module PyFacts.
Import Py.

Lemma str_eqb_refl (a : list N) : str_eqb a a = true.
Proof. induction a as [|x a IH]; simpl; [done|]. by rewrite N.eqb_refl. Qed.

Lemma str_eqb_eq (a b : list N) : str_eqb a b = true <-> a = b.
Proof.
  split; [|intros ->; apply str_eqb_refl].
  revert b; induction a as [|x a IH]; intros [|y b]; simpl; try done.
  intros [Hxy Hab]%andb_prop. apply N.eqb_eq in Hxy as ->.
  by rewrite (IH b Hab).
Qed.

Lemma str_eqb_neq (a b : list N) : str_eqb a b = false <-> a <> b.
Proof.
  split.
  - intros H ->. by rewrite str_eqb_refl in H.
  - intros H. destruct (str_eqb a b) eqn:E; [|done].
    by apply str_eqb_eq in E.
Qed.

Lemma startswith_app (p s : list N) : startswith p (p ++ s) = true.
Proof. induction p as [|a p IH]; simpl; [done|]. by rewrite N.eqb_refl. Qed.

Lemma startswith_inv (p s : list N) :
  startswith p s = true -> exists t, s = p ++ t.
Proof.
  revert s; induction p as [|a p IH]; intros s H; simpl in *.
  - by exists s.
  - destruct s as [|b s]; [done|].
    apply andb_prop in H as [Hab Hp]. apply N.eqb_eq in Hab as ->.
    destruct (IH s Hp) as [t ->]. by exists t.
Qed.

Lemma startswith_cons_false (a b : N) (p s : list N) :
  a <> b -> startswith (a :: p) (b :: s) = false.
Proof. intros H; simpl. by apply N.eqb_neq in H as ->. Qed.

(** *** Stripping *)

Lemma lstrip_head (s : list N) (c : N) (t : list N) :
  lstrip s = c :: t -> isspace c = false.
Proof.
  induction s as [|x s IH]; simpl; [done|].
  destruct (isspace x) eqn:E; [done|]. by intros [= <- <-].
Qed.

Lemma lstrip_nonspace (c : N) (s : list N) :
  isspace c = false -> lstrip (c :: s) = c :: s.
Proof. intros H; simpl. by rewrite H. Qed.

Lemma rstrip_nil_iff (s : list N) :
  rstrip s = [] <-> forallb isspace s = true.
Proof.
  induction s as [|x s IH]; simpl; [done|].
  destruct (rstrip s) eqn:E.
  - destruct (isspace x); simpl; [|done].
    split; [intros _; by apply IH|done].
  - split; [done|]. intros [_ H]%andb_prop. apply IH in H. done.
Qed.

Lemma rstrip_head (c : N) (s : list N) :
  isspace c = false -> exists t, rstrip (c :: s) = c :: t.
Proof.
  intros H; simpl. destruct (rstrip s); [rewrite H|]; eauto.
Qed.

Lemma rstrip_idem (s : list N) : rstrip (rstrip s) = rstrip s.
Proof.
  induction s as [|x s IH]; simpl; [done|].
  destruct (rstrip s) as [|y r] eqn:E.
  - destruct (isspace x) eqn:Ex; simpl; [done|]. by rewrite Ex.
  - change (rstrip (x :: y :: r)) with
      (match rstrip (y :: r) with
       | [] => if isspace x then [] else [x]
       | r' => x :: r'
       end).
    by rewrite IH.
Qed.

Lemma lstrip_fixed (s : list N) :
  lstrip s = s <-> s = [] \/ exists c t, s = c :: t /\ isspace c = false.
Proof.
  split.
  - destruct s as [|c t]; [by left|]. intros H. right.
    exists c, t. split; [done|]. by apply (lstrip_head _ _ _ H).
  - intros [->|(c & t & -> & H)]; [done|]. by apply lstrip_nonspace.
Qed.

Lemma strip_head (s : list N) (c : N) (t : list N) :
  strip s = c :: t -> isspace c = false.
Proof.
  unfold strip. destruct (lstrip s) as [|x l] eqn:E; [done|].
  pose proof (lstrip_head _ _ _ E) as Hx.
  destruct (rstrip_head x l Hx) as [t' ->]. by intros [= <- _].
Qed.

Lemma strip_fixed (s : list N) : strip (strip s) = strip s.
Proof.
  unfold strip. destruct (lstrip s) as [|x l] eqn:E; [done|].
  pose proof (lstrip_head _ _ _ E) as Hx.
  destruct (rstrip_head x l Hx) as [t' Ht]. rewrite Ht.
  rewrite (lstrip_nonspace _ _ Hx), <- Ht. apply rstrip_idem.
Qed.

Lemma rstrip_app (a b : list N) :
  rstrip b <> [] -> rstrip (a ++ b) = a ++ rstrip b.
Proof.
  intros Hb. induction a as [|x a IH]; simpl; [done|].
  rewrite IH. destruct (a ++ rstrip b) eqn:E; [|done].
  by apply app_eq_nil in E as [_ ?].
Qed.

(** A stripped text that is extended to the left by a text starting
    with a character that is not white space stays stripped. *)
Lemma strip_app_fixed (a b : list N) (c : N) (a' : list N) :
  a = c :: a' -> isspace c = false ->
  b <> [] -> strip b = b -> strip (a ++ b) = a ++ b.
Proof.
  intros -> Hc Hb Hs. unfold strip.
  change ((c :: a') ++ b) with (c :: (a' ++ b)).
  rewrite (lstrip_nonspace _ _ Hc).
  change (c :: (a' ++ b)) with ((c :: a') ++ b).
  assert (rstrip b = b) as Hr.
  { unfold strip in Hs. destruct b as [|y b]; [done|].
    assert (isspace y = false) as Hy by (by eapply strip_head).
    by rewrite (lstrip_nonspace _ _ Hy) in Hs. }
  rewrite rstrip_app; rewrite Hr; done.
Qed.

(** A line is blank when every character of it is white space. *)
Lemma strip_empty_iff (s : list N) :
  is_empty (strip s) = forallb isspace s.
Proof.
  unfold strip. induction s as [|x s IH]; simpl; [done|].
  destruct (isspace x) eqn:E; simpl; [done|].
  destruct (rstrip s); [by rewrite E|done].
Qed.

(** The first character of the stripped line is the first character of
    the line that is not white space. *)
Lemma strip_hd (s : list N) : hd_error (strip s) = hd_error (lstrip s).
Proof.
  unfold strip. destruct (lstrip s) as [|x l] eqn:E; [done|].
  destruct (rstrip_head x l (lstrip_head _ _ _ E)) as [t ->]. done.
Qed.

Lemma join_cons_nonempty (sep x : list N) (l : list (list N)) :
  l <> [] -> join sep (x :: l) = x ++ sep ++ join sep l.
Proof. by destruct l. Qed.

End PyFacts.

(** * The domain normaliser *)

Module DomainFacts.
Import Py PyFacts.

Lemma is_comment_strip (raw : list N) :
  startswith (lit "#") (strip raw) = Spec.is_comment raw.
Proof.
  unfold Spec.is_comment. pose proof (strip_hd raw) as H.
  destruct (strip raw) as [|c t], (lstrip raw) as [|d u]; try done.
  simpl in H. injection H as ->. eval_lits. simpl. rewrite N.eqb_sym.
  by rewrite andb_true_r.
Qed.

(** The loop body of [domains.py] is the transformation the
    specification describes. *)
Lemma loop_body_spec (out : list (list N)) (n : nat) (raw : list N) :
  Domains.loop_body (out, n) raw =
  (out ++ [Spec.domain_line raw],
   if Spec.receives_prefix raw then S n else n).
Proof.
  unfold Domains.loop_body, Spec.domain_line, Spec.receives_prefix,
    Spec.has_domain_prefix.
  cbv zeta.
  rewrite strip_empty_iff, (is_comment_strip raw). fold (Spec.is_blank raw).
  destruct (Spec.is_blank raw); simpl; [done|].
  destruct (Spec.is_comment raw); simpl; [done|].
  unfold domain_rule.
  by destruct (startswith (lit "DOMAIN-SUFFIX,") (strip raw)).
Qed.

Lemma domain_loop_body_spec (out : list (list N)) (n : nat) (raw : list N) :
  DomainsIp.domain_loop_body (out, n) raw =
  (out ++ [Spec.domain_line raw],
   if Spec.receives_prefix raw then S n else n).
Proof.
  unfold DomainsIp.domain_loop_body, Spec.domain_line, Spec.receives_prefix,
    Spec.has_domain_prefix.
  cbv zeta.
  rewrite strip_empty_iff, (is_comment_strip raw). fold (Spec.is_blank raw).
  destruct (Spec.is_blank raw); simpl; [done|].
  destruct (Spec.is_comment raw); simpl; [done|].
  unfold domain_rule.
  by destruct (startswith (lit "DOMAIN-SUFFIX,") (strip raw)).
Qed.

Lemma fold_loop_body (l : list (list N)) (out : list (list N)) (n : nat) :
  fold_left Domains.loop_body l (out, n) =
  (out ++ List.map Spec.domain_line l,
   (n + length (List.filter Spec.receives_prefix l))%nat).
Proof.
  revert out n; induction l as [|raw l IH]; intros out n.
  - simpl. by rewrite app_nil_r, Nat.add_0_r.
  - cbn [fold_left]. rewrite loop_body_spec, IH, <- app_assoc.
    cbn [List.map List.filter app]. f_equal.
    destruct (Spec.receives_prefix raw); simpl; lia.
Qed.

Lemma fold_domain_loop_body (l : list (list N)) (out : list (list N))
  (n : nat) :
  fold_left DomainsIp.domain_loop_body l (out, n) =
  (out ++ List.map Spec.domain_line l,
   (n + length (List.filter Spec.receives_prefix l))%nat).
Proof.
  revert out n; induction l as [|raw l IH]; intros out n.
  - simpl. by rewrite app_nil_r, Nat.add_0_r.
  - cbn [fold_left]. rewrite domain_loop_body_spec, IH, <- app_assoc.
    cbn [List.map List.filter app]. f_equal.
    destruct (Spec.receives_prefix raw); simpl; lia.
Qed.

Lemma process_lines_spec (l : list (list N)) :
  Domains.process_lines l = Spec.domain_normalizer l.
Proof. unfold Domains.process_lines. by rewrite fold_loop_body. Qed.

Lemma process_domain_lines_spec (l : list (list N)) :
  DomainsIp.process_domain_lines l = Spec.domain_normalizer l.
Proof.
  unfold DomainsIp.process_domain_lines. by rewrite fold_domain_loop_body.
Qed.

(** The three tests of the specification see a stripped line as they
    see the line. *)
Lemma is_blank_strip (raw : list N) :
  Spec.is_blank (strip raw) = Spec.is_blank raw.
Proof.
  unfold Spec.is_blank. by rewrite <- !strip_empty_iff, strip_fixed.
Qed.

Lemma is_comment_strip_strip (raw : list N) :
  Spec.is_comment (strip raw) = Spec.is_comment raw.
Proof. by rewrite <- !is_comment_strip, strip_fixed. Qed.

Lemma domain_rule_fixed (raw : list N) :
  Spec.is_blank raw = false ->
  strip (domain_rule (strip raw)) = domain_rule (strip raw).
Proof.
  intros Hb. unfold domain_rule. eval_lits.
  eapply strip_app_fixed; [reflexivity|done| |apply strip_fixed].
  unfold Spec.is_blank in Hb. rewrite <- strip_empty_iff in Hb.
  by destruct (strip raw).
Qed.

(** A transformed line is left as it is, and receives no prefix. *)
Lemma domain_line_fixed (raw : list N) :
  Spec.domain_line (Spec.domain_line raw) = Spec.domain_line raw /\
  Spec.receives_prefix (Spec.domain_line raw) = false.
Proof.
  destruct (Spec.is_blank raw) eqn:Hb.
  { assert (Spec.domain_line raw = raw) as E
      by (unfold Spec.domain_line; by rewrite Hb).
    rewrite !E. split; [done|]. unfold Spec.receives_prefix. by rewrite Hb. }
  destruct (Spec.is_comment raw) eqn:Hc.
  { assert (Spec.domain_line raw = raw) as E
      by (unfold Spec.domain_line; by rewrite Hb, Hc).
    rewrite !E. split; [done|].
    unfold Spec.receives_prefix. by rewrite Hb, Hc. }
  destruct (Spec.has_domain_prefix raw) eqn:Hp.
  - assert (Spec.domain_line raw = strip raw) as E
      by (unfold Spec.domain_line; by rewrite Hb, Hc, Hp).
    rewrite !E.
    unfold Spec.domain_line, Spec.receives_prefix, Spec.has_domain_prefix.
    rewrite is_blank_strip, is_comment_strip_strip, strip_fixed, Hb, Hc.
    unfold Spec.has_domain_prefix in Hp. by rewrite Hp.
  - assert (Spec.domain_line raw = domain_rule (strip raw)) as E
      by (unfold Spec.domain_line; by rewrite Hb, Hc, Hp).
    rewrite !E.
    pose proof (domain_rule_fixed raw Hb) as Hf.
    assert (Spec.is_blank (domain_rule (strip raw)) = false) as Hb'.
    { unfold Spec.is_blank. rewrite <- strip_empty_iff, Hf.
      unfold domain_rule. by eval_lits. }
    assert (Spec.is_comment (domain_rule (strip raw)) = false) as Hc'.
    { rewrite <- is_comment_strip, Hf. unfold domain_rule. by eval_lits. }
    assert (Spec.has_domain_prefix (domain_rule (strip raw)) = true) as Hp'.
    { unfold Spec.has_domain_prefix. rewrite Hf. apply startswith_app. }
    unfold Spec.domain_line, Spec.receives_prefix.
    by rewrite Hb', Hc', Hp', Hf.
Qed.

Lemma domain_normalizer_idem (l : list (list N)) :
  Spec.domain_normalizer (fst (Spec.domain_normalizer l)) =
  (fst (Spec.domain_normalizer l), O).
Proof.
  unfold Spec.domain_normalizer; simpl. f_equal.
  - rewrite List.map_map. apply List.map_ext. intros raw.
    apply domain_line_fixed.
  - induction l as [|raw l IH]; simpl; [done|].
    destruct (domain_line_fixed raw) as [_ ->]. done.
Qed.

End DomainFacts.

(** * The IP/CIDR normaliser *)

(** Turn boolean comparisons in the hypotheses into propositions. *)
Ltac bool_hyps :=
  repeat match goal with
  | H : _ && _ = true |- _ => apply andb_prop in H as [? ?]
  | H : _ && _ = false |- _ => apply andb_false_iff in H
  | H : _ || _ = true |- _ => apply orb_prop in H
  | H : _ || _ = false |- _ => apply orb_false_elim in H as [? ?]
  | H : negb _ = true |- _ => apply negb_true_iff in H
  | H : negb _ = false |- _ => apply negb_false_iff in H
  | H : (_ =? _) = true |- _ => apply N.eqb_eq in H
  | H : (_ =? _) = false |- _ => apply N.eqb_neq in H
  | H : (_ <=? _) = true |- _ => apply N.leb_le in H
  | H : (_ <=? _) = false |- _ => apply N.leb_gt in H
  | H : (_ <? _) = true |- _ => apply N.ltb_lt in H
  | H : (_ <? _) = false |- _ => apply N.ltb_ge in H
  | H : _ \/ _ |- _ => destruct H
  end.

Module PrefixFacts.
Import Py PyFacts Aux.

(** When the upper-case form of a character starts with a character of
    the prefix, it is that single character, and it is a comma only for
    a comma. *)
Lemma upper_char_head (c t : N) (r : list N) :
  upper_char c = t :: r -> In t prefix_chars ->
  r = [] /\ (c = 0x2C <-> t = 0x2C).
Proof.
  unfold upper_char, prefix_chars.
  repeat match goal with
  | |- context [if ?b then _ else _] => destruct b eqn:?
  end; intros [= <- <-]; simpl; intros Hin; bool_hyps;
  first [ by (exfalso; lia) | split; [done|lia] ].
Qed.

Lemma startswith_upper_cons (t : N) (p : list N) (c : N) (s : list N) :
  In t prefix_chars ->
  startswith (t :: p) (upper (c :: s)) = true ->
  upper_char c = [t] /\ (c = 0x2C <-> t = 0x2C) /\
  startswith p (upper s) = true.
Proof.
  intros Hin. unfold upper. cbn [flat_map].
  destruct (upper_char c) as [|t' r] eqn:E.
  { exfalso. revert E. unfold upper_char.
    repeat match goal with
    | |- context [if ?b then _ else _] => destruct b
    end; done. }
  cbn [app startswith]. intros [Ht Hs]%andb_prop.
  apply N.eqb_eq in Ht as <-.
  destruct (upper_char_head _ _ _ E Hin) as [-> Hc]. done.
Qed.

(** A line taken as prefixed has seven characters without a comma,
    then a comma. *)
Lemma is_prefixed_inv (s : list N) :
  Spec.is_prefixed s = true ->
  exists p rest, s = p ++ 0x2C :: rest /\ length p = 7%nat /\
                 contains 0x2C p = false.
Proof.
  unfold Spec.is_prefixed. eval_lits. intros H.
  repeat match type of H with
  | startswith (_ :: _) (upper ?l) = true =>
      let c := fresh "c" in
      destruct l as [|c l]; [done|];
      apply startswith_upper_cons in H as (_ & ? & H);
      [|unfold prefix_chars; simpl; tauto]
  end.
  exists [c; c0; c1; c2; c3; c4; c5], s.
  assert (c6 = 0x2C) as -> by tauto.
  split; [done|]. split; [done|].
  unfold contains. cbn [existsb].
  repeat match goal with
  | |- context [(0x2C =? ?x)] =>
      let E := fresh in
      destruct (N.eqb_spec 0x2C x) as [E|E]; [exfalso; lia|clear E]
  end. done.
Qed.

Lemma partition_app (sep : N) (p rest : list N) :
  contains sep p = false ->
  partition sep (p ++ sep :: rest) = (p, true, rest).
Proof.
  unfold contains. induction p as [|x p IH]; simpl.
  - by rewrite N.eqb_refl.
  - intros [Hx Hp]%orb_false_elim. rewrite N.eqb_sym, Hx.
    by rewrite (IH Hp).
Qed.

(** The text after the first comma of a prefixed line is what follows
    its first eight characters, so the index [1] of the split is always
    there. *)
Lemma split1_prefixed (s : list N) :
  Spec.is_prefixed s = true ->
  split1 (ch ",") s = [take 7 s; drop 8 s].
Proof.
  intros (p & rest & -> & Hlen & Hc)%is_prefixed_inv.
  unfold split1. eval_lits. rewrite (partition_app _ _ _ Hc).
  rewrite take_app_length' by done.
  replace (p ++ 0x2C :: rest) with ((p ++ [0x2C]) ++ rest)
    by (by rewrite <- app_assoc).
  by rewrite drop_app_length' by (rewrite length_app; simpl; lia).
Qed.

Lemma split_nonempty (sep : N) (s : list N) : split sep s <> [].
Proof.
  destruct s as [|c s]; simpl; [done|].
  destruct (c =? sep); [done|]. by destruct (split sep s).
Qed.

End PrefixFacts.

(** * Facts about the address parsers *)

Module ParseFacts.
Import Py PyFacts PrefixFacts ipaddress Aux.

Lemma split_head (sep c : N) (t p : list N) (r : list (list N)) :
  split sep (c :: t) = p :: r ->
  (c = sep /\ p = []) \/ (c <> sep /\ exists p', p = c :: p').
Proof.
  cbn [split]. destruct (N.eqb_spec c sep) as [->|Hne].
  - intros [= <- _]. by left.
  - destruct (split sep t); intros [= <- _]; right; eauto.
Qed.

Lemma partition_head (sep c : N) (b s a : list N) (f : bool) :
  partition sep s = (c :: b, f, a) -> exists t, s = c :: t.
Proof.
  destruct s as [|x s]; cbn [partition]; [done|].
  destruct (x =? sep); [done|].
  destruct (partition sep s) as [[b' f'] a']. intros [= -> _ _ _]. eauto.
Qed.

(** What a parsed octet looks like. *)
Lemma parse_octet_inv (o : list N) (v : N) :
  _parse_octet o = Some v ->
  forallb isdigit_char o = true /\ o <> [] /\ (length o <= 3)%nat /\
  v = int10 o /\ v <= 255.
Proof.
  unfold _parse_octet, isascii_isdigit.
  destruct o as [|c o]; [done|]. cbn [is_empty negb andb].
  destruct (forallb isdigit_char (c :: o)) eqn:Hd; [|done]. cbn [negb].
  destruct (3 <? length (c :: o))%nat eqn:Hl; [done|].
  destruct (negb _ && _); [done|].
  destruct (255 <? int10 (c :: o)) eqn:Hv; [done|].
  intros [= <-]. apply Nat.ltb_ge in Hl. apply N.ltb_ge in Hv. done.
Qed.

Lemma isdigit_ishex (c : N) : isdigit_char c = true -> ishex_char c = true.
Proof. unfold ishex_char. by intros ->. Qed.

(** A dotted quad starts with a digit. *)
Lemma v4_ip_int_from_string_head (s : list N) (n : N) :
  v4_ip_int_from_string s = Some n ->
  exists c t, s = c :: t /\ isdigit_char c = true.
Proof.
  unfold v4_ip_int_from_string. destruct s as [|c t]; [done|].
  cbn [is_empty]. destruct (negb _); [done|].
  destruct (split (ch ".") (c :: t)) as [|p r] eqn:E.
  { by apply split_nonempty in E. }
  intros H. apply fmap_Some in H as (bs & Hm & _).
  apply mapM_Some in Hm. inversion Hm as [|? v ? ? Hp _]; subst.
  apply parse_octet_inv in Hp as (Hd & Hne & _).
  apply split_head in E as [[_ ->]|[_ [p' ->]]]; [done|].
  cbn [forallb] in Hd. apply andb_prop in Hd as [Hd _]. eauto.
Qed.

Lemma IPv4Address_inv (s : list N) (a : Address) :
  IPv4Address s = Some a ->
  contains (ch "/") s = false /\
  exists n, a = V4 n /\ v4_ip_int_from_string s = Some n.
Proof.
  unfold IPv4Address. destruct (contains (ch "/") s); [done|].
  intros (n & Hn & ->)%fmap_Some. eauto.
Qed.

(** The loop that looks for ['::'] only answers with an index it has
    visited. *)
Lemma find_skip_fold (parts : list (list N)) (a n : nat)
  (st : option (option nat)) (i : nat) :
  fold_left (find_skip_step parts) (seq a n) st = Some (Some i) ->
  st = Some (Some i) \/ (a <= i < a + n)%nat.
Proof.
  revert a st; induction n as [|n IH]; intros a st; cbn [seq fold_left].
  - by left.
  - intros H. apply IH in H as [H|H]; [|right; lia].
    unfold find_skip_step in H. destruct st as [[j|]|]; simpl in H.
    + destruct (is_empty (nth a parts [])); [done|]. by left.
    + destruct (is_empty (nth a parts [])); [|done].
      injection H as <-. right; lia.
    + done.
Qed.

Lemma find_skip_index_range (parts : list (list N)) (i : nat) :
  find_skip_index parts = Some (Some i) ->
  (1 <= i < length parts - 1)%nat.
Proof.
  unfold find_skip_index. intros [H|H]%find_skip_fold; [done|lia].
Qed.

Lemma fold_parse_None (l : list (list N)) :
  fold_left parse_hextets_step l None = None.
Proof. induction l as [|p l IH]; [done|]. apply IH. Qed.

(** The shifting loops succeed only when every part is a hextet. *)
Lemma fold_parse_head (p : list N) (l : list (list N)) (st : option N)
  (v : N) :
  fold_left parse_hextets_step (p :: l) st = Some v ->
  exists h, _parse_hextet p = Some h.
Proof.
  cbn [fold_left]. unfold parse_hextets_step at 2.
  destruct st as [a|]; simpl; [|by rewrite fold_parse_None].
  destruct (_parse_hextet p) as [h|]; simpl; [eauto|].
  by rewrite fold_parse_None.
Qed.

Lemma parse_hextet_inv (p : list N) (h : N) :
  _parse_hextet p = Some h ->
  forallb ishex_char p = true /\ p <> [] /\ (length p <= 4)%nat /\
  h = int16 p.
Proof.
  unfold _parse_hextet. destruct (forallb ishex_char p); [|done].
  cbn [negb]. destruct (4 <? length p)%nat eqn:Hl; [done|].
  destruct p as [|c p]; [done|]. cbn [is_empty]. intros [= <-].
  apply Nat.ltb_ge in Hl. done.
Qed.

(** An IPv6 address text starts with a hexadecimal digit or a colon. *)
Lemma v6_ip_int_from_string_head (s : list N) (n : N) :
  v6_ip_int_from_string s = Some n ->
  exists c t, s = c :: t /\ (ishex_char c = true \/ c = ch ":").
Proof.
  unfold v6_ip_int_from_string. destruct s as [|c t]; [done|].
  cbn [is_empty]. intros H. exists c, t. split; [done|].
  destruct (N.eqb_spec c (ch ":")) as [->|Hne]; [by right|left].
  destruct (split (ch ":") (c :: t)) as [|p0 r0] eqn:E.
  { by apply split_nonempty in E. }
  apply split_head in E as [[? _]|[_ [p' ->]]]; [done|].
  destruct (length ((c :: p') :: r0) <? 3)%nat eqn:Hlen; [done|].
  apply Nat.ltb_ge in Hlen.
  apply bind_Some in H as (parts & Hparts & H).
  assert (exists r, parts = (c :: p') :: r) as [r ->].
  { destruct (contains (ch ".") (List.last ((c :: p') :: r0) [])).
    - apply bind_Some in Hparts as (a & _ & [= <-]).
      destruct r0 as [|p1 r0]; [simpl in Hlen; lia|].
      cbn [removelast app]. eauto.
    - injection Hparts as <-. eauto. }
  destruct (_HEXTET_COUNT + 1 <? length ((c :: p') :: r))%nat; [done|].
  apply bind_Some in H as (skip & Hskip & H).
  apply bind_Some in H as ([[hi lo] sk] & Hidx & H).
  apply bind_Some in H as (ip & Hhi & _).
  assert (1 <= hi)%nat as Hhi1.
  { destruct skip as [i|].
    - apply find_skip_index_range in Hskip. cbn [nth is_empty] in Hidx.
      apply bind_Some in Hidx as (hi' & [= <-] & Hidx).
      apply bind_Some in Hidx as (lo' & _ & Hidx).
      destruct (_ <? 1)%nat; [done|]. injection Hidx as <- _ _. lia.
    - destruct (negb _) eqn:Hl8; [done|].
      cbn [nth is_empty] in Hidx.
      destruct (is_empty (List.last _ _)); [done|].
      injection Hidx as <- _ _. simpl. lia. }
  destruct hi as [|hi]; [lia|]. cbn [take] in Hhi.
  apply fold_parse_head in Hhi as [h Hh].
  apply parse_hextet_inv in Hh as (Hd & _). cbn [forallb] in Hd.
  by apply andb_prop in Hd as [-> _].
Qed.

Lemma IPv6Address_inv (s : list N) (a : Address) :
  IPv6Address s = Some a ->
  contains (ch "/") s = false /\ valid_start s /\ is_v4 a = false.
Proof.
  unfold IPv6Address. destruct (contains (ch "/") s); [done|].
  intros ([addr sc] & Hsc & H)%bind_Some.
  apply bind_Some in H as (ip & Hip & [= <-]).
  split; [done|]. split; [|done].
  apply v6_ip_int_from_string_head in Hip as (c & t & -> & Hc).
  unfold _split_scope_id in Hsc.
  destruct (partition (ch "%") s) as [[b f] sc'] eqn:E.
  assert (b = c :: t) as ->.
  { destruct (negb f); [by injection Hsc|].
    destruct (_ || _); [done|]. by injection Hsc. }
  apply partition_head in E as [t' ->]. by exists c, t'.
Qed.

Lemma IPv4Address_head (s : list N) (a : Address) :
  IPv4Address s = Some a ->
  contains (ch "/") s = false /\ valid_start s /\ is_v4 a = true.
Proof.
  intros (Hc & n & -> & H)%IPv4Address_inv. split; [done|].
  apply v4_ip_int_from_string_head in H as (c & t & -> & Hd).
  split; [|done]. exists c, t. split; [done|]. left.
  by apply isdigit_ishex.
Qed.

Lemma ip_address_inv (s : list N) (a : Address) :
  ip_address s = Some a ->
  contains (ch "/") s = false /\ valid_start s.
Proof.
  unfold ip_address. destruct (IPv4Address s) as [a4|] eqn:E4.
  - intros _. by apply IPv4Address_head in E4 as (? & ? & _).
  - intros H. by apply IPv6Address_inv in H as (? & ? & _).
Qed.

Lemma split_addr_prefix_head (s addr : list N) (mask : option (list N)) :
  _split_addr_prefix s = Some (addr, mask) ->
  valid_start addr -> valid_start s.
Proof.
  unfold _split_addr_prefix. intros H (c & t & -> & Hc).
  destruct s as [|x s].
  { cbn [split] in H. by injection H. }
  destruct (split (ch "/") (x :: s)) as [|p r] eqn:E; [done|].
  assert (p = c :: t) as ->.
  { destruct r as [|m r]; [by injection H|].
    destruct r; [by injection H|done]. }
  apply split_head in E as [[_ ?]|[_ [p' [= <- _]]]]; [done|].
  by exists c, s.
Qed.

Lemma ip_network_head (s : list N) (net : Network) :
  ip_network s = Some net -> valid_start s.
Proof.
  unfold ip_network. destruct (IPv4Network s) as [n4|] eqn:E4.
  - intros _. unfold IPv4Network in E4.
    apply bind_Some in E4 as ([addr mask] & Hs & H).
    apply bind_Some in H as (a & Ha & _).
    apply IPv4Address_head in Ha as (_ & Hv & _).
    by eapply split_addr_prefix_head.
  - unfold IPv6Network. intros ([addr mask] & Hs & H)%bind_Some.
    apply bind_Some in H as (a & Ha & _).
    apply IPv6Address_inv in Ha as (_ & Hv & _).
    by eapply split_addr_prefix_head.
Qed.

(** A text that starts like an address is neither blank, nor a
    comment, nor taken as prefixed. *)
Lemma valid_start_plain (s : list N) :
  valid_start s ->
  Spec.is_prefixed s = false /\ is_empty s = false /\
  startswith (lit "#") s = false.
Proof.
  intros (c & t & -> & Hc). split; [|split; [done|]].
  - destruct (Spec.is_prefixed (c :: t)) eqn:E; [|done]. exfalso.
    unfold Spec.is_prefixed in E. eval_lits_in E.
    apply startswith_upper_cons in E as (Hu & _);
      [|unfold prefix_chars; simpl; tauto].
    revert Hu Hc. unfold upper_char, ishex_char, isdigit_char. eval_lits.
    repeat match goal with
    | |- context [if ?b then _ else _] => destruct b eqn:?
    end; intros Hu Hc; try discriminate Hu; try injection Hu as Hu;
      destruct Hc; bool_hyps; lia.
  - eval_lits. cbn [startswith]. rewrite andb_true_r.
    apply N.eqb_neq. intros <-. revert Hc.
    unfold ishex_char, isdigit_char. eval_lits.
    intros [?|?]; [|done]. by vm_compute in H.
Qed.

End ParseFacts.

(** * The shape of [normalize_ip_or_cidr] *)

Module IpFacts.
Import Py PyFacts PrefixFacts ParseFacts ipaddress Aux.

Lemma hd_map_strip (l : list (list N)) :
  match List.map strip l with p :: _ => p | [] => [] end = strip (hd [] l).
Proof. by destruct l. Qed.

(** The already-prefixed branch. *)
Lemma normalize_prefixed (line : list N) :
  Spec.is_prefixed (strip line) = true ->
  Ip.normalize_ip_or_cidr line =
  ip_rule <$> Spec.candidate_cidr (Spec.prefixed_candidate (strip line)).
Proof.
  intros H. unfold Ip.normalize_ip_or_cidr. cbv zeta.
  fold (Spec.is_prefixed (strip line)). rewrite H.
  rewrite (split1_prefixed _ H). cbn [nth]. rewrite hd_map_strip.
  fold (Spec.prefixed_candidate (strip line)).
  unfold Spec.candidate_cidr.
  destruct (contains (ch "/") (Spec.prefixed_candidate (strip line)));
    by destruct (_ <$> _).
Qed.

(** The two scripts differ on the lines they pass through only. *)
Lemma normalize_agree (line : list N) :
  Spec.is_prefixed (strip line) = true \/
  is_empty (strip line) || startswith (lit "#") (strip line) = false ->
  DomainsIp.normalize_ip_or_cidr line = Ip.normalize_ip_or_cidr line.
Proof.
  unfold DomainsIp.normalize_ip_or_cidr, Ip.normalize_ip_or_cidr. cbv zeta.
  fold (Spec.is_prefixed (strip line)).
  intros [->| ->]; [done|]. by destruct (Spec.is_prefixed (strip line)).
Qed.

(** The pass-through branch of [ip.py] and of [domains_ip.py]. *)
Lemma normalize_passthrough (line : list N) :
  is_empty (strip line) || startswith (lit "#") (strip line) = true ->
  Ip.normalize_ip_or_cidr line = Some (strip line) /\
  DomainsIp.normalize_ip_or_cidr line = Some line.
Proof.
  intros H.
  assert (Spec.is_prefixed (strip line) = false) as Hp.
  { destruct (strip line) as [|c t]; [done|].
    cbn [is_empty orb] in H. eval_lits_in H. cbn [startswith] in H.
    rewrite andb_true_r in H. apply N.eqb_eq in H as <-.
    destruct (Spec.is_prefixed (35 :: t)) eqn:E; [|done].
    unfold Spec.is_prefixed in E. eval_lits_in E.
    by apply startswith_upper_cons in E as (Hu & _);
      [|unfold prefix_chars; simpl; tauto]. }
  unfold DomainsIp.normalize_ip_or_cidr, Ip.normalize_ip_or_cidr. cbv zeta.
  fold (Spec.is_prefixed (strip line)). by rewrite Hp, H.
Qed.

(** The branch of a plain text: the network reading when the text has
    a [/] and is a network, the address reading otherwise. *)
Lemma normalize_plain (line : list N) :
  Spec.is_prefixed (strip line) = false ->
  is_empty (strip line) || startswith (lit "#") (strip line) = false ->
  Ip.normalize_ip_or_cidr line =
  match (if contains (ch "/") (strip line)
         then ip_network (strip line) else None) with
  | Some net => Some (ip_rule (str_of_network net))
  | None => ip_rule <$> (host_cidr <$> ip_address (strip line))
  end.
Proof.
  intros Hp Hb. unfold Ip.normalize_ip_or_cidr. cbv zeta.
  fold (Spec.is_prefixed (strip line)). rewrite Hp, Hb.
  destruct (if contains _ _ then _ else _); [done|].
  by destruct (ip_address (strip line)).
Qed.

End IpFacts.

(** * Dotted quads: the text of a parsed address is the text parsed *)

Module V4Facts.
Import Py PyFacts PrefixFacts ParseFacts ipaddress Aux.

Lemma join_split (sep : N) (s : list N) : join [sep] (split sep s) = s.
Proof.
  induction s as [|c t IH]; [done|]. cbn [split].
  destruct (c =? sep) eqn:E.
  - apply N.eqb_eq in E as ->. cbn [join].
    destruct (split sep t) eqn:Es; [by apply split_nonempty in Es|].
    by rewrite IH.
  - destruct (split sep t) as [|h r] eqn:Es; [by apply split_nonempty in Es|].
    rewrite <- IH. cbn [join]. by destruct r.
Qed.

Lemma isdigit_in (c : N) : isdigit_char c = true -> In c digits.
Proof.
  unfold isdigit_char. intros H. bool_hyps.
  assert (c = 0x30 \/ c = 0x31 \/ c = 0x32 \/ c = 0x33 \/ c = 0x34 \/
          c = 0x35 \/ c = 0x36 \/ c = 0x37 \/ c = 0x38 \/ c = 0x39)
    as Hc by lia.
  unfold digits. simpl. intuition.
Qed.

Lemma octet_ok_all :
  forallb (fun c1 =>
    octet_ok [c1] &&
    forallb (fun c2 =>
      octet_ok [c1; c2] &&
      forallb (fun c3 => octet_ok [c1; c2; c3]) digits) digits) digits
  = true.
Proof. by vm_compute. Qed.

Lemma octet_roundtrip (o : list N) (v : N) :
  _parse_octet o = Some v -> str_of_int v = o.
Proof.
  intros H. pose proof (parse_octet_inv _ _ H) as (Hd & Hne & Hl & _).
  assert (forall c1, In c1 digits -> octet_ok [c1] = true /\
          forall c2, In c2 digits -> octet_ok [c1; c2] = true /\
          forall c3, In c3 digits -> octet_ok [c1; c2; c3] = true) as Hall.
  { pose proof octet_ok_all as Hall. rewrite forallb_forall in Hall.
    intros c1 Hc1. apply Hall in Hc1. apply andb_prop in Hc1 as [? Hc1].
    split; [done|]. rewrite forallb_forall in Hc1.
    intros c2 Hc2. apply Hc1 in Hc2. apply andb_prop in Hc2 as [? Hc2].
    split; [done|]. by rewrite forallb_forall in Hc2. }
  assert (octet_ok o = true) as Hok.
  { destruct o as [|c1 [|c2 [|c3 [|c4 o]]]]; [done| | | |simpl in Hl; lia];
      cbn [forallb] in Hd;
      repeat match type of Hd with
      | _ && _ = true =>
          let Hc := fresh "Hc" in
          apply andb_prop in Hd as [Hc Hd]; apply isdigit_in in Hc
      end.
    - by apply Hall.
    - by apply Hall.
    - by apply Hall. }
  unfold octet_ok in Hok. rewrite H in Hok. by apply str_eqb_eq.
Qed.

Ltac Zify.zify_post_hook ::= Z.to_euclidean_division_equations.

Lemma to_bytes4_from_bytes (a b c d : N) :
  a <= 255 -> b <= 255 -> c <= 255 -> d <= 255 ->
  to_bytes4 (int_from_bytes [a; b; c; d]) = [a; b; c; d].
Proof.
  intros Ha Hb Hc Hd. unfold to_bytes4, int_from_bytes. cbn [fold_left].
  rewrite !N.shiftr_div_pow2.
  change (2 ^ 24) with 16777216. change (2 ^ 16) with 65536.
  change (2 ^ 8) with 256.
  repeat f_equal; lia.
Qed.

Ltac Zify.zify_post_hook ::= idtac.

(** [str()] undoes the parsing of a dotted quad. *)
Lemma v4_roundtrip (s : list N) (n : N) :
  v4_ip_int_from_string s = Some n -> v4_string_from_ip_int n = s.
Proof.
  unfold v4_ip_int_from_string. destruct (is_empty s); [done|].
  destruct (negb _) eqn:Hl; [done|].
  apply negb_false_iff, Nat.eqb_eq in Hl.
  intros (bs & Hm & ->)%fmap_Some. apply mapM_Some in Hm.
  destruct (split (ch ".") s) as [|o1 [|o2 [|o3 [|o4 [|o5 r]]]]] eqn:E;
    try done.
  inversion Hm as [|? v1 ? ? H1 Hm1]; subst.
  inversion Hm1 as [|? v2 ? ? H2 Hm2]; subst.
  inversion Hm2 as [|? v3 ? ? H3 Hm3]; subst.
  inversion Hm3 as [|? v4 ? ? H4 Hm4]; subst.
  inversion Hm4; subst.
  unfold v4_string_from_ip_int.
  rewrite to_bytes4_from_bytes;
    try (by eapply parse_octet_inv).
  cbn [List.map].
  rewrite (octet_roundtrip _ _ H1), (octet_roundtrip _ _ H2),
    (octet_roundtrip _ _ H3), (octet_roundtrip _ _ H4).
  rewrite <- E. change (lit ".") with [ch "."]. apply join_split.
Qed.

End V4Facts.

(** * The whole-file IP transformation *)

Module FileFacts.
Import Py PyFacts Aux.

Section Loop.
Variable normalize : list N -> option (list N).

Lemma fold_body (l : list (list N)) (out : list (list N)) (c k : nat) :
  fold_left (body normalize) l (out, c, k) =
  (out ++ omap normalize l,
   (c + length (List.filter (Spec.line_changed normalize) l))%nat,
   (k + length (List.filter (Spec.line_kept normalize) l))%nat).
Proof.
  revert out c k; induction l as [|raw l IH]; intros out c k.
  - simpl. by rewrite app_nil_r, !Nat.add_0_r.
  - cbn [fold_left omap list_omap List.filter]. unfold body at 2.
    unfold Spec.line_changed at 1, Spec.line_kept at 1.
    destruct (normalize raw) as [res|] eqn:E; [|by rewrite IH].
    destruct (str_eqb res raw) eqn:Eq; rewrite IH, <- app_assoc;
      cbn [negb length app].
    + apply str_eqb_eq in Eq as ->.
      apply pair_equal_spec; split; [apply pair_equal_spec; split|];
        try done; lia.
    + apply pair_equal_spec; split; [apply pair_equal_spec; split|];
        try done; lia.
Qed.

(** Every line of the output is counted once, as changed or as
    kept, and no line is added. *)
Lemma ip_normalizer_counts (l : list (list N)) :
  let '(out, changed, kept) := Spec.ip_normalizer normalize l in
  length out = (changed + kept)%nat /\ (length out <= length l)%nat.
Proof.
  unfold Spec.ip_normalizer.
  induction l as [|raw l [IH1 IH2]]; [done|].
  cbn [omap list_omap List.filter].
  unfold Spec.line_changed at 1, Spec.line_kept at 1.
  destruct (normalize raw) as [res|]; [|simpl; lia].
  destruct (str_eqb res raw); simpl in *; lia.
Qed.
End Loop.

Lemma ip_process_lines_spec (l : list (list N)) :
  Ip.process_lines l = Spec.ip_normalizer Ip.normalize_ip_or_cidr l.
Proof.
  unfold Ip.process_lines.
  change Ip.loop_body with (body Ip.normalize_ip_or_cidr).
  by rewrite fold_body.
Qed.

Lemma domains_ip_process_lines_spec (l : list (list N)) :
  DomainsIp.process_ip_lines l =
  Spec.ip_normalizer DomainsIp.normalize_ip_or_cidr l.
Proof.
  unfold DomainsIp.process_ip_lines.
  change DomainsIp.ip_loop_body with (body DomainsIp.normalize_ip_or_cidr).
  by rewrite fold_body.
Qed.

End FileFacts.

(** * IPv6 text: parsing the canonical text gives the address back *)

Module V6Facts.
Import Py PyFacts PrefixFacts ParseFacts V4Facts ipaddress Aux.

Lemma forall_from_spec (fuel : nat) (i : N) (P : N -> bool) :
  forall_from fuel i P = true ->
  forall h, i <= h < i + N.of_nat fuel -> P h = true.
Proof.
  revert i; induction fuel as [|k IH]; intros i H h Hh; [lia|].
  cbn [forall_from] in H. apply andb_prop in H as [Hk H].
  destruct (N.eq_dec h i) as [->|Hne]; [done|].
  apply (IH _ H). lia.
Qed.

Lemma hextet_ok_all : forall_from (N.to_nat 65536) 0 hextet_ok = true.
Proof. by vm_compute. Qed.

Lemma forallb_ishex_no (c : N) (p : list N) :
  ishex_char c = false -> forallb ishex_char p = true -> contains c p = false.
Proof.
  intros Hc. unfold contains. induction p as [|x p IH]; [done|].
  cbn [forallb existsb]. intros [Hx Hp]%andb_prop. rewrite (IH Hp), orb_false_r.
  apply N.eqb_neq. by intros ->; congruence.
Qed.

Lemma hextet_facts (h : N) :
  h < 65536 ->
  _parse_hextet (format_x h) = Some h /\
  is_empty (format_x h) = false /\
  forallb ishex_char (format_x h) = true /\
  str_eqb (format_x h) (lit "0") = (h =? 0).
Proof.
  intros Hh. pose proof (forall_from_spec _ _ _ hextet_ok_all h) as H.
  unfold hextet_ok in H. specialize (H ltac:(lia)).
  apply andb_prop in H as [H H4]. apply andb_prop in H as [H H3].
  apply andb_prop in H as [H1 H2].
  destruct (_parse_hextet (format_x h)) as [v|]; [|done].
  apply N.eqb_eq in H1 as ->. apply negb_true_iff in H2.
  apply eqb_prop in H4. done.
Qed.

Lemma compress_fold_flags (hs : list N) (i : nat) (st : Z * Z * Z * Z) :
  Forall (fun h => h < 65536) hs ->
  fold_left compress_step (combine (seq i (length hs)) (List.map format_x hs)) st =
  fold_left flag_step (combine (seq i (length hs)) (List.map (fun h => h =? 0) hs)) st.
Proof.
  intros H. revert i st. induction H as [|h hs Hh _ IH]; intros i st; [done|].
  cbn [List.map length seq combine fold_left]. rewrite <- IH. f_equal.
  destruct st as [[[bs bl] s] l]. unfold compress_step, flag_step.
  destruct (hextet_facts h Hh) as (_ & _ & _ & ->). done.
Qed.

Lemma compress_flags (hs : list N) :
  Forall (fun h => h < 65536) hs ->
  _compress_hextets (List.map format_x hs) =
  compress_with [] (List.map (fun h => h =? 0) hs) (List.map format_x hs).
Proof.
  intros H. unfold _compress_hextets, compress_with.
  rewrite !length_map. by rewrite (compress_fold_flags hs 0 _ H).
Qed.

Lemma compress_with_map {A B : Type} (f : A -> B) (e : A) (flags : list bool)
  (l : list A) :
  List.map f (compress_with e flags l) =
  compress_with (f e) flags (List.map f l).
Proof.
  unfold compress_with.
  destruct (fold_left _ _ _) as [[[bs bl] ?] ?].
  rewrite length_map.
  destruct (1 <? bl)%Z; [|done].
  destruct (bs + bl =? Z.of_nat (length l))%Z, (bs =? 0)%Z;
    cbn [List.map]; rewrite ?List.map_app, <- ?firstn_map, <- ?skipn_map,
      ?List.map_app; done.
Qed.

Lemma compress_with_Forall {A : Type} (P : A -> Prop) (e : A)
  (flags : list bool) (l : list A) :
  P e -> Forall P l -> Forall P (compress_with e flags l).
Proof.
  intros He Hl. unfold compress_with.
  destruct (fold_left _ _ _) as [[[bs bl] ?] ?].
  destruct (1 <? bl)%Z; [|done].
  assert (Forall P (if (bs + bl =? Z.of_nat (length l))%Z
                    then l ++ [e] else l)) as Hl'.
  { destruct (_ =? _)%Z; [|done]. apply Forall_app. split; [done|].
    by constructor. }
  assert (Forall P (take (Z.to_nat bs)
            (if (bs + bl =? Z.of_nat (length l))%Z then l ++ [e] else l)
          ++ [e] ++ drop (Z.to_nat (bs + bl))
            (if (bs + bl =? Z.of_nat (length l))%Z then l ++ [e] else l)))
    as Hr.
  { apply Forall_app. split; [by apply Forall_take|].
    apply Forall_app. split; [by constructor|]. by apply Forall_drop. }
  destruct (bs =? 0)%Z; [by constructor|done].
Qed.

Lemma v6_ip_int_from_string_parts (s : list N) :
  v6_ip_int_from_string s =
  if is_empty s then None else v6_from_parts (split (ch ":") s).
Proof. done. Qed.

Lemma hex_part_nil : hex_part [].
Proof. done. Qed.

Lemma hex_part_no (c : N) (p : list N) :
  ishex_char c = false -> hex_part p -> contains c p = false.
Proof. intros Hc [Hp _]. by apply forallb_ishex_no. Qed.

Lemma nth_Forall {A : Type} (P : A -> Prop) (l : list A) (d : A) (i : nat) :
  Forall P l -> P d -> P (nth i l d).
Proof.
  intros Hl Hd. revert i; induction Hl as [|x l Hx _ IH]; intros [|i]; simpl;
    auto.
Qed.

Lemma last_Forall {A : Type} (P : A -> Prop) (l : list A) (d : A) :
  Forall P l -> P d -> P (List.last l d).
Proof.
  intros Hl Hd. induction Hl as [|x l Hx Hl IH]; [done|].
  destruct l; [done|]. apply IH.
Qed.

Lemma last_map {A B : Type} (f : A -> B) (l : list A) (d : A) :
  List.last (List.map f l) (f d) = f (List.last l d).
Proof.
  induction l as [|x l IH]; [done|]. destruct l; [done|]. apply IH.
Qed.

Lemma fold_parse_map (l : list (list N)) (st : option N) :
  fold_left parse_hextets_step l st =
  fold_left abs_step (List.map _parse_hextet l) st.
Proof. revert st; induction l as [|p l IH]; intros st; [done|]. apply IH. Qed.

Lemma find_skip_map (parts : list (list N)) (l : list nat)
  (st : option (option nat)) :
  Forall hex_part parts ->
  fold_left (find_skip_step parts) l st =
  fold_left (abs_find_skip_step (List.map _parse_hextet parts)) l st.
Proof.
  intros Hp. revert st; induction l as [|i l IH]; intros st; [done|].
  cbn [fold_left]. rewrite <- IH. f_equal.
  unfold find_skip_step, abs_find_skip_step.
  change (@None N) with (_parse_hextet []). rewrite map_nth.
  by destruct (nth_Forall hex_part parts [] i Hp hex_part_nil) as [_ ->].
Qed.

Lemma v6_from_parts_abs (parts : list (list N)) :
  Forall hex_part parts ->
  v6_from_parts parts = abs_from_parts (List.map _parse_hextet parts).
Proof.
  intros Hp. unfold v6_from_parts, abs_from_parts.
  rewrite length_map. destruct (length parts <? 3)%nat; [done|].
  pose proof (last_Forall hex_part parts [] Hp hex_part_nil) as Hl.
  rewrite (hex_part_no (ch ".") _ eq_refl Hl). cbn [mbind option_bind].
  destruct (_HEXTET_COUNT + 1 <? length parts)%nat; [done|].
  unfold find_skip_index. rewrite (find_skip_map _ _ _ Hp).
  change (@None N) with (_parse_hextet []).
  rewrite last_map, map_nth.
  destruct Hl as [_ ->].
  destruct (nth_Forall hex_part parts [] 0 Hp hex_part_nil) as [_ ->].
  destruct (fold_left _ _ _) as [skip|]; [|done]. cbn [mbind option_bind].
  match goal with
  | |- ?m ≫= _ = _ => destruct m as [[[hi lo] sk]|]
  end; [|done].
  cbn [mbind option_bind].
  rewrite fold_parse_map, <- firstn_map.
  destruct (fold_left abs_step _ _) as [ip|]; [|done].
  cbn [mbind option_bind]. by rewrite fold_parse_map, <- skipn_map.
Qed.

Lemma split_join (sep : N) (parts : list (list N)) :
  parts <> [] -> Forall (fun p => contains sep p = false) parts ->
  split sep (join [sep] parts) = parts.
Proof.
  intros Hne Hp. induction Hp as [|p parts Hc Hp IH]; [done|].
  destruct parts as [|q parts].
  - cbn [join]. clear IH Hne Hp. unfold contains in Hc.
    induction p as [|x p IHp]; [done|]. cbn [existsb] in Hc.
    apply orb_false_elim in Hc as [Hx Hc]. cbn [split].
    rewrite N.eqb_sym, Hx, (IHp Hc). done.
  - rewrite join_cons_nonempty by done. specialize (IH ltac:(done)).
    clear Hne Hp. unfold contains in Hc.
    change ([sep] ++ join [sep] (q :: parts))
      with (sep :: join [sep] (q :: parts)).
    induction p as [|x p IHp].
    + cbn [app split]. by rewrite N.eqb_refl, IH.
    + cbn [existsb] in Hc. apply orb_false_elim in Hc as [Hx Hc].
      cbn [app split]. rewrite N.eqb_sym, Hx. by rewrite (IHp Hc).
Qed.

Lemma lor_shiftl16 (a h : N) :
  h < 65536 -> N.lor (N.shiftl a 16) h = a * 65536 + h.
Proof.
  intros Hh. rewrite N.shiftl_mul_pow2. change (2 ^ 16) with 65536.
  assert (N.land (a * 65536) h = 0) as Hl; [|by rewrite <- (N.lxor_lor _ _ Hl), (N.add_nocarry_lxor _ _ Hl)].
  change 65536 with (2 ^ 16) at 1.
  apply N.bits_inj_0. intros k.
  rewrite N.land_spec. destruct (N.lt_ge_cases k 16) as [Hk|Hk].
  - rewrite N.mul_pow2_bits_low by done. done.
  - rewrite (N.bits_above_log2 h k), andb_false_r; [done|].
    destruct (N.eq_dec h 0) as [->|Hne]; [simpl; lia|].
    apply N.log2_lt_pow2; [lia|].
    apply N.lt_le_trans with (2 ^ 16); [done|].
    apply N.pow_le_mono_r; lia.
Qed.

Ltac eval_pows :=
  repeat match goal with
  | |- context [2 ^ ?k] =>
      let v := eval vm_compute in (2 ^ k) in change (2 ^ k) with v
  end.

Lemma abs_roundtrip (h0 h1 h2 h3 h4 h5 h6 h7 : N) :
  h0 < 65536 -> h1 < 65536 -> h2 < 65536 -> h3 < 65536 ->
  h4 < 65536 -> h5 < 65536 -> h6 < 65536 -> h7 < 65536 ->
  abs_from_parts
    (compress_with None
       (List.map (fun h => h =? 0) [h0; h1; h2; h3; h4; h5; h6; h7])
       (List.map Some [h0; h1; h2; h3; h4; h5; h6; h7])) =
  Some (combine8 [h0; h1; h2; h3; h4; h5; h6; h7]).
Proof.
  intros H0 H1 H2 H3 H4 H5 H6 H7. cbn [List.map].
  destruct (N.eqb_spec h0 0) as [->|N0],
    (N.eqb_spec h1 0) as [->|N1],
    (N.eqb_spec h2 0) as [->|N2],
    (N.eqb_spec h3 0) as [->|N3],
    (N.eqb_spec h4 0) as [->|N4],
    (N.eqb_spec h5 0) as [->|N5],
    (N.eqb_spec h6 0) as [->|N6],
    (N.eqb_spec h7 0) as [->|N7].
  all: match goal with
    | |- ?L = _ =>
        let L' := eval cbv -[N.lor N.shiftl] in L in change L with L'
    end.
  all: rewrite ?lor_shiftl16 by lia; rewrite ?N.shiftl_mul_pow2.
  all: eval_pows; unfold combine8; cbn [fold_left]; f_equal; lia.
Qed.

End V6Facts.

(** * The second pass of the IP normaliser *)

Module RoundTrip.
Import Py PyFacts PrefixFacts ParseFacts IpFacts V4Facts V6Facts FileFacts
  ipaddress Aux.

Lemma abs_from_parts_length (ps : list (option N)) (n : N) :
  abs_from_parts ps = Some n -> (3 <= length ps)%nat.
Proof.
  unfold abs_from_parts. destruct (length ps <? 3)%nat eqn:E; [done|].
  intros _. by apply Nat.ltb_ge in E.
Qed.

Lemma is_empty_join (sep : N) (parts : list (list N)) :
  (2 <= length parts)%nat -> is_empty (join [sep] parts) = false.
Proof.
  destruct parts as [|p [|q parts]]; simpl; [lia|lia|]. intros _.
  by destruct p.
Qed.

Lemma hex_part_format_x (h : N) : h < 65536 -> hex_part (format_x h).
Proof.
  intros Hh. destruct (hextet_facts h Hh) as (Hp & He & Hx & _).
  split; [done|]. by rewrite Hp, He.
Qed.

(** Parsing the printed hextets gives their combination. *)
Lemma v6_roundtrip_hextets (h0 h1 h2 h3 h4 h5 h6 h7 : N) :
  h0 < 65536 -> h1 < 65536 -> h2 < 65536 -> h3 < 65536 ->
  h4 < 65536 -> h5 < 65536 -> h6 < 65536 -> h7 < 65536 ->
  let parts :=
    _compress_hextets (List.map format_x [h0; h1; h2; h3; h4; h5; h6; h7]) in
  Forall hex_part parts /\
  v6_ip_int_from_string (join (lit ":") parts) =
    Some (combine8 [h0; h1; h2; h3; h4; h5; h6; h7]).
Proof.
  intros H0 H1 H2 H3 H4 H5 H6 H7 parts.
  assert (Forall (fun h => h < 65536) [h0; h1; h2; h3; h4; h5; h6; h7])
    as Hall by (repeat constructor; done).
  assert (Forall hex_part parts) as Hparts.
  { subst parts. rewrite (compress_flags _ Hall).
    apply compress_with_Forall; [apply hex_part_nil|].
    cbn [List.map]. repeat constructor; by apply hex_part_format_x. }
  split; [done|].
  assert (abs_from_parts (List.map _parse_hextet parts) =
          Some (combine8 [h0; h1; h2; h3; h4; h5; h6; h7])) as Habs.
  { subst parts. rewrite (compress_flags _ Hall), compress_with_map.
    cbn [List.map].
    destruct (hextet_facts h0 H0) as (-> & _), (hextet_facts h1 H1) as (-> & _),
      (hextet_facts h2 H2) as (-> & _), (hextet_facts h3 H3) as (-> & _),
      (hextet_facts h4 H4) as (-> & _), (hextet_facts h5 H5) as (-> & _),
      (hextet_facts h6 H6) as (-> & _), (hextet_facts h7 H7) as (-> & _).
    change (_parse_hextet []) with (@None N).
    by apply abs_roundtrip. }
  pose proof (abs_from_parts_length _ _ Habs) as Hlen.
  rewrite length_map in Hlen.
  rewrite v6_ip_int_from_string_parts. change (lit ":") with [ch ":"].
  rewrite is_empty_join by lia.
  rewrite split_join.
  - by rewrite (v6_from_parts_abs _ Hparts).
  - intros ->. simpl in Hlen. lia.
  - eapply Forall_impl; [exact Hparts|]. intros p Hp.
    by apply (hex_part_no (ch ":") p eq_refl).
Qed.

Lemma hextet_of_lt (n i : N) : hextet_of n i < 65536.
Proof.
  unfold hextet_of. change 0xFFFF with (N.ones 16).
  rewrite N.land_ones. change (2 ^ 16) with 65536.
  by apply N.mod_lt.
Qed.

(** One group of sixteen bits after the other. *)
Lemma div_step (n d : N) :
  n / (d * 65536) * 65536 + (n / d) mod 65536 = n / d.
Proof.
  rewrite <- N.Div0.div_div, (N.mul_comm _ 65536). symmetry.
  apply N.Div0.div_mod.
Qed.

Lemma combine8_hextets (n : N) :
  n < 2 ^ 128 ->
  combine8 (List.map (hextet_of n) [0; 1; 2; 3; 4; 5; 6; 7]) = n.
Proof.
  intros Hn. unfold combine8, hextet_of. cbn [List.map fold_left].
  change 0xFFFF with (N.ones 16). rewrite !N.land_ones, !N.shiftr_div_pow2.
  change (2 ^ 16) with 65536.
  replace (0 * 65536) with (n / (2 ^ 112 * 65536) * 65536)
    by (change (2 ^ 112 * 65536) with (2 ^ 128);
        by rewrite N.div_small).
  change (16 * (7 - 0)) with 112. rewrite (div_step n (2 ^ 112)).
  change (2 ^ 112) with (2 ^ 96 * 65536).
  change (16 * (7 - 1)) with 96. rewrite (div_step n (2 ^ 96)).
  change (2 ^ 96) with (2 ^ 80 * 65536).
  change (16 * (7 - 2)) with 80. rewrite (div_step n (2 ^ 80)).
  change (2 ^ 80) with (2 ^ 64 * 65536).
  change (16 * (7 - 3)) with 64. rewrite (div_step n (2 ^ 64)).
  change (2 ^ 64) with (2 ^ 48 * 65536).
  change (16 * (7 - 4)) with 48. rewrite (div_step n (2 ^ 48)).
  change (2 ^ 48) with (2 ^ 32 * 65536).
  change (16 * (7 - 5)) with 32. rewrite (div_step n (2 ^ 32)).
  change (2 ^ 32) with (2 ^ 16 * 65536).
  change (16 * (7 - 6)) with 16. rewrite (div_step n (2 ^ 16)).
  change (2 ^ 16) with (1 * 65536).
  change (16 * (7 - 7)) with 0. change (2 ^ 0) with 1.
  rewrite (div_step n 1). apply N.div_1_r.
Qed.

(** Parsing the canonical text of an address gives the address. *)
Lemma v6_roundtrip (n : N) :
  n < 2 ^ 128 ->
  v6_ip_int_from_string (v6_string_from_ip_int n) = Some n /\
  forallb (fun c => ishex_char c || (c =? ch ":")) (v6_string_from_ip_int n)
    = true.
Proof.
  intros Hn. unfold v6_string_from_ip_int. cbv zeta.
  cbn [List.map].
  destruct (v6_roundtrip_hextets
    (hextet_of n 0) (hextet_of n 1) (hextet_of n 2) (hextet_of n 3)
    (hextet_of n 4) (hextet_of n 5) (hextet_of n 6) (hextet_of n 7))
    as [Hparts Hrt]; try apply hextet_of_lt.
  cbn [List.map] in Hrt, Hparts.
  split.
  - rewrite Hrt. f_equal. by apply (combine8_hextets n).
  - revert Hparts. generalize (_compress_hextets
      [format_x (hextet_of n 0); format_x (hextet_of n 1);
       format_x (hextet_of n 2); format_x (hextet_of n 3);
       format_x (hextet_of n 4); format_x (hextet_of n 5);
       format_x (hextet_of n 6); format_x (hextet_of n 7)]).
    intros parts Hparts. induction Hparts as [|p parts [Hp _] _ IH]; [done|].
    assert (forallb (fun c => ishex_char c || (c =? ch ":")) p = true) as Hp'.
    { clear -Hp. induction p as [|c p IHp]; [done|]. cbn [forallb] in *.
      apply andb_prop in Hp as [-> Hp]. by rewrite IHp. }
    destruct parts as [|q parts]; [done|].
    rewrite join_cons_nonempty by done.
    rewrite !forallb_app, Hp', IH. done.
Qed.

(** *** Parsed addresses are in range *)

Lemma hexval_lt (c : N) : ishex_char c = true -> hexval c < 16.
Proof.
  unfold ishex_char, hexval, isdigit_char. intros H.
  destruct ((0x30 <=? c) && (c <=? 0x39)) eqn:E1;
    [|destruct ((0x41 <=? c) && (c <=? 0x46)) eqn:E2];
    cbn [orb] in H; bool_hyps; lia.
Qed.

Lemma parse_hextet_lt (p : list N) (h : N) :
  _parse_hextet p = Some h -> h < 65536.
Proof.
  intros (Hx & _ & Hl & ->)%parse_hextet_inv. unfold int16.
  destruct p as [|c1 [|c2 [|c3 [|c4 [|c5 p]]]]]; cbn [length] in Hl;
    try lia; cbn [forallb] in Hx; bool_hyps;
    repeat match goal with
    | Hc : ishex_char _ = true |- _ => apply hexval_lt in Hc
    end; cbn [fold_left]; lia.
Qed.

Lemma fold_parse_bound (l : list (list N)) (a v : N) (k : N) :
  a < 2 ^ (16 * k) ->
  fold_left parse_hextets_step l (Some a) = Some v ->
  v < 2 ^ (16 * (k + N.of_nat (length l))).
Proof.
  revert a k; induction l as [|p l IH]; intros a k Ha.
  - intros [= <-]. cbn [length]. by rewrite N.add_0_r.
  - cbn [fold_left]. unfold parse_hextets_step at 2. cbn [mbind option_bind].
    destruct (_parse_hextet p) as [h|] eqn:Hp;
      [|cbn [mbind option_bind]; by rewrite fold_parse_None].
    cbn [mbind option_bind]. intros Hv.
    apply (IH _ (k + 1)) in Hv.
    + replace (k + N.of_nat (length (p :: l)))
        with (k + 1 + N.of_nat (length l)) by (cbn [length]; lia). done.
    + apply parse_hextet_lt in Hp. rewrite (lor_shiftl16 _ _ Hp).
      replace (16 * (k + 1)) with (16 * k + 16) by lia.
      rewrite N.pow_add_r. change (2 ^ 16) with 65536. nia.
Qed.

Lemma v6_from_parts_lt (parts : list (list N)) (n : N) :
  v6_from_parts parts = Some n -> n < 2 ^ 128.
Proof.
  unfold v6_from_parts. destruct (length parts <? 3)%nat; [done|].
  intros (parts' & _ & H)%bind_Some. revert H.
  destruct (_HEXTET_COUNT + 1 <? length parts')%nat; [done|].
  intros (skip & _ & H)%bind_Some.
  apply bind_Some in H as ([[hi lo] sk] & Hidx & H).
  apply bind_Some in H as (ip & Hhi & Hlo).
  assert (hi + sk + lo <= 8)%nat as Hsum.
  { destruct skip as [i|].
    - apply bind_Some in Hidx as (hi' & _ & Hidx).
      apply bind_Some in Hidx as (lo' & _ & Hidx).
      destruct (_ <? 1)%nat eqn:E; [done|]. injection Hidx as <- <- <-.
      apply Nat.ltb_ge in E. unfold _HEXTET_COUNT in *. lia.
    - destruct (negb _) eqn:E; [done|].
      apply negb_false_iff, Nat.eqb_eq in E.
      destruct (is_empty _); [done|]. destruct (is_empty _); [done|].
      injection Hidx as <- <- <-. unfold _HEXTET_COUNT in E. lia. }
  apply (fold_parse_bound _ _ _ 0) in Hhi; [|by vm_compute].
  rewrite N.shiftl_mul_pow2 in Hlo.
  apply (fold_parse_bound _ _ _
           (N.of_nat (length (take hi parts')) + N.of_nat sk)) in Hlo.
  - eapply N.lt_le_trans; [exact Hlo|].
    apply N.pow_le_mono_r; [done|].
    rewrite length_take, length_drop. lia.
  - replace (16 * (N.of_nat (length (take hi parts')) + N.of_nat sk))
      with (16 * (0 + N.of_nat (length (take hi parts'))) + 16 * N.of_nat sk)
      by lia.
    rewrite N.pow_add_r. apply N.mul_lt_mono_pos_r; [|done].
    apply N.neq_0_lt_0, N.pow_nonzero. done.
Qed.

Lemma v6_ip_int_from_string_lt (s : list N) (n : N) :
  v6_ip_int_from_string s = Some n -> n < 2 ^ 128.
Proof.
  rewrite v6_ip_int_from_string_parts. destruct (is_empty s); [done|].
  apply v6_from_parts_lt.
Qed.

Lemma land_lt_pow2 (a b k : N) : a < 2 ^ k -> N.land a b < 2 ^ k.
Proof.
  intros Ha.
  assert (N.land a b = N.land (N.land a b) (N.ones k)) as ->.
  { rewrite <- N.land_assoc, (N.land_comm b), N.land_assoc.
    by rewrite (N.land_ones a), N.mod_small. }
  rewrite N.land_ones. apply N.mod_lt. by apply N.pow_nonzero.
Qed.

Lemma dec_ok_all : forall_from 256 0 dec_ok = true.
Proof. by vm_compute. Qed.

Lemma dec_facts (b : N) :
  b < 256 ->
  forallb isdigit_char (str_of_int b) = true /\
  is_empty (str_of_int b) = false /\
  int10 (str_of_int b) = b /\
  _parse_octet (str_of_int b) = Some b.
Proof.
  intros Hb. pose proof (forall_from_spec _ _ _ dec_ok_all b) as H.
  unfold dec_ok in H. specialize (H ltac:(lia)).
  apply andb_prop in H as [H H4]. apply andb_prop in H as [H H3].
  apply andb_prop in H as [H1 H2].
  destruct (_parse_octet (str_of_int b)) as [v|]; [|done].
  apply N.eqb_eq in H4 as ->. apply negb_true_iff in H2.
  by apply N.eqb_eq in H3.
Qed.

Lemma forallb_contains (P : N -> bool) (c : N) (s : list N) :
  P c = false -> forallb P s = true -> contains c s = false.
Proof.
  intros Hc. unfold contains. induction s as [|x s IH]; [done|].
  cbn [forallb existsb]. intros [Hx Hs]%andb_prop.
  rewrite (IH Hs), orb_false_r. apply N.eqb_neq. intros ->. congruence.
Qed.

Lemma forallb_join (P : N -> bool) (sep : N) (parts : list (list N)) :
  P sep = true -> Forall (fun p => forallb P p = true) parts ->
  forallb P (join [sep] parts) = true.
Proof.
  intros Hsep Hp. induction Hp as [|p parts Hp _ IH]; [done|].
  destruct parts as [|q parts]; [done|].
  rewrite join_cons_nonempty by done. rewrite !forallb_app, Hp, IH.
  cbn [forallb]. by rewrite Hsep.
Qed.

Lemma forallb_weaken (P Q : N -> bool) (s : list N) :
  (forall c, P c = true -> Q c = true) ->
  forallb P s = true -> forallb Q s = true.
Proof.
  intros HPQ. induction s as [|c s IH]; [done|]. cbn [forallb].
  intros [Hc Hs]%andb_prop. by rewrite (HPQ _ Hc), IH.
Qed.

Lemma to_bytes4_lt (n : N) : Forall (fun b => b < 256) (to_bytes4 n).
Proof.
  unfold to_bytes4. repeat constructor; by apply N.mod_lt.
Qed.

Lemma div_step_gen (n d b : N) :
  n / (d * b) * b + (n / d) mod b = n / d.
Proof.
  rewrite <- N.Div0.div_div, (N.mul_comm _ b). symmetry.
  apply N.Div0.div_mod.
Qed.

Lemma from_bytes_to_bytes4 (n : N) :
  n < 2 ^ 32 -> int_from_bytes (to_bytes4 n) = n.
Proof.
  intros Hn. unfold int_from_bytes, to_bytes4. cbn [fold_left].
  rewrite !N.shiftr_div_pow2.
  replace (0 * 256) with (n / (2 ^ 24 * 256) * 256)
    by (change (2 ^ 24 * 256) with (2 ^ 32); by rewrite N.div_small).
  rewrite (div_step_gen n (2 ^ 24)).
  change (2 ^ 24) with (2 ^ 16 * 256). rewrite (div_step_gen n (2 ^ 16)).
  change (2 ^ 16) with (2 ^ 8 * 256). rewrite (div_step_gen n (2 ^ 8)).
  change (2 ^ 8) with (1 * 256).
  rewrite <- (N.div_1_r n) at 2. rewrite (div_step_gen n 1).
  apply N.div_1_r.
Qed.

(** Parsing the text of a dotted quad gives the address. *)
Lemma v4_print_parse (n : N) :
  n < 2 ^ 32 ->
  v4_ip_int_from_string (v4_string_from_ip_int n) = Some n /\
  forallb v4_char (v4_string_from_ip_int n) = true /\
  exists c t, v4_string_from_ip_int n = c :: t /\ isdigit_char c = true.
Proof.
  intros Hn. pose proof (from_bytes_to_bytes4 n Hn) as Hback.
  pose proof (to_bytes4_lt n) as Hb.
  unfold v4_string_from_ip_int. unfold to_bytes4 in *.
  remember (N.shiftr n 24 mod 256) as b0 eqn:E0. clear E0.
  remember (N.shiftr n 16 mod 256) as b1 eqn:E1. clear E1.
  remember (N.shiftr n 8 mod 256) as b2 eqn:E2. clear E2.
  remember (n mod 256) as b3 eqn:E3. clear E3.
  pose proof (Forall_inv Hb) as H0.
  pose proof (Forall_inv (Forall_inv_tail Hb)) as H1.
  pose proof (Forall_inv (Forall_inv_tail (Forall_inv_tail Hb))) as H2.
  pose proof (Forall_inv (Forall_inv_tail (Forall_inv_tail
    (Forall_inv_tail Hb)))) as H3.
  cbn beta in H0, H1, H2, H3. clear Hb. cbn [List.map].
  destruct (dec_facts b0 H0) as (D0 & E0 & _ & P0).
  destruct (dec_facts b1 H1) as (D1 & E1 & _ & P1).
  destruct (dec_facts b2 H2) as (D2 & E2 & _ & P2).
  destruct (dec_facts b3 H3) as (D3 & E3 & _ & P3).
  change (lit ".") with [ch "."].
  assert (Forall (fun p => forallb isdigit_char p = true)
            [str_of_int b0; str_of_int b1; str_of_int b2; str_of_int b3])
    as Hd by (repeat constructor; done).
  split; [|split].
  - unfold v4_ip_int_from_string. rewrite is_empty_join by (simpl; lia).
    rewrite split_join; [|done|].
    + cbn [length Nat.eqb negb mapM]. rewrite P0, P1, P2, P3. simpl.
      by rewrite Hback.
    + eapply Forall_impl; [exact Hd|]. intros p Hp.
      by apply (forallb_contains isdigit_char).
  - apply forallb_join; [done|].
    eapply Forall_impl; [exact Hd|]. intros p Hp.
    apply (forallb_weaken isdigit_char); [|done].
    intros c Hc. unfold v4_char. by rewrite Hc.
  - rewrite join_cons_nonempty by done.
    destruct (str_of_int b0) as [|c t]; [done|].
    exists c, (t ++ [ch "."] ++
      join [ch "."] [str_of_int b1; str_of_int b2; str_of_int b3]).
    split; [done|]. cbn [forallb] in D0. by apply andb_prop in D0 as [-> _].
Qed.

Lemma int_from_bytes4_lt (a b c d : N) :
  a <= 255 -> b <= 255 -> c <= 255 -> d <= 255 ->
  int_from_bytes [a; b; c; d] < 2 ^ 32.
Proof.
  intros. unfold int_from_bytes. cbn [fold_left].
  change (2 ^ 32) with 4294967296. lia.
Qed.

Lemma v4_ip_int_from_string_lt (s : list N) (n : N) :
  v4_ip_int_from_string s = Some n -> n < 2 ^ 32.
Proof.
  unfold v4_ip_int_from_string. destruct (is_empty s); [done|].
  destruct (negb _) eqn:Hl; [done|].
  apply negb_false_iff, Nat.eqb_eq in Hl.
  intros (bs & Hm & ->)%fmap_Some. apply mapM_Some in Hm.
  destruct (split (ch ".") s) as [|o1 [|o2 [|o3 [|o4 [|o5 r]]]]];
    try done.
  inversion Hm as [|? v1 ? ? H1 Hm1]; subst.
  inversion Hm1 as [|? v2 ? ? H2 Hm2]; subst.
  inversion Hm2 as [|? v3 ? ? H3 Hm3]; subst.
  inversion Hm3 as [|? v4 ? ? H4 Hm4]; subst.
  inversion Hm4; subst.
  apply int_from_bytes4_lt; by eapply parse_octet_inv.
Qed.

Lemma partition_contains (sep c : N) (s b a : list N) (f : bool) :
  partition sep s = (b, f, a) -> contains c s = false ->
  contains c b = false /\ contains c a = false.
Proof.
  unfold contains. revert b f a; induction s as [|x s IH]; intros b f a.
  - by intros [= <- <- <-].
  - cbn [partition existsb]. intros H [Hx Hs]%orb_false_elim.
    destruct (x =? sep).
    + injection H as <- <- <-. done.
    + destruct (partition sep s) as [[b' f'] a'].
      injection H as <- <- <-. destruct (IH _ _ _ eq_refl Hs) as [Hb Ha].
      cbn [existsb]. by rewrite Hx, Hb.
Qed.

Lemma IPv4Address_wf (s : list N) (a : Address) :
  IPv4Address s = Some a -> wf_address a /\ is_v4 a = true.
Proof.
  intros (_ & n & -> & H)%IPv4Address_inv. split; [|done].
  by apply v4_ip_int_from_string_lt in H.
Qed.

Lemma IPv6Address_wf (s : list N) (a : Address) :
  IPv6Address s = Some a -> wf_address a /\ is_v4 a = false.
Proof.
  unfold IPv6Address. destruct (contains (ch "/") s) eqn:Hs; [done|].
  intros ([addr sc] & Hsc & H)%bind_Some.
  apply bind_Some in H as (ip & Hip & [= <-]).
  split; [|done]. split; [by apply v6_ip_int_from_string_lt in Hip|].
  unfold _split_scope_id in Hsc.
  destruct (partition (ch "%") s) as [[b f] sc'] eqn:E.
  destruct (negb f); [by injection Hsc as _ <-|].
  destruct (is_empty sc') eqn:E1; [done|].
  destruct (contains (ch "%") sc') eqn:E2; [done|].
  injection Hsc as _ <-. cbn [scope_ok].
  by destruct (partition_contains _ (ch "/") _ _ _ _ E Hs).
Qed.

Lemma ip_address_wf (s : list N) (a : Address) :
  ip_address s = Some a -> wf_address a.
Proof.
  unfold ip_address. destruct (IPv4Address s) as [a4|] eqn:E4.
  - intros [= <-]. by apply IPv4Address_wf in E4 as [? _].
  - intros H. by apply IPv6Address_wf in H as [? _].
Qed.

Lemma prefix_from_prefix_string_le (m : N) (s : list N) (p : N) :
  _prefix_from_prefix_string m s = Some p -> p <= m.
Proof.
  unfold _prefix_from_prefix_string. destruct (negb _); [done|].
  destruct (int s) as [v|]; [|done].
  destruct (negb (_ <=? _)) eqn:E; [done|]. intros [= <-].
  by apply negb_false_iff, N.leb_le in E.
Qed.

Lemma prefix_from_ip_int_le (m ip p : N) :
  _prefix_from_ip_int m ip = Some p -> p <= m.
Proof.
  unfold _prefix_from_ip_int. destruct (negb _); [done|].
  intros [= <-]. lia.
Qed.

Lemma v4_make_netmask_le (mask : option (list N)) (p : N) :
  v4_make_netmask mask = Some p -> p <= 32.
Proof.
  unfold v4_make_netmask. destruct mask as [s|]; [|by intros [= <-]].
  destruct (_prefix_from_prefix_string IPV4LENGTH s) as [q|] eqn:E.
  - intros [= <-]. by apply prefix_from_prefix_string_le in E.
  - unfold v4_prefix_from_ip_string. intros (ip & _ & H)%bind_Some.
    destruct (_prefix_from_ip_int IPV4LENGTH ip) as [q|] eqn:E1.
    + injection H as <-. by apply prefix_from_ip_int_le in E1.
    + by apply prefix_from_ip_int_le in H.
Qed.

Lemma v6_make_netmask_le (mask : option (list N)) (p : N) :
  v6_make_netmask mask = Some p -> p <= 128.
Proof.
  unfold v6_make_netmask. destruct mask as [s|]; [|by intros [= <-]].
  apply prefix_from_prefix_string_le.
Qed.

Lemma land_idem (a m : N) : N.land (N.land a m) m = N.land a m.
Proof. by rewrite <- N.land_assoc, N.land_diag. Qed.

Lemma ip_network_wf (s : list N) (net : Network) :
  ip_network s = Some net -> wf_network net.
Proof.
  unfold ip_network. destruct (IPv4Network s) as [n4|] eqn:E4.
  - intros [= <-]. unfold IPv4Network in E4.
    apply bind_Some in E4 as ([addr mask] & Hs & H).
    apply bind_Some in H as (a & Ha & H).
    apply bind_Some in H as (p & Hp & H).
    apply v4_make_netmask_le in Hp.
    apply IPv4Address_inv in Ha as (_ & n & -> & Hn).
    apply v4_ip_int_from_string_lt in Hn. cbn [_ip] in H.
    destruct (negb _) eqn:E; injection H as <-; unfold wf_network, netmask;
      cbn [network_address prefixlen is_v4 _ip wf_address max_prefixlen].
    + split; [by apply land_lt_pow2|]. split; [done|]. apply land_idem.
    + split; [done|]. split; [done|].
      by apply negb_false_iff, N.eqb_eq in E.
  - unfold IPv6Network. intros ([addr mask] & Hs & H)%bind_Some.
    apply bind_Some in H as (a & Ha & H).
    apply bind_Some in H as (p & Hp & H).
    apply v6_make_netmask_le in Hp.
    apply IPv6Address_wf in Ha as [Hw H6].
    destruct a as [n|n sc]; [done|]. destruct Hw as [Hn Hsc]. cbn [_ip] in H.
    destruct (negb _) eqn:E; injection H as <-; unfold wf_network, netmask;
      cbn [network_address prefixlen is_v4 _ip wf_address max_prefixlen].
    + split; [split; [by apply land_lt_pow2|done]|].
      split; [done|]. apply land_idem.
    + split; [done|]. split; [done|].
      by apply negb_false_iff, N.eqb_eq in E.
Qed.

Lemma host_network_wf (a : Address) :
  wf_address a -> wf_network (MkNetwork a (max_prefixlen a)).
Proof.
  intros Ha. unfold wf_network, netmask.
  cbn [network_address prefixlen]. split; [done|]. split; [done|].
  destruct a as [n|n sc]; cbn [is_v4 max_prefixlen _ip wf_address] in *.
  - change (_ip_int_from_prefix V4_ALL_ONES IPV4LENGTH) with (N.ones 32).
    by rewrite N.land_ones, N.mod_small.
  - destruct Ha as [Hn _].
    change (_ip_int_from_prefix V6_ALL_ONES IPV6LENGTH) with (N.ones 128).
    by rewrite N.land_ones, N.mod_small.
Qed.

Lemma partition_none (sep : N) (s : list N) :
  contains sep s = false -> partition sep s = (s, false, []).
Proof.
  unfold contains. induction s as [|x s IH]; [done|].
  cbn [existsb partition]. intros [Hx Hs]%orb_false_elim.
  by rewrite N.eqb_sym, Hx, (IH Hs).
Qed.

Lemma split_two (sep : N) (a b : list N) :
  contains sep a = false -> contains sep b = false ->
  split sep (a ++ sep :: b) = [a; b].
Proof.
  intros Ha Hb. change (a ++ sep :: b) with (a ++ [sep] ++ join [sep] [b]).
  rewrite <- (join_cons_nonempty [sep] a [b]) by done.
  apply split_join; [done|]. by repeat constructor.
Qed.

Lemma split_addr_prefix_text (a m : list N) :
  contains (ch "/") a = false -> contains (ch "/") m = false ->
  _split_addr_prefix (a ++ lit "/" ++ m) = Some (a, Some m).
Proof.
  intros Ha Hm. unfold _split_addr_prefix.
  change (a ++ lit "/" ++ m) with (a ++ ch "/" :: m).
  by rewrite split_two.
Qed.

(** A text that [_parse_octet] accepts is within the limit of [int]. *)
Lemma int_octet (o : list N) (v : N) :
  _parse_octet o = Some v -> int o = Some (int10 o).
Proof.
  unfold _parse_octet, int. destruct (is_empty o); [done|].
  destruct (negb (isascii_isdigit o)); [done|].
  destruct (3 <? length o)%nat eqn:E; [done|]. intros _.
  apply Nat.ltb_ge in E.
  assert ((max_str_digits <? N.of_nat (length o)) = false) as ->; [|done].
  apply N.ltb_ge. unfold max_str_digits. lia.
Qed.

Lemma prefix_text (m p : N) :
  p <= m -> m < 256 ->
  _prefix_from_prefix_string m (str_of_int p) = Some p /\
  contains (ch "/") (str_of_int p) = false.
Proof.
  intros Hp Hm. destruct (dec_facts p ltac:(lia)) as (Hd & He & Hi & Ho).
  split; [|by apply (forallb_contains isdigit_char)].
  unfold _prefix_from_prefix_string, isascii_isdigit.
  rewrite He, Hd. cbn [negb andb].
  rewrite (int_octet _ _ Ho), Hi.
  by apply N.leb_le in Hp as ->.
Qed.

(** The text of an IPv6 address without its zone. *)
Lemma v6_text (n : N) :
  n < 2 ^ 128 ->
  v6_ip_int_from_string (v6_string_from_ip_int n) = Some n /\
  forallb v6_char (v6_string_from_ip_int n) = true /\
  contains (ch ":") (v6_string_from_ip_int n) = true.
Proof.
  intros Hn. destruct (v6_roundtrip n Hn) as [Hp Hc].
  split; [done|]. split; [done|].
  destruct (contains (ch ":") (v6_string_from_ip_int n)) eqn:E; [done|].
  exfalso. rewrite v6_ip_int_from_string_parts in Hp.
  destruct (is_empty _); [done|].
  assert (split (ch ":") (v6_string_from_ip_int n)
          = [v6_string_from_ip_int n]) as Hs.
  { change [v6_string_from_ip_int n]
      with ([join [ch ":"] [v6_string_from_ip_int n]]).
    change (v6_string_from_ip_int n)
      with (join [ch ":"] [v6_string_from_ip_int n]) at 1.
    apply split_join; [done|]. by repeat constructor. }
  rewrite Hs in Hp. by vm_compute in Hp.
Qed.

Lemma v4_parse_chars (s : list N) (n : N) :
  v4_ip_int_from_string s = Some n -> forallb v4_char s = true.
Proof.
  intros H. pose proof (v4_roundtrip _ _ H) as Hr.
  pose proof (v4_ip_int_from_string_lt _ _ H) as Hn.
  rewrite <- Hr. by apply v4_print_parse.
Qed.

(** A text with a colon is no dotted quad. *)
Lemma IPv4Address_colon (s : list N) :
  contains (ch ":") s = true -> IPv4Address s = None.
Proof.
  intros Hc. unfold IPv4Address. destruct (contains (ch "/") s); [done|].
  destruct (v4_ip_int_from_string s) as [n|] eqn:E; [|done].
  apply v4_parse_chars in E.
  by rewrite (forallb_contains v4_char (ch ":") s eq_refl E) in Hc.
Qed.

Lemma contains_app (c : N) (a b : list N) :
  contains c (a ++ b) = contains c a || contains c b.
Proof. unfold contains. apply existsb_app. Qed.

(** The text of a well-formed address parses back to the address. *)
Lemma address_text (a : Address) :
  wf_address a ->
  (if is_v4 a then IPv4Address (str_of_address a) = Some a
   else IPv4Address (str_of_address a) = None /\
        IPv6Address (str_of_address a) = Some a) /\
  contains (ch "/") (str_of_address a) = false.
Proof.
  destruct a as [n|n sc]; cbn [wf_address is_v4 str_of_address].
  - intros Hn. destruct (v4_print_parse n Hn) as (Hp & Hc & _).
    pose proof (forallb_contains v4_char (ch "/") _ eq_refl Hc) as Hs.
    split; [|done]. unfold IPv4Address. by rewrite Hs, Hp.
  - intros [Hn Hsc]. destruct (v6_text n Hn) as (Hp & Hc & Hcolon).
    pose proof (forallb_contains v6_char (ch "/") _ eq_refl Hc) as Hs.
    pose proof (forallb_contains v6_char (ch "%") _ eq_refl Hc) as Hpc.
    destruct sc as [sc|]; cbn [scope_ok] in Hsc.
    + destruct Hsc as (He & Hpct & Hsl). rewrite He.
      assert (contains (ch "/")
                (v6_string_from_ip_int n ++ lit "%" ++ sc) = false) as Hs'.
      { rewrite !contains_app, Hs, Hsl. done. }
      split; [|done]. split.
      * apply IPv4Address_colon. by rewrite contains_app, Hcolon.
      * unfold IPv6Address, _split_scope_id. rewrite Hs'.
        change (v6_string_from_ip_int n ++ lit "%" ++ sc)
          with (v6_string_from_ip_int n ++ ch "%" :: sc).
        rewrite (partition_app _ _ _ Hpc). cbn [negb].
        rewrite He, Hpct. cbn [orb mbind option_bind]. by rewrite Hp.
    + split; [|done]. split; [by apply IPv4Address_colon|].
      unfold IPv6Address, _split_scope_id. rewrite Hs.
      rewrite (partition_none _ _ Hpc). cbn [negb mbind option_bind].
      by rewrite Hp.
Qed.

(** The text of a well-formed network parses back to the network. *)
Lemma network_text (net : Network) :
  wf_network net -> ip_network (str_of_network net) = Some net.
Proof.
  destruct net as [a p]. unfold wf_network, str_of_network, netmask.
  cbn [network_address prefixlen]. intros (Ha & Hp & Hm).
  destruct (address_text a Ha) as [Hparse Hslash].
  assert (p < 256) as Hp256.
  { unfold max_prefixlen, IPV4LENGTH, IPV6LENGTH in Hp.
    destruct (is_v4 a); lia. }
  unfold ip_network, IPv4Network, IPv6Network.
  destruct (prefix_text (max_prefixlen a) p Hp) as [Hpt Hps].
  { unfold max_prefixlen, IPV4LENGTH, IPV6LENGTH. by destruct (is_v4 a). }
  rewrite (split_addr_prefix_text _ _ Hslash Hps).
  cbn [mbind option_bind].
  destruct a as [n|n sc]; cbn [is_v4 max_prefixlen _ip] in *.
  - rewrite Hparse. cbn [mbind option_bind v4_make_netmask].
    rewrite Hpt. cbn [mbind option_bind _ip]. by rewrite Hm, N.eqb_refl.
  - destruct Hparse as [-> ->]. cbn [mbind option_bind v6_make_netmask].
    rewrite Hpt. cbn [mbind option_bind _ip]. by rewrite Hm, N.eqb_refl.
Qed.

(** *** A rule line is normalised to itself *)

Lemma rstrip_nonspace (s : list N) :
  forallb (fun c => negb (isspace c)) s = true -> rstrip s = s.
Proof.
  induction s as [|c s IH]; [done|]. cbn [forallb rstrip].
  intros [Hc Hs]%andb_prop. rewrite (IH Hs).
  apply negb_true_iff in Hc. rewrite Hc. by destruct s.
Qed.

Lemma strip_text (a b : list N) (c : N) (t : list N) :
  a ++ b = c :: t -> isspace c = false ->
  b <> [] -> rstrip b = b -> strip (a ++ b) = a ++ b.
Proof.
  intros E Hc Hb Hr. unfold strip. rewrite E, (lstrip_nonspace _ _ Hc), <- E.
  rewrite rstrip_app; by rewrite Hr.
Qed.

Lemma v6_char_nonspace (c : N) : v6_char c = true -> isspace c = false.
Proof.
  unfold v6_char, ishex_char, isdigit_char. eval_lits. intros H.
  destruct (isspace c) eqn:E; [|done]. unfold isspace in E.
  bool_hyps; lia.
Qed.

Lemma isdigit_nonspace (c : N) : isdigit_char c = true -> isspace c = false.
Proof.
  intros H. apply v6_char_nonspace. unfold v6_char, ishex_char.
  by rewrite H.
Qed.

(** The text of a well-formed network: it starts with a character that
    is not white space, ends with its prefix length, and has a [/]. *)
Lemma network_text_shape (net : Network) :
  wf_network net ->
  (exists c t, str_of_network net = c :: t /\ isspace c = false) /\
  rstrip (lit "/" ++ str_of_int (prefixlen net)) =
    lit "/" ++ str_of_int (prefixlen net) /\
  contains (ch "/") (str_of_network net) = true.
Proof.
  destruct net as [a p]. unfold wf_network, str_of_network.
  cbn [network_address prefixlen]. intros (Ha & Hp & _).
  assert (p < 256) as Hp256.
  { unfold max_prefixlen, IPV4LENGTH, IPV6LENGTH in Hp.
    destruct (is_v4 a); lia. }
  destruct (dec_facts p Hp256) as (Hd & He & _).
  split; [|split].
  - assert (exists c t, str_of_address a = c :: t /\ isspace c = false)
      as (c & t & -> & Hc).
    { destruct a as [n|n sc]; cbn [wf_address str_of_address] in *.
      - destruct (v4_print_parse n Ha) as (_ & _ & c & t & -> & Hc).
        exists c, t. split; [done|]. by apply isdigit_nonspace.
      - destruct Ha as [Hn _]. destruct (v6_text n Hn) as (_ & Hc & Hcolon).
        destruct (v6_string_from_ip_int n) as [|c t] eqn:E; [done|].
        cbn [forallb] in Hc. apply andb_prop in Hc as [Hc _].
        apply v6_char_nonspace in Hc.
        destruct sc as [sc|]; [destruct (is_empty sc)|]; eauto. }
    eauto.
  - apply rstrip_nonspace. rewrite forallb_app. apply andb_true_intro.
    split; [by vm_compute|].
    apply (forallb_weaken isdigit_char); [|done].
    intros c Hc. by rewrite (isdigit_nonspace c Hc).
  - rewrite !contains_app. change (contains (ch "/") (lit "/")) with true.
    by rewrite orb_true_r.
Qed.

Lemma host_cidr_network (a : Address) :
  host_cidr a = str_of_network (MkNetwork a (max_prefixlen a)).
Proof. unfold host_cidr, str_of_network, max_prefixlen. by destruct (is_v4 a). Qed.

(** A rule made of the text of a well-formed network without a comma
    is normalised to itself. *)
Lemma rule_fixed (net : Network) :
  wf_network net ->
  contains (ch ",") (str_of_network net) = false ->
  Ip.normalize_ip_or_cidr (ip_rule (str_of_network net)) =
    Some (ip_rule (str_of_network net)) /\
  DomainsIp.normalize_ip_or_cidr (ip_rule (str_of_network net)) =
    Some (ip_rule (str_of_network net)).
Proof.
  intros Hwf Hcomma.
  destruct (network_text_shape net Hwf) as ((c & t & Hct & Hc) & Hr & Hslash).
  pose proof (network_text net Hwf) as Hparse.
  set (cidr := str_of_network net) in *.
  assert (rstrip cidr = cidr) as Hrc.
  { subst cidr. unfold str_of_network.
    rewrite rstrip_app; rewrite Hr; [done|by eval_lits]. }
  assert (strip cidr = cidr) as Hsc.
  { unfold strip. by rewrite Hct, (lstrip_nonspace _ _ Hc), <- Hct. }
  assert (strip (cidr ++ lit ",no-resolve") = cidr ++ lit ",no-resolve") as Hs1.
  { eapply strip_text; [by rewrite Hct|done|by eval_lits|by vm_compute]. }
  assert (strip (ip_rule cidr) = ip_rule cidr) as Hs2.
  { unfold ip_rule. rewrite app_assoc.
    eapply (strip_text _ _ (ch "I")); [by eval_lits|done|by eval_lits|by vm_compute]. }
  assert (Spec.is_prefixed (ip_rule cidr) = true) as Hpre.
  { unfold Spec.is_prefixed, ip_rule, upper. rewrite flat_map_app.
    change (flat_map upper_char (lit "IP-CIDR,")) with (lit "IP-CIDR,").
    apply startswith_app. }
  assert (Spec.prefixed_candidate (ip_rule cidr) = cidr) as Hcand.
  { unfold Spec.prefixed_candidate, ip_rule.
    rewrite drop_app_length' by done. rewrite Hs1.
    change (cidr ++ lit ",no-resolve") with (cidr ++ ch "," :: lit "no-resolve").
    rewrite split_two; [done|done|by vm_compute]. }
  assert (Spec.candidate_cidr cidr = Some cidr) as Hcc.
  { unfold Spec.candidate_cidr. by rewrite Hslash, Hparse. }
  rewrite normalize_agree by (left; by rewrite Hs2).
  rewrite normalize_prefixed by (by rewrite Hs2).
  by rewrite Hs2, Hcand, Hcc.
Qed.

(** *** What the first pass returns *)

Lemma candidate_cidr_network (c cidr : list N) :
  Spec.candidate_cidr c = Some cidr ->
  exists net, wf_network net /\ cidr = str_of_network net.
Proof.
  unfold Spec.candidate_cidr. destruct (contains (ch "/") c).
  - intros (net & Hn & ->)%fmap_Some. exists net. split; [|done].
    by apply ip_network_wf in Hn.
  - intros (a & Ha & ->)%fmap_Some. exists (MkNetwork a (max_prefixlen a)).
    split; [|apply host_cidr_network].
    by apply host_network_wf, (ip_address_wf c).
Qed.

(** A result of the normaliser is a line passed through or the rule of
    a well-formed network. *)
Lemma normalize_result (raw r : list N) :
  Ip.normalize_ip_or_cidr raw = Some r ->
  (is_empty (strip raw) || startswith (lit "#") (strip raw) = true /\
   r = strip raw) \/
  (is_empty (strip raw) || startswith (lit "#") (strip raw) = false /\
   DomainsIp.normalize_ip_or_cidr raw = Some r /\
   exists net, wf_network net /\ r = ip_rule (str_of_network net)).
Proof.
  destruct (is_empty (strip raw) || startswith (lit "#") (strip raw)) eqn:Hpass.
  { destruct (normalize_passthrough raw Hpass) as [-> _].
    intros [= <-]. by left. }
  intros H. right. split; [done|].
  rewrite normalize_agree by (by right). split; [done|].
  destruct (Spec.is_prefixed (strip raw)) eqn:Hp.
  - rewrite (normalize_prefixed _ Hp) in H.
    apply fmap_Some in H as (cidr & Hc & ->).
    apply candidate_cidr_network in Hc as (net & Hwf & ->). eauto.
  - rewrite (normalize_plain _ Hp Hpass) in H.
    destruct (if contains _ _ then _ else _) as [net|] eqn:En.
    + injection H as <-. exists net. split; [|done].
      destruct (contains (ch "/") (strip raw)); [|done].
      by apply ip_network_wf in En.
    + apply fmap_Some in H as (cidr & Hc & ->).
      apply fmap_Some in Hc as (a & Ha & ->).
      exists (MkNetwork a (max_prefixlen a)).
      split; [|by rewrite host_cidr_network].
      by apply host_network_wf, (ip_address_wf (strip raw)).
Qed.

Lemma ip_rule_inj (a b : list N) : ip_rule a = ip_rule b -> a = b.
Proof.
  unfold ip_rule. intros H. apply app_inv_head in H.
  by apply app_inv_tail in H.
Qed.

(** The result of the normaliser is normalised to itself, unless it is
    a rule whose CIDR text has a comma. *)
Lemma normalize_twice (raw r : list N) :
  Ip.normalize_ip_or_cidr raw = Some r ->
  (forall cidr, r = ip_rule cidr -> contains (ch ",") cidr = false) ->
  Ip.normalize_ip_or_cidr r = Some r.
Proof.
  intros H Hcomma. apply normalize_result in H as [[Hpass ->]|(_ & _ & H)].
  - assert (is_empty (strip (strip raw))
            || startswith (lit "#") (strip (strip raw)) = true) as Hpass'
      by (by rewrite strip_fixed).
    destruct (normalize_passthrough _ Hpass') as [-> _].
    by rewrite strip_fixed.
  - destruct H as (net & Hwf & ->).
    by apply rule_fixed; [|apply Hcomma].
Qed.

Lemma domains_ip_normalize_twice (raw r : list N) :
  DomainsIp.normalize_ip_or_cidr raw = Some r ->
  (forall cidr, r = ip_rule cidr -> contains (ch ",") cidr = false) ->
  DomainsIp.normalize_ip_or_cidr r = Some r.
Proof.
  intros H Hcomma.
  destruct (is_empty (strip raw) || startswith (lit "#") (strip raw)) eqn:Hpass.
  - destruct (normalize_passthrough raw Hpass) as [_ Hd].
    rewrite Hd in H. injection H as <-. done.
  - rewrite normalize_agree in H by (by right).
    apply normalize_result in H as [[Hp _]|(_ & _ & net & Hwf & ->)];
      [congruence|].
    by apply rule_fixed; [|apply Hcomma].
Qed.

Lemma ip_normalizer_fixed (normalize : list N -> option (list N))
  (l : list (list N)) :
  Forall (fun r => normalize r = Some r) l ->
  Spec.ip_normalizer normalize l = (l, O, length l).
Proof.
  unfold Spec.ip_normalizer. intros H.
  induction H as [|r l Hr _ IH]; [done|].
  injection IH as IH1 IH2 IH3.
  cbn [omap list_omap List.filter].
  unfold Spec.line_changed at 1, Spec.line_kept at 1.
  rewrite Hr, str_eqb_refl. cbn [negb length].
  by rewrite IH1, IH2, IH3.
Qed.

Lemma omap_Forall (normalize : list N -> option (list N))
  (P : list N -> Prop) (l : list (list N)) :
  (forall raw r, In raw l -> normalize raw = Some r -> P r) ->
  Forall P (omap normalize l).
Proof.
  induction l as [|raw l IH]; intros H; [constructor|].
  cbn [omap list_omap]. destruct (normalize raw) as [r|] eqn:E.
  - constructor; [by apply (H raw); [left|]|].
    apply IH. intros raw' r' Hin. apply H. by right.
  - apply IH. intros raw' r' Hin. apply H. by right.
Qed.

End RoundTrip.

(** * The properties of the specification *)

Import Py PyFacts PrefixFacts ParseFacts IpFacts V4Facts V6Facts FileFacts
  DomainFacts RoundTrip ipaddress Aux.

(** Claim C7.  For every sequence of lines, the domain normaliser of
    [domains.py] and the one of [domains_ip.py] return a sequence of
    equal length in which each line is transformed on its own: a blank
    line and a comment line are unchanged, a line whose trimmed form
    starts with the exact literal [DOMAIN-SUFFIX,] becomes its trimmed
    form, any other line becomes [DOMAIN-SUFFIX,] followed by its trimmed
    form; the count is the number of lines that received a new prefix. *)
Theorem C7_domain_normalizer (src_lines : list (list N)) :
  Domains.process_lines src_lines =
    (List.map Spec.domain_line src_lines,
     length (List.filter Spec.receives_prefix src_lines)) /\
  DomainsIp.process_domain_lines src_lines =
    (List.map Spec.domain_line src_lines,
     length (List.filter Spec.receives_prefix src_lines)) /\
  length (fst (Domains.process_lines src_lines)) = length src_lines /\
  length (fst (DomainsIp.process_domain_lines src_lines)) =
    length src_lines.
Proof.
  rewrite process_lines_spec, process_domain_lines_spec.
  unfold Spec.domain_normalizer. cbn [fst].
  by rewrite length_map.
Qed.

(** Blank and comment lines go through the domain normaliser and
    through the normaliser of [domains_ip.py] as they are. *)
Lemma passthrough_unchanged (raw : list N) :
  Spec.is_blank raw = true \/ Spec.is_comment raw = true ->
  Spec.domain_line raw = raw /\
  DomainsIp.normalize_ip_or_cidr raw = Some raw /\
  Ip.normalize_ip_or_cidr raw = Some (strip raw).
Proof.
  intros H. split.
  - unfold Spec.domain_line. destruct (Spec.is_blank raw); [done|].
    by destruct H as [?| ->].
  - assert (is_empty (strip raw) || startswith (lit "#") (strip raw) = true)
      as Hp.
    { rewrite strip_empty_iff, (is_comment_strip raw).
      fold (Spec.is_blank raw). destruct H as [-> | ->]; [done|].
      apply orb_true_r. }
    by destruct (normalize_passthrough raw Hp).
Qed.

(** Claim C6, at a line that the pass-through path of [ip.py] does not
    return as it is.  The comment line ["  # note "] comes back from
    [ip.py] without its surrounding white space, while [domains_ip.py]
    and the domain normaliser return it unchanged. *)
Theorem C6_ip_passthrough_strips :
  Spec.is_comment (lit "  # note ") = true /\
  Ip.normalize_ip_or_cidr (lit "  # note ") = Some (lit "# note") /\
  Ip.normalize_ip_or_cidr (lit "  # note ") <> Some (lit "  # note ") /\
  DomainsIp.normalize_ip_or_cidr (lit "  # note ") = Some (lit "  # note ") /\
  Domains.process_lines [lit "  # note "] = ([lit "  # note "], O).
Proof. by vm_compute. Qed.

(** A character that differs from a character of ["IP-CIDR,"] in case
    only has that character as its upper-case form. *)
Lemma upper_char_variant (c t : N) :
  In t prefix_chars -> Spec.ascii_lower c = Spec.ascii_lower t ->
  upper_char c = [t].
Proof.
  unfold prefix_chars. cbn [In]. intros Ht.
  repeat (destruct Ht as [<-|Ht]); try done;
    match goal with
    | |- _ = Spec.ascii_lower ?k -> _ =>
        let v := eval vm_compute in (Spec.ascii_lower k) in
        change (Spec.ascii_lower k) with v
    end;
    unfold Spec.ascii_lower;
    destruct ((0x41 <=? c) && (c <=? 0x5A)) eqn:E; intros Hc; bool_hyps;
    first [ subst c; by vm_compute
          | match type of Hc with
            | c + _ = ?v =>
                let w := eval vm_compute in (v - 0x20) in
                assert (c = w) as -> by lia; by vm_compute
            end
          | exfalso; lia ].
Qed.

Lemma upper_variant (p q : list N) :
  Forall (fun t => In t prefix_chars) q ->
  Spec.same_ignoring_case p q -> upper p = q.
Proof.
  unfold Spec.same_ignoring_case. intros Hq. revert p.
  induction Hq as [|t q Ht _ IH]; intros [|c p]; try done.
  cbn [List.map]. intros [= Hc Hp]. unfold upper. cbn [flat_map].
  rewrite (upper_char_variant c t Ht Hc). cbn [app]. f_equal. by apply IH.
Qed.

Lemma same_ignoring_case_length (p q : list N) :
  Spec.same_ignoring_case p q -> length p = length q.
Proof.
  unfold Spec.same_ignoring_case. intros H.
  by rewrite <- (length_map Spec.ascii_lower p), H, length_map.
Qed.

(** Claim C10.  The test for an existing prefix is case-sensitive in
    the domain normaliser and case-insensitive in the IP normaliser: a
    line whose trimmed form starts with a variant of [DOMAIN-SUFFIX,]
    that is not the upper-case literal receives a further
    [DOMAIN-SUFFIX,] prefix and counts as changed, while a line whose
    trimmed form starts with [IP-CIDR,] in any casing takes the
    already-prefixed path of the IP normaliser. *)
Theorem C10_prefix_case (line p rest : list N) :
  strip line = p ++ rest ->
  (Spec.same_ignoring_case p (lit "DOMAIN-SUFFIX,") ->
   p <> lit "DOMAIN-SUFFIX," ->
   forall (out : list (list N)) (n : nat),
     Domains.loop_body (out, n) line =
       (out ++ [lit "DOMAIN-SUFFIX," ++ strip line], S n) /\
     DomainsIp.domain_loop_body (out, n) line =
       (out ++ [lit "DOMAIN-SUFFIX," ++ strip line], S n)) /\
  (Spec.same_ignoring_case p (lit "IP-CIDR,") ->
   startswith (lit "IP-CIDR,") (upper (strip line)) = true /\
   Ip.normalize_ip_or_cidr line =
     ip_rule <$> Spec.candidate_cidr (Spec.prefixed_candidate (strip line)) /\
   DomainsIp.normalize_ip_or_cidr line =
     ip_rule <$> Spec.candidate_cidr (Spec.prefixed_candidate (strip line))).
Proof.
  intros Hs. split.
  - intros Hcase Hne out n.
    pose proof (same_ignoring_case_length _ _ Hcase) as Hlen.
    assert (Spec.receives_prefix line = true) as Hr.
    { unfold Spec.receives_prefix, Spec.has_domain_prefix.
      rewrite <- (is_comment_strip line).
      unfold Spec.is_blank. rewrite <- strip_empty_iff, Hs.
      destruct p as [|c p]; [done|]. cbn [app is_empty negb andb].
      assert (startswith (lit "#") (c :: p ++ rest) = false) as ->.
      { unfold Spec.same_ignoring_case in Hcase. eval_lits_in Hcase.
        cbn [List.map] in Hcase. injection Hcase as Hc _.
        eval_lits. cbn [startswith]. rewrite andb_true_r.
        apply N.eqb_neq. intros <-. by vm_compute in Hc. }
      cbn [negb andb]. apply negb_true_iff.
      destruct (startswith _ _) eqn:E; [|done].
      apply startswith_inv in E as [t E].
      change (c :: p ++ rest) with ((c :: p) ++ rest) in E.
      apply app_inj_1 in E as [E _]; [done|]. by rewrite Hlen. }
    rewrite loop_body_spec, domain_loop_body_spec, Hr.
    unfold Spec.domain_line.
    unfold Spec.receives_prefix in Hr. bool_hyps.
    repeat match goal with
    | H : ?b = false |- context [?b] => rewrite H
    end. done.
  - intros Hcase.
    assert (Spec.is_prefixed (strip line) = true) as Hp.
    { unfold Spec.is_prefixed. rewrite Hs. unfold upper.
      rewrite flat_map_app. fold (upper p).
      rewrite (upper_variant p (lit "IP-CIDR,")); [apply startswith_app| |done].
      eval_lits. unfold prefix_chars.
      repeat (constructor; [simpl; tauto|]). constructor. }
    split; [done|]. rewrite normalize_agree by (by left).
    by rewrite normalize_prefixed.
Qed.

(** Claim C10 at the line ["domain-suffix,example.com"] and at the
    line ["Ip-Cidr,192.0.2.7"]. *)
Lemma C10_prefix_case_witness :
  Domains.loop_body ([], O) (lit "domain-suffix,example.com") =
    ([] ++
     [lit "DOMAIN-SUFFIX," ++ strip (lit "domain-suffix,example.com")],
     1%nat) /\
  Ip.normalize_ip_or_cidr (lit "Ip-Cidr,192.0.2.7") =
    ip_rule <$> Spec.candidate_cidr
                  (Spec.prefixed_candidate (strip (lit "Ip-Cidr,192.0.2.7"))).
Proof.
  split.
  - refine (proj1 (proj1 (C10_prefix_case (lit "domain-suffix,example.com")
      (lit "domain-suffix,") (lit "example.com") _) _ _ [] O)).
    + by vm_compute.
    + by vm_compute.
    + by vm_compute.
  - refine (proj1 (proj2 (proj2 (C10_prefix_case (lit "Ip-Cidr,192.0.2.7")
      (lit "Ip-Cidr,") (lit "192.0.2.7") _) _))).
    + by vm_compute.
    + by vm_compute.
Defined.

(** A bare address takes the last branch of the normaliser. *)
Lemma normalize_bare_address (line : list N) (a : Address) :
  ip_address (strip line) = Some a ->
  Ip.normalize_ip_or_cidr line = Some (ip_rule (host_cidr a)) /\
  DomainsIp.normalize_ip_or_cidr line = Some (ip_rule (host_cidr a)).
Proof.
  intros Ha. pose proof (ip_address_inv _ _ Ha) as [Hslash Hv].
  apply valid_start_plain in Hv as (Hp & He & Hc).
  assert (is_empty (strip line) || startswith (lit "#") (strip line) = false)
    as Hb by (by rewrite He, Hc).
  rewrite normalize_agree by (by right).
  by rewrite (normalize_plain _ Hp Hb), Hslash, Ha.
Qed.

Lemma ip_address_v4_text (s : list N) (a : Address) :
  ip_address s = Some a -> is_v4 a = true -> str_of_address a = s.
Proof.
  unfold ip_address. destruct (IPv4Address s) as [a4|] eqn:E4.
  - intros [= <-] _. apply IPv4Address_inv in E4 as (_ & n & -> & Hn).
    by apply v4_roundtrip.
  - intros H Hv. apply IPv6Address_inv in H as (_ & _ & H6). congruence.
Qed.

(** Claim C1, at a line that shows what fails in it: the result for
    the bare IPv6 address [::1] ends in [,no-resolve], not in [/128]. *)
Lemma C1_ipv6_result_does_not_end_in_128 :
  ip_address (strip (lit "::1")) = Some (V6 1 None) /\
  Ip.normalize_ip_or_cidr (lit "::1") =
    Some (lit "IP-CIDR,::1/128,no-resolve") /\
  DomainsIp.normalize_ip_or_cidr (lit "::1") =
    Some (lit "IP-CIDR,::1/128,no-resolve") /\
  endswith (lit "/128") (lit "IP-CIDR,::1/128,no-resolve") = false.
Proof. by vm_compute. Qed.

(** Claim C1, amended.  For every line whose trimmed form is a valid
    bare address, both IP normalisers return
    [IP-CIDR,<address>/32,no-resolve], with the address as it is written
    in the line, when the address is IPv4, and
    [IP-CIDR,<canonical text>/128,no-resolve], with the canonical text
    of the address, when it is IPv6. *)
Theorem C1_bare_address (line : list N) (a : Address) :
  ip_address (strip line) = Some a ->
  match a with
  | V4 _ =>
      Ip.normalize_ip_or_cidr line =
        Some (lit "IP-CIDR," ++ strip line ++ lit "/32,no-resolve") /\
      DomainsIp.normalize_ip_or_cidr line =
        Some (lit "IP-CIDR," ++ strip line ++ lit "/32,no-resolve")
  | V6 _ _ =>
      Ip.normalize_ip_or_cidr line =
        Some (lit "IP-CIDR," ++ str_of_address a ++ lit "/128,no-resolve") /\
      DomainsIp.normalize_ip_or_cidr line =
        Some (lit "IP-CIDR," ++ str_of_address a ++ lit "/128,no-resolve")
  end.
Proof.
  intros Ha. destruct (normalize_bare_address line a Ha) as [-> ->].
  unfold ip_rule, host_cidr. destruct a as [n|n sc]; cbn [is_v4].
  - rewrite (ip_address_v4_text _ _ Ha) by done.
    rewrite <- !app_assoc.
    change (lit "/32" ++ lit ",no-resolve") with (lit "/32,no-resolve").
    done.
  - rewrite <- !app_assoc.
    change (lit "/128" ++ lit ",no-resolve") with (lit "/128,no-resolve").
    done.
Qed.

(** Claim C1 at the lines [" 192.0.2.1 "] and ["2001:DB8::1"]. *)
Lemma C1_bare_address_witness :
  (Ip.normalize_ip_or_cidr (lit " 192.0.2.1 ") =
     Some (lit "IP-CIDR," ++ strip (lit " 192.0.2.1 ")
           ++ lit "/32,no-resolve")) /\
  (Ip.normalize_ip_or_cidr (lit "2001:DB8::1") =
     Some (lit "IP-CIDR,"
           ++ str_of_address (V6 0x20010DB8000000000000000000000001 None)
           ++ lit "/128,no-resolve")).
Proof.
  split.
  - refine (proj1 (C1_bare_address (lit " 192.0.2.1 ") (V4 0xC0000201) _)).
    by vm_compute.
  - refine (proj1 (C1_bare_address (lit "2001:DB8::1")
      (V6 0x20010DB8000000000000000000000001 None) _)).
    by vm_compute.
Defined.

(** The address of a parsed network is the address of its text, with
    the bits outside the netmask cleared. *)
Lemma ip_network_masked (s : list N) (net : Network) :
  ip_network s = Some net ->
  exists addr mask a,
    _split_addr_prefix s = Some (addr, mask) /\
    (IPv4Address addr = Some a \/ IPv6Address addr = Some a) /\
    _ip (network_address net) = N.land (_ip a) (netmask net).
Proof.
  unfold ip_network. destruct (IPv4Network s) as [n4|] eqn:E4.
  - intros [= <-]. unfold IPv4Network in E4.
    apply bind_Some in E4 as ([addr mask] & Hs & H).
    apply bind_Some in H as (a & Ha & H).
    apply bind_Some in H as (p & Hp & H).
    exists addr, mask, a. split; [done|]. split; [by left|].
    apply IPv4Address_inv in Ha as (_ & n & -> & _). cbn [_ip] in *.
    destruct (negb _) eqn:E; injection H as <-; unfold netmask;
      cbn [network_address prefixlen is_v4 _ip]; [done|].
    by apply negb_false_iff, N.eqb_eq in E.
  - unfold IPv6Network. intros ([addr mask] & Hs & H)%bind_Some.
    apply bind_Some in H as (a & Ha & H).
    apply bind_Some in H as (p & Hp & H).
    exists addr, mask, a. split; [done|]. split; [by right|].
    pose proof (IPv6Address_inv _ _ Ha) as (_ & _ & H6).
    destruct a as [n|n sc]; [done|]. cbn [_ip] in *.
    destruct (negb _) eqn:E; injection H as <-; unfold netmask;
      cbn [network_address prefixlen is_v4 _ip]; [done|].
    by apply negb_false_iff, N.eqb_eq in E.
Qed.

Lemma normalize_network (line : list N) (net : Network) :
  contains (ch "/") (strip line) = true ->
  ip_network (strip line) = Some net ->
  Ip.normalize_ip_or_cidr line = Some (ip_rule (str_of_network net)) /\
  DomainsIp.normalize_ip_or_cidr line = Some (ip_rule (str_of_network net)).
Proof.
  intros Hslash Hn. pose proof (ip_network_head _ _ Hn) as Hv.
  apply valid_start_plain in Hv as (Hp & He & Hc).
  assert (is_empty (strip line) || startswith (lit "#") (strip line) = false)
    as Hb by (by rewrite He, Hc).
  rewrite normalize_agree by (by right).
  by rewrite (normalize_plain _ Hp Hb), Hslash, Hn.
Qed.

(** Claim C2.  A line with a [/] whose trimmed form is a network under
    the non-strict reading is accepted whatever its host bits are: the
    rule carries the network, whose address is the address written in
    the line with the bits outside the netmask cleared.  The line
    [10.1.2.3/24] gives [IP-CIDR,10.1.2.0/24,no-resolve] and the line
    [10.0.0.0/8] gives [IP-CIDR,10.0.0.0/8,no-resolve]. *)
Theorem C2_network_non_strict :
  Ip.normalize_ip_or_cidr (lit "10.1.2.3/24") =
    Some (lit "IP-CIDR,10.1.2.0/24,no-resolve") /\
  DomainsIp.normalize_ip_or_cidr (lit "10.1.2.3/24") =
    Some (lit "IP-CIDR,10.1.2.0/24,no-resolve") /\
  Ip.normalize_ip_or_cidr (lit "10.0.0.0/8") =
    Some (lit "IP-CIDR,10.0.0.0/8,no-resolve") /\
  DomainsIp.normalize_ip_or_cidr (lit "10.0.0.0/8") =
    Some (lit "IP-CIDR,10.0.0.0/8,no-resolve") /\
  forall (line : list N) (net : Network),
    contains (ch "/") (strip line) = true ->
    ip_network (strip line) = Some net ->
    Ip.normalize_ip_or_cidr line =
      Some (lit "IP-CIDR," ++ str_of_network net ++ lit ",no-resolve") /\
    DomainsIp.normalize_ip_or_cidr line =
      Some (lit "IP-CIDR," ++ str_of_network net ++ lit ",no-resolve") /\
    N.land (_ip (network_address net)) (netmask net) =
      _ip (network_address net) /\
    exists addr mask a,
      _split_addr_prefix (strip line) = Some (addr, mask) /\
      (IPv4Address addr = Some a \/ IPv6Address addr = Some a) /\
      _ip (network_address net) = N.land (_ip a) (netmask net).
Proof.
  do 4 (split; [by vm_compute|]).
  intros line net Hslash Hn.
  destruct (normalize_network line net Hslash Hn) as [-> ->].
  repeat (split; [done|]).
  destruct (ip_network_masked _ _ Hn) as (addr & mask & a & Hs & Ha & Hm).
  split; [|by exists addr, mask, a].
  by rewrite Hm, <- N.land_assoc, N.land_diag.
Qed.

(** Claim C2 at the line ["2001:db8::1/32"], whose host bits are not
    zero. *)
Lemma C2_network_non_strict_witness :
  Ip.normalize_ip_or_cidr (lit "2001:db8::1/32") =
    Some (lit "IP-CIDR,"
          ++ str_of_network
               (MkNetwork (V6 0x20010DB8000000000000000000000000 None) 32)
          ++ lit ",no-resolve").
Proof.
  refine (proj1 (proj2 (proj2 (proj2 (proj2 C2_network_non_strict)))
    (lit "2001:db8::1/32")
    (MkNetwork (V6 0x20010DB8000000000000000000000000 None) 32) _ _)).
  - by vm_compute.
  - by vm_compute.
Defined.

Lemma candidate_cidr_None (c : list N) :
  ip_network c = None -> ip_address c = None ->
  Spec.candidate_cidr c = None.
Proof.
  intros Hn Ha. unfold Spec.candidate_cidr. rewrite Hn, Ha.
  by destruct (contains (ch "/") c).
Qed.

(** Claim C3.  When the trimmed line starts with [IP-CIDR,] in any
    casing, the candidate is the first comma-separated field of what
    follows the prefix; the result depends on that field alone and is
    [IP-CIDR,<cidr>,no-resolve] for the CIDR text of the candidate,
    whatever fields follow it; when the candidate is neither a network
    nor an address the line is rejected. *)
Theorem C3_prefixed_rule (line : list N) :
  startswith (lit "IP-CIDR,") (upper (strip line)) = true ->
  let candidate :=
    strip (hd [] (split (ch ",") (strip (drop 8 (strip line))))) in
  Ip.normalize_ip_or_cidr line =
    (fun cidr => lit "IP-CIDR," ++ cidr ++ lit ",no-resolve")
      <$> Spec.candidate_cidr candidate /\
  DomainsIp.normalize_ip_or_cidr line =
    (fun cidr => lit "IP-CIDR," ++ cidr ++ lit ",no-resolve")
      <$> Spec.candidate_cidr candidate /\
  (ip_network candidate = None -> ip_address candidate = None ->
   Ip.normalize_ip_or_cidr line = None /\
   DomainsIp.normalize_ip_or_cidr line = None).
Proof.
  intros Hp candidate. fold (Spec.is_prefixed (strip line)) in Hp.
  rewrite normalize_agree by (by left).
  rewrite (normalize_prefixed _ Hp).
  fold (Spec.prefixed_candidate (strip line)) in candidate.
  subst candidate. repeat (split; [done|]).
  intros Hn Ha. by rewrite (candidate_cidr_None _ Hn Ha).
Qed.

(** Claim C3 at the line ["ip-cidr, 10.1.2.3/24 ,junk,more"], which is
    normalised from its first field, and at the line
    ["IP-CIDR,example.com,no-resolve"], which is rejected. *)
Lemma C3_prefixed_rule_witness :
  (Ip.normalize_ip_or_cidr (lit "ip-cidr, 10.1.2.3/24 ,junk,more") =
     (fun cidr => lit "IP-CIDR," ++ cidr ++ lit ",no-resolve")
       <$> Spec.candidate_cidr
             (strip (hd [] (split (ch ",")
                (strip (drop 8
                   (strip (lit "ip-cidr, 10.1.2.3/24 ,junk,more")))))))) /\
  Ip.normalize_ip_or_cidr (lit "IP-CIDR,example.com,no-resolve") = None.
Proof.
  split.
  - refine (proj1 (C3_prefixed_rule
      (lit "ip-cidr, 10.1.2.3/24 ,junk,more") _)).
    by vm_compute.
  - refine (proj1 (proj2 (proj2 (C3_prefixed_rule
      (lit "IP-CIDR,example.com,no-resolve") _)) _ _)).
    + by vm_compute.
    + by vm_compute.
    + by vm_compute.
Defined.

(** Claim C4.  A line that is neither blank, nor a comment, nor an
    address, a network or an already-prefixed rule is rejected by both
    IP normalisers; the whole-file transformation leaves the rejected
    lines out and counts every remaining line once, as changed or as
    kept, so that the number of output lines is [changed + kept] and at
    most the number of input lines.  The line [not-an-ip] is dropped and
    counted as neither. *)
Theorem C4_rejected_lines_dropped :
  (forall line : list N,
     Spec.is_blank line = false ->
     Spec.is_comment line = false ->
     ip_address (strip line) = None ->
     ip_network (strip line) = None ->
     (startswith (lit "IP-CIDR,") (upper (strip line)) = true ->
      Spec.candidate_cidr (Spec.prefixed_candidate (strip line)) = None) ->
     Ip.normalize_ip_or_cidr line = None /\
     DomainsIp.normalize_ip_or_cidr line = None) /\
  (forall src_lines : list (list N),
     Ip.process_lines src_lines =
       Spec.ip_normalizer Ip.normalize_ip_or_cidr src_lines /\
     DomainsIp.process_ip_lines src_lines =
       Spec.ip_normalizer DomainsIp.normalize_ip_or_cidr src_lines /\
     (let '(out, changed, kept) := Ip.process_lines src_lines in
      length out = (changed + kept)%nat /\
      (length out <= length src_lines)%nat) /\
     (let '(out, changed, kept) := DomainsIp.process_ip_lines src_lines in
      length out = (changed + kept)%nat /\
      (length out <= length src_lines)%nat)) /\
  Ip.process_lines [lit "not-an-ip"] = ([], O, O) /\
  DomainsIp.process_ip_lines [lit "not-an-ip"] = ([], O, O) /\
  Ip.process_lines [lit "10.0.0.1"; lit "not-an-ip"; lit "# kept"] =
    ([lit "IP-CIDR,10.0.0.1/32,no-resolve"; lit "# kept"], 1%nat, 1%nat).
Proof.
  split; [|split; [|by vm_compute]].
  - intros line Hb Hc Ha Hn Hpre.
    assert (is_empty (strip line) || startswith (lit "#") (strip line)
            = false) as Hpass.
    { rewrite strip_empty_iff, (is_comment_strip line).
      fold (Spec.is_blank line). by rewrite Hb, Hc. }
    destruct (Spec.is_prefixed (strip line)) eqn:Hp.
    + rewrite normalize_agree by (by left).
      rewrite (normalize_prefixed _ Hp), (Hpre Hp). done.
    + rewrite normalize_agree by (by right).
      rewrite (normalize_plain _ Hp Hpass), Hn, Ha.
      by destruct (contains (ch "/") (strip line)).
  - intros src_lines.
    rewrite ip_process_lines_spec, domains_ip_process_lines_spec.
    repeat (split; [done|]).
    split; apply ip_normalizer_counts.
Qed.

(** Claim C4 at the line ["not-an-ip"]. *)
Lemma C4_rejected_lines_dropped_witness :
  Ip.normalize_ip_or_cidr (lit "not-an-ip") = None /\
  DomainsIp.normalize_ip_or_cidr (lit "not-an-ip") = None.
Proof.
  refine (proj1 C4_rejected_lines_dropped (lit "not-an-ip") _ _ _ _ _).
  - by vm_compute.
  - by vm_compute.
  - by vm_compute.
  - by vm_compute.
  - by vm_compute.
Defined.

(** * The backup and the rewritten file *)

Lemma bak_path_ne (path : string) : bak_path path <> path.
Proof.
  unfold bak_path. induction path as [|a path IH]; [done|].
  cbn [String.append]. intros [= H]. by apply IH.
Qed.

Lemma translate_newlines_lf_only (s : list N) :
  Spec.lf_only s = true -> translate_newlines s = s.
Proof.
  unfold Spec.lf_only. induction s as [|c t IH]; [done|].
  cbn [forallb translate_newlines]. intros [Hc Ht]%andb_prop.
  destruct (N.eqb_spec c 0x0D) as [->|_]; [by vm_compute in Hc|].
  by rewrite (IH Ht).
Qed.

Lemma splitlines_cons (c : N) (t : list N) :
  splitlines (c :: t) =
  if islinebreak c then
    match t with
    | d :: t' =>
        if (c =? 0x0D) && (d =? 0x0A) then [] :: splitlines t'
        else [] :: splitlines t
    | [] => [[]]
    end
  else
    match splitlines t with
    | [] => [[c]]
    | l :: r => (c :: l) :: r
    end.
Proof. done. Qed.

Lemma splitlines_nonempty (c : N) (t : list N) : splitlines (c :: t) <> [].
Proof.
  cbn [splitlines]. destruct (islinebreak c).
  - destruct t as [|d t']; [done|]. by destruct (_ && _).
  - by destruct (splitlines t).
Qed.

(** Joining the lines of a text whose only boundaries are line feeds
    gives the text back, up to one final line feed. *)
Lemma join_splitlines (s : list N) :
  Spec.lf_only s = true ->
  join NL (splitlines s) =
  if Spec.ends_with_newline s then removelast s else s.
Proof.
  unfold Spec.lf_only, Spec.ends_with_newline.
  induction s as [|c t IH]; [done|].
  cbn [forallb]. intros [Hc Ht]%andb_prop. specialize (IH Ht).
  destruct t as [|d t'].
  { cbn [splitlines List.last removelast].
    destruct (islinebreak c) eqn:Eb.
    - cbn [negb orb] in Hc. by rewrite Hc.
    - destruct (N.eqb_spec c 0x0A) as [->|_]; [by vm_compute in Eb|done]. }
  change (List.last (c :: d :: t') 0) with (List.last (d :: t') 0).
  change (removelast (c :: d :: t')) with (c :: removelast (d :: t')).
  rewrite (splitlines_cons c (d :: t')). destruct (islinebreak c) eqn:Eb.
  - cbn [negb orb] in Hc. apply N.eqb_eq in Hc as ->.
    change ((0x0A =? 0x0D) && (d =? 0x0A)) with false. cbv iota.
    rewrite join_cons_nonempty by apply splitlines_nonempty.
    rewrite IH. cbn [app]. unfold NL.
    by destruct (List.last (d :: t') 0 =? 0x0A).
  - destruct (splitlines (d :: t')) as [|l r] eqn:Es.
    { by apply splitlines_nonempty in Es. }
    assert (join NL ((c :: l) :: r) = c :: join NL (l :: r)) as ->.
    { cbn [join]. by destruct r. }
    rewrite IH. by destruct (List.last (d :: t') 0 =? 0x0A).
Qed.

(** What the four file functions leave in the store. *)
Lemma ip_process_lst_file_store (path : string) (fs : gmap string (list N))
  (content : list N) :
  fs !! path = Some content ->
  exists fs' counts,
    Ip.process_lst_file path fs = Some (fs', counts) /\
    fs' !! path =
      Some (join NL (fst (fst (Ip.process_lines
              (splitlines (translate_newlines content))))) ++ NL) /\
    fs' !! bak_path path =
      Some (join NL (splitlines (translate_newlines content))).
Proof.
  intros H. unfold Ip.process_lst_file, read_text. rewrite H. simpl.
  destruct (Ip.process_lines _) as [[out changed] kept].
  eexists _, _. split; [done|]. unfold write_text. cbn [fst].
  rewrite lookup_insert_eq, lookup_insert_ne by (symmetry; apply bak_path_ne).
  by rewrite lookup_insert_eq.
Qed.

Lemma domains_ip_process_ip_lst_file_store (path : string)
  (fs : gmap string (list N)) (content : list N) :
  fs !! path = Some content ->
  exists fs' counts,
    DomainsIp.process_ip_lst_file path fs = Some (fs', counts) /\
    fs' !! path =
      Some (join NL (fst (fst (DomainsIp.process_ip_lines
              (splitlines (translate_newlines content))))) ++ NL) /\
    fs' !! bak_path path =
      Some (join NL (splitlines (translate_newlines content))).
Proof.
  intros H. unfold DomainsIp.process_ip_lst_file, read_text. rewrite H. simpl.
  destruct (DomainsIp.process_ip_lines _) as [[out changed] kept].
  eexists _, _. split; [done|]. unfold write_text. cbn [fst].
  rewrite lookup_insert_eq, lookup_insert_ne by (symmetry; apply bak_path_ne).
  by rewrite lookup_insert_eq.
Qed.

Lemma domains_process_lst_file_store (path : string)
  (fs : gmap string (list N)) (content : list N) :
  fs !! path = Some content ->
  exists fs' changed,
    Domains.process_lst_file path fs = Some (fs', changed) /\
    fs' !! path =
      Some (join NL (fst (Domains.process_lines
              (splitlines (translate_newlines content)))) ++ NL) /\
    fs' !! bak_path path =
      Some (join NL (splitlines (translate_newlines content))).
Proof.
  intros H. unfold Domains.process_lst_file, read_text. rewrite H. simpl.
  destruct (Domains.process_lines _) as [out changed].
  eexists _, _. split; [done|]. unfold write_text. cbn [fst].
  rewrite lookup_insert_eq, lookup_insert_ne by (symmetry; apply bak_path_ne).
  by rewrite lookup_insert_eq.
Qed.

Lemma domains_ip_process_domain_lst_file_store (path : string)
  (fs : gmap string (list N)) (content : list N) :
  fs !! path = Some content ->
  exists fs' changed,
    DomainsIp.process_domain_lst_file path fs = Some (fs', changed) /\
    fs' !! path =
      Some (join NL (fst (DomainsIp.process_domain_lines
              (splitlines (translate_newlines content)))) ++ NL) /\
    fs' !! bak_path path =
      Some (join NL (splitlines (translate_newlines content))).
Proof.
  intros H. unfold DomainsIp.process_domain_lst_file, read_text.
  rewrite H. simpl.
  destruct (DomainsIp.process_domain_lines _) as [out changed].
  eexists _, _. split; [done|]. unfold write_text. cbn [fst].
  rewrite lookup_insert_eq, lookup_insert_ne by (symmetry; apply bak_path_ne).
  by rewrite lookup_insert_eq.
Qed.

(** Claim C8, at a file on which it fails: the backup of a file that
    holds [example.com] and a final line feed lacks the line feed. *)
Lemma C8_backup_drops_final_newline :
  exists fs' changed,
    Domains.process_lst_file "d.lst"
      {[ "d.lst"%string := lit "example.com" ++ NL ]} = Some (fs', changed) /\
    fs' !! bak_path "d.lst" = Some (lit "example.com") /\
    fs' !! bak_path "d.lst" <> Some (lit "example.com" ++ NL).
Proof.
  destruct (domains_process_lst_file_store "d.lst"
    {[ "d.lst"%string := lit "example.com" ++ NL ]}
    (lit "example.com" ++ NL)) as (fs' & n & E & _ & B); [by vm_compute|].
  exists fs', n. split; [done|]. rewrite B. by vm_compute.
Qed.

(** Claim C8, amended.  The backup that each of the four file functions
    writes holds the lines of the original text, as the text-mode read
    and [splitlines] give them, joined by one line feed, with no line
    feed after the last line; it is the original text when that text has
    no line boundary but line feeds and does not end with one. *)
Theorem C8_backup_file (path : string) (fs : gmap string (list N))
  (content : list N) :
  fs !! path = Some content ->
  let backup := join NL (splitlines (translate_newlines content)) in
  (exists fs' counts,
     Ip.process_lst_file path fs = Some (fs', counts) /\
     fs' !! bak_path path = Some backup) /\
  (exists fs' counts,
     DomainsIp.process_ip_lst_file path fs = Some (fs', counts) /\
     fs' !! bak_path path = Some backup) /\
  (exists fs' changed,
     Domains.process_lst_file path fs = Some (fs', changed) /\
     fs' !! bak_path path = Some backup) /\
  (exists fs' changed,
     DomainsIp.process_domain_lst_file path fs = Some (fs', changed) /\
     fs' !! bak_path path = Some backup) /\
  (Spec.lf_only content = true ->
   backup = if Spec.ends_with_newline content
            then removelast content else content).
Proof.
  intros H backup.
  destruct (ip_process_lst_file_store path fs content H)
    as (f1 & c1 & E1 & _ & B1).
  destruct (domains_ip_process_ip_lst_file_store path fs content H)
    as (f2 & c2 & E2 & _ & B2).
  destruct (domains_process_lst_file_store path fs content H)
    as (f3 & c3 & E3 & _ & B3).
  destruct (domains_ip_process_domain_lst_file_store path fs content H)
    as (f4 & c4 & E4 & _ & B4).
  split; [by exists f1, c1|]. split; [by exists f2, c2|].
  split; [by exists f3, c3|]. split; [by exists f4, c4|].
  intros Hlf. subst backup.
  rewrite (translate_newlines_lf_only _ Hlf). by apply join_splitlines.
Qed.

(** Claim C8 at a file of two lines without a final line feed, whose
    backup is the original text. *)
Lemma C8_backup_file_witness :
  join NL (splitlines (translate_newlines
     (lit "example.com" ++ NL ++ lit "example.org"))) =
  if Spec.ends_with_newline (lit "example.com" ++ NL ++ lit "example.org")
  then removelast (lit "example.com" ++ NL ++ lit "example.org")
  else lit "example.com" ++ NL ++ lit "example.org".
Proof.
  refine (proj2 (proj2 (proj2 (proj2 (C8_backup_file "d.lst"
    {[ "d.lst"%string := lit "example.com" ++ NL ++ lit "example.org" ]}
    (lit "example.com" ++ NL ++ lit "example.org") _)))) _).
  - by vm_compute.
  - by vm_compute.
Defined.

(** * Running the normalisers twice *)

Lemma rule_cidr_ip_rule (cidr : list N) : Spec.rule_cidr (ip_rule cidr) = cidr.
Proof.
  unfold Spec.rule_cidr, ip_rule. rewrite drop_app_length' by done.
  rewrite !length_app.
  replace (length (lit "IP-CIDR,") + (length cidr + length (lit ",no-resolve"))
           - 19)%nat with (length cidr)
    by (change (length (lit "IP-CIDR,")) with 8%nat;
        change (length (lit ",no-resolve")) with 11%nat; lia).
  by rewrite take_app_length.
Qed.

Lemma comma_free_rule_cidr (cidr : list N) :
  Spec.comma_free_rule (ip_rule cidr) = true ->
  contains (ch ",") cidr = false.
Proof.
  unfold Spec.comma_free_rule. rewrite rule_cidr_ip_rule.
  unfold ip_rule at 1. rewrite startswith_app. cbn [andb].
  by intros ->%negb_true_iff.
Qed.

Lemma omap_In (normalize : list N -> option (list N)) (l : list (list N))
  (r : list N) :
  In r (omap normalize l) -> exists raw, normalize raw = Some r.
Proof.
  induction l as [|raw l IH]; [done|]. cbn [omap list_omap].
  destruct (normalize raw) as [r'|] eqn:E; [|done].
  intros [<-|Hin]; eauto.
Qed.

(** A second run over lines that a first run returned, none of them a
    rule with a comma in its CIDR text, keeps every line. *)
Lemma second_run_fixed (normalize : list N -> option (list N))
  (src_lines : list (list N)) :
  (forall raw r, normalize raw = Some r ->
     Spec.comma_free_rule r = true -> normalize r = Some r) ->
  forallb Spec.comma_free_rule (omap normalize src_lines) = true ->
  Spec.ip_normalizer normalize (omap normalize src_lines) =
    (omap normalize src_lines, O, length (omap normalize src_lines)).
Proof.
  intros Htwice Hfree. apply ip_normalizer_fixed.
  rewrite forallb_forall in Hfree. apply List.Forall_forall. intros r Hin.
  destruct (omap_In _ _ _ Hin) as [raw Hraw].
  by apply (Htwice raw); [|apply Hfree].
Qed.

(** Claim C5, at lines that the IP normalisation does not leave as they
    are on a second run.  The network [fe80::%a,b/64] has a zone
    identifier with a comma: its rule is cut at that comma by the second
    run, which makes a different rule of it; the rule of the address
    [fe80::1%,x] is dropped by the second run. *)
Lemma C5_zone_comma_not_idempotent :
  Ip.process_lines [lit "fe80::%a,b/64"] =
    ([lit "IP-CIDR,fe80::%a,b/64,no-resolve"], 1%nat, O) /\
  Ip.process_lines [lit "IP-CIDR,fe80::%a,b/64,no-resolve"] =
    ([lit "IP-CIDR,fe80::%a/128,no-resolve"], 1%nat, O) /\
  DomainsIp.process_ip_lines [lit "fe80::%a,b/64"] =
    ([lit "IP-CIDR,fe80::%a,b/64,no-resolve"], 1%nat, O) /\
  DomainsIp.process_ip_lines [lit "IP-CIDR,fe80::%a,b/64,no-resolve"] =
    ([lit "IP-CIDR,fe80::%a/128,no-resolve"], 1%nat, O) /\
  Ip.process_lines [lit "fe80::1%,x"] =
    ([lit "IP-CIDR,fe80::1%,x/128,no-resolve"], 1%nat, O) /\
  Ip.process_lines [lit "IP-CIDR,fe80::1%,x/128,no-resolve"] = ([], O, O).
Proof. by vm_compute. Qed.

(** Claim C5, amended.  The domain normaliser of either script, run on
    its own output, returns the same lines with a count of 0.  The
    whole-file IP normalisation of either script, run on its own output,
    returns the same lines, none changed and none dropped, provided that
    no rule of that output has a comma inside its CIDR text (which only
    an IPv6 zone identifier can bring). *)
Theorem C5_idempotence (src_lines : list (list N)) :
  (let out := fst (Domains.process_lines src_lines) in
   Domains.process_lines out = (out, O)) /\
  (let out := fst (DomainsIp.process_domain_lines src_lines) in
   DomainsIp.process_domain_lines out = (out, O)) /\
  (let out := fst (fst (Ip.process_lines src_lines)) in
   forallb Spec.comma_free_rule out = true ->
   Ip.process_lines out = (out, O, length out)) /\
  (let out := fst (fst (DomainsIp.process_ip_lines src_lines)) in
   forallb Spec.comma_free_rule out = true ->
   DomainsIp.process_ip_lines out = (out, O, length out)).
Proof.
  split; [|split; [|split]].
  - cbv zeta. rewrite !process_lines_spec. apply domain_normalizer_idem.
  - cbv zeta. rewrite !process_domain_lines_spec.
    apply domain_normalizer_idem.
  - cbv zeta. rewrite !ip_process_lines_spec.
    unfold Spec.ip_normalizer at 2 4 5. cbn [fst].
    apply second_run_fixed. intros raw r Hr Hfree.
    apply (normalize_twice raw r Hr). intros cidr ->.
    by apply comma_free_rule_cidr.
  - cbv zeta. rewrite !domains_ip_process_lines_spec.
    unfold Spec.ip_normalizer at 2 4 5. cbn [fst].
    apply second_run_fixed. intros raw r Hr Hfree.
    apply (domains_ip_normalize_twice raw r Hr). intros cidr ->.
    by apply comma_free_rule_cidr.
Qed.

(** Claim C5 at a file with a network, a comment, a rejected line, an
    IPv6 address with a zone identifier and a rule in lower case. *)
Lemma C5_idempotence_witness :
  let out :=
    fst (fst (Ip.process_lines
      [lit " 10.1.2.3/24 "; lit "  # note"; lit "not-an-ip";
       lit "FE80::1%eth0"; lit "ip-cidr,2001:DB8::/32"])) in
  Ip.process_lines out = (out, O, length out).
Proof.
  refine (proj1 (proj2 (proj2 (C5_idempotence
    [lit " 10.1.2.3/24 "; lit "  # note"; lit "not-an-ip";
     lit "FE80::1%eth0"; lit "ip-cidr,2001:DB8::/32"]))) _).
  by vm_compute.
Defined.

(** * The directory loops and the removal of the backups *)

Module DriverFacts.

(** The path of a backup does not end in [.lst]. *)
Lemma has_suffix_bak (g : string) :
  has_suffix ".lst" (bak_path g) = false.
Proof.
  unfold bak_path. induction g as [|a g IH]; [done|].
  change (has_suffix ".lst" (String a g +:+ ".bak")) with
    (String.eqb ".lst" (String a (g +:+ ".bak")) ||
     has_suffix ".lst" (g +:+ ".bak")).
  rewrite IH, orb_false_r.
  apply String.eqb_neq.
  destruct g as [|b [|c [|d [|e g]]]]; try done.
Qed.

Lemma lst_not_bak (f g : string) :
  has_suffix ".lst" f = true -> f <> bak_path g.
Proof. intros H ->. by rewrite has_suffix_bak in H. Qed.

Lemma bak_path_inj (f g : string) : bak_path f = bak_path g -> f = g.
Proof.
  unfold bak_path. revert g. induction f as [|a f IH]; intros [|b g]; try done.
  - cbn [String.append]. intros [= <- H].
    destruct g as [|? [|? [|? [|? ?]]]]; done.
  - cbn [String.append]. intros [= <- H].
    destruct f as [|? [|? [|? [|? ?]]]]; done.
  - cbn [String.append]. intros [= -> H]. f_equal. by apply IH.
Qed.

Lemma domains_rewrites :
  rewrites Domains.process_lst_file (file_result Domains.process_lines).
Proof.
  intros path fs. unfold Domains.process_lst_file, read_text, file_result.
  destruct (fs !! path) as [content|]; [|done].
  cbn [fmap option_fmap option_map mbind option_bind].
  by destruct (Domains.process_lines _) as [out changed].
Qed.

Lemma ip_rewrites :
  rewrites Ip.process_lst_file
    (file_result (fun l => ip_counts (Ip.process_lines l))).
Proof.
  intros path fs. unfold Ip.process_lst_file, read_text, file_result.
  destruct (fs !! path) as [content|]; [|done].
  cbn [fmap option_fmap option_map mbind option_bind].
  by destruct (Ip.process_lines _) as [[out changed] kept].
Qed.

Lemma domains_ip_domain_rewrites :
  rewrites DomainsIp.process_domain_lst_file
    (file_result DomainsIp.process_domain_lines).
Proof.
  intros path fs.
  unfold DomainsIp.process_domain_lst_file, read_text, file_result.
  destruct (fs !! path) as [content|]; [|done].
  cbn [fmap option_fmap option_map mbind option_bind].
  by destruct (DomainsIp.process_domain_lines _) as [out changed].
Qed.

Lemma domains_ip_ip_rewrites :
  rewrites DomainsIp.process_ip_lst_file
    (file_result (fun l => ip_counts (DomainsIp.process_ip_lines l))).
Proof.
  intros path fs. unfold DomainsIp.process_ip_lst_file, read_text, file_result.
  destruct (fs !! path) as [content|]; [|done].
  cbn [fmap option_fmap option_map mbind option_bind].
  by destruct (DomainsIp.process_ip_lines _) as [[out changed] kept].
Qed.

Lemma file_result_eq {C : Type}
  (process : list (list N) -> list (list N) * C) (fs : gmap string (list N))
  (f : string) :
  file_result process (text_of fs f) =
  (join NL (lines_of fs f), join NL (fst (process (lines_of fs f))) ++ NL,
   snd (process (lines_of fs f))).
Proof.
  unfold file_result, lines_of, text_of.
  by destruct (process _) as [out c].
Qed.

Section WalkFacts.
Context {C T M : Type}.
Variable proc :
  string -> gmap string (list N) -> option (gmap string (list N) * C).
Variable result : list N -> list N * list N * C.
Hypothesis Hrw : rewrites proc result.
Variable msg : string -> C -> M.
Variable acc : T -> C -> T.

Lemma walk_None (files : list string) (fs : gmap string (list N))
  (out : list M) :
  fold_left (walk_step proc msg acc) files (fs, out, None) = (fs, out, None).
Proof. by induction files. Qed.

Lemma walk_ok (files : list string) :
  forall (fs : gmap string (list N)) (out : list M) (t : T),
  List.NoDup files ->
  (forall f, In f files -> is_Some (fs !! f)) ->
  (forall f g, In f files -> In g files -> f <> bak_path g) ->
  exists fs',
    fold_left (walk_step proc msg acc) files (fs, out, Some t) =
      (fs',
       out ++ List.map (fun f => msg f (snd (result (text_of fs f)))) files,
       Some (fold_left (fun t f => acc t (snd (result (text_of fs f))))
               files t)) /\
    (forall f, In f files ->
       fs' !! f = Some (snd (fst (result (text_of fs f)))) /\
       fs' !! bak_path f = Some (fst (fst (result (text_of fs f))))) /\
    (forall p, ~ In p files -> (forall f, In f files -> p <> bak_path f) ->
       fs' !! p = fs !! p).
Proof.
  induction files as [|f files IH]; intros fs out t Hnd Hin Hbak.
  { exists fs. cbn [fold_left List.map]. rewrite app_nil_r.
    split; [done|]. split; [by intros f []|done]. }
  apply List.NoDup_cons_iff in Hnd as [Hf Hnd].
  destruct (Hin f (or_introl eq_refl)) as [content Hc].
  cbn [fold_left]. unfold walk_step at 2. rewrite Hrw, Hc.
  cbn [fmap option_fmap option_map].
  set (fs1 := <[f := _]> (<[bak_path f := _]> fs)).
  assert (forall g, In g files -> fs1 !! g = fs !! g) as Hsame.
  { intros g Hg. unfold fs1.
    rewrite !lookup_insert_ne; [done| |].
    - intros E. apply (Hbak g f); [by right|by left|done].
    - intros ->. done. }
  assert (forall g, In g files -> text_of fs1 g = text_of fs g) as Htext.
  { intros g Hg. unfold text_of. by rewrite Hsame. }
  destruct (IH fs1 (out ++ [msg f (snd (result content))])
              (acc t (snd (result content)))) as (fs' & Hrun & Hfiles & Hrest).
  { done. }
  { intros g Hg. rewrite Hsame by done. apply Hin. by right. }
  { intros g h Hg Hh. apply Hbak; by right. }
  assert (text_of fs f = content) as Hcf
    by (unfold text_of; by rewrite Hc).
  exists fs'. split; [|split].
  - rewrite Hrun. cbn [List.map fold_left]. rewrite Hcf, <- app_assoc.
    cbn [app]. f_equal; [f_equal|].
    + do 2 f_equal. apply map_ext_in. intros g Hg. by rewrite Htext.
    + f_equal. clear -Htext. revert Htext.
      generalize (acc t (snd (result content))).
      induction files as [|g files IH]; intros t' Htext; [done|].
      cbn [fold_left]. rewrite Htext by (by left). apply IH.
      intros h Hh. apply Htext. by right.
  - intros g [<-|Hg].
    + rewrite Hcf.
      rewrite !Hrest.
      * unfold fs1. rewrite lookup_insert_eq.
        rewrite lookup_insert_ne by (symmetry; apply bak_path_ne).
        by rewrite lookup_insert_eq.
      * intros Hg. by apply (Hbak (bak_path f) f); [right|left|].
      * intros g Hg E. apply bak_path_inj in E as ->. done.
      * done.
      * intros g Hg. apply Hbak; [by left|by right].
    + rewrite <- Htext by done. by apply Hfiles.
  - intros p Hp Hpb. rewrite Hrest.
    + unfold fs1. rewrite !lookup_insert_ne; [done| |].
      * intros E. apply (Hpb f); [by left|done].
      * intros ->. apply Hp. by left.
    + intros Hg. apply Hp. by right.
    + intros g Hg. apply Hpb. by right.
Qed.

Lemma walk_abort (pre : list string) (bad : string) (post : list string)
  (fs : gmap string (list N)) (out : list M) (t : T) :
  List.NoDup pre ->
  (forall f, In f pre -> is_Some (fs !! f)) ->
  (forall f g, In f pre -> In g pre -> f <> bak_path g) ->
  fs !! bad = None -> ~ In bad pre ->
  (forall f, In f pre -> bad <> bak_path f) ->
  exists fs',
    fold_left (walk_step proc msg acc) (pre ++ bad :: post)
      (fs, out, Some t) =
      (fs',
       out ++ List.map (fun f => msg f (snd (result (text_of fs f)))) pre,
       None) /\
    (forall f, In f pre ->
       fs' !! f = Some (snd (fst (result (text_of fs f)))) /\
       fs' !! bak_path f = Some (fst (fst (result (text_of fs f))))) /\
    (forall p, ~ In p pre -> (forall f, In f pre -> p <> bak_path f) ->
       fs' !! p = fs !! p).
Proof.
  intros Hnd Hin Hbak Hbad Hnot Hnb.
  destruct (walk_ok pre fs out t Hnd Hin Hbak) as (fs' & Hrun & Hfiles & Hrest).
  exists fs'. split; [|done].
  rewrite fold_left_app, Hrun. cbn [fold_left]. unfold walk_step at 2.
  rewrite Hrw, (Hrest bad Hnot Hnb), Hbad. cbn [fmap option_fmap option_map].
  apply walk_None.
Qed.

End WalkFacts.

Lemma fold_totals2 (c : string -> nat) (files : list string) (a b : nat) :
  fold_left (fun (t : nat * nat) f => (S (fst t), (snd t + c f)%nat)) files
    (a, b) =
  ((a + length files)%nat, (b + sum_list (List.map c files))%nat).
Proof.
  revert a b. induction files as [|f files IH]; intros a b.
  - cbn. by rewrite !Nat.add_0_r.
  - cbn [fold_left fst snd List.map sum_list length]. rewrite IH.
    unfold id. f_equal; lia.
Qed.

Lemma fold_totals3 (c k : string -> nat) (files : list string)
  (a b d : nat) :
  fold_left (fun (t : nat * nat * nat) f =>
               (S (fst (fst t)), (snd (fst t) + c f)%nat, (snd t + k f)%nat))
    files (a, b, d) =
  ((a + length files)%nat, (b + sum_list (List.map c files))%nat,
   (d + sum_list (List.map k files))%nat).
Proof.
  revert a b d. induction files as [|f files IH]; intros a b d.
  - cbn. by rewrite !Nat.add_0_r.
  - cbn [fold_left fst snd List.map sum_list length]. rewrite IH.
    unfold id. f_equal; [f_equal|]; lia.
Qed.

Lemma domains_file_step_walk (st : gmap string (list N) * list Domains.Msg *
                              option (nat * nat)) (file : string) :
  Domains.file_step st file =
  walk_step Domains.process_lst_file Domains.FileDone
    (fun (t : nat * nat) c => (S (fst t), (snd t + c)%nat)) st file.
Proof. by destruct st as [[fs out] [[a b]|]]. Qed.

Lemma ip_file_step_walk (st : gmap string (list N) * list Ip.Msg *
                         option (nat * nat * nat)) (file : string) :
  Ip.file_step st file =
  walk_step Ip.process_lst_file
    (fun f (c : nat * nat) => Ip.FileDone f (fst c) (snd c))
    (fun (t : nat * nat * nat) (c : nat * nat) =>
       (S (fst (fst t)), (snd (fst t) + fst c)%nat, (snd t + snd c)%nat))
    st file.
Proof.
  destruct st as [[fs out] [[[a b] d]|]]; [|done].
  cbn [Ip.file_step walk_step fst snd].
  by destruct (Ip.process_lst_file file fs) as [[fs' [c k]]|].
Qed.

Lemma fold_left_ext_all {A B : Type} (f g : A -> B -> A) (l : list B) (a : A) :
  (forall a b, f a b = g a b) -> fold_left f l a = fold_left g l a.
Proof.
  intros H. revert a. induction l as [|b l IH]; intros a; [done|].
  cbn [fold_left]. by rewrite H, IH.
Qed.

Lemma fold_left_ext_In {A B : Type} (f g : A -> B -> A) (l : list B) (a : A) :
  (forall a b, In b l -> f a b = g a b) -> fold_left f l a = fold_left g l a.
Proof.
  revert a. induction l as [|b l IH]; intros a H; [done|].
  cbn [fold_left]. rewrite H by (by left). apply IH.
  intros a' b' Hb. apply H. by right.
Qed.

End DriverFacts.
Import DriverFacts.

(** The [main] of [domains.py] where every write goes through: every
    file of the scan is rewritten from its own text and gets its backup,
    in the order of the scan, and no other file changes. *)
Lemma domains_main_run (env : Env) (fs : gmap string (list N))
  (files : list string) :
  is_dir env "domains/services" = true ->
  rglob env "domains/services" "*.lst" fs = files ->
  List.NoDup files ->
  Forall (fun f => has_suffix ".lst" f = true) files ->
  Forall (fun f => is_Some (fs !! f)) files ->
  let out_lines f := fst (Domains.process_lines (lines_of fs f)) in
  let changed f := snd (Domains.process_lines (lines_of fs f)) in
  exists fs',
    Domains.main env fs =
      (fs',
       List.map (fun f => Domains.FileDone f (changed f)) files ++
         [Domains.Done (length files) (sum_list (List.map changed files))],
       Some (length files, sum_list (List.map changed files))) /\
    (forall f, In f files ->
       fs' !! f = Some (join NL (out_lines f) ++ NL) /\
       fs' !! bak_path f = Some (join NL (lines_of fs f))) /\
    (forall p, ~ In p files -> (forall f, In f files -> p <> bak_path f) ->
       fs' !! p = fs !! p).
Proof.
  intros Hdir Hscan Hnd Hlst Hin out_lines changed.
  rewrite List.Forall_forall in Hlst, Hin.
  destruct (walk_ok Domains.process_lst_file _ domains_rewrites
              Domains.FileDone
              (fun (t : nat * nat) c => (S (fst t), (snd t + c)%nat))
              files fs [] (O, O) Hnd Hin) as (fs' & Hrun & Hfiles & Hrest).
  { intros f g Hf _. by apply lst_not_bak, Hlst. }
  exists fs'. split; [|split; [|done]].
  - unfold Domains.main, Domains.TARGET_DIRS. cbn [fold_left].
    unfold Domains.dir_step. rewrite Hdir, Hscan. cbn [negb].
    rewrite (fold_left_ext_all _ _ _ _ domains_file_step_walk), Hrun.
    rewrite (fold_left_ext_all _
      (fun t f => (S (fst t), (snd t + changed f)%nat)))
      by (intros; by rewrite file_result_eq).
    rewrite fold_totals2. cbn [app Nat.add]. do 2 f_equal.
    f_equal. apply map_ext. intros f. by rewrite file_result_eq.
  - intros f Hf. destruct (Hfiles f Hf) as [H1 H2].
    by rewrite file_result_eq in H1, H2.
Qed.

Module CleanFacts.

Lemma clean_inv_refl (st : gmap string (list N) * list CleanBak.Msg * nat) :
  clean_inv st st.
Proof.
  destruct st as [[fs out] n]. repeat split; try done.
  intros p [t Hp] Hn. congruence.
Qed.

Lemma clean_inv_trans
  (a b c : gmap string (list N) * list CleanBak.Msg * nat) :
  clean_inv a b -> clean_inv b c -> clean_inv a c.
Proof.
  destruct a as [[fa oa] na], b as [[fb ob] nb], c as [[fc oc] nc].
  intros (S1 & Z1 & O1 & R1) (S2 & Z2 & O2 & R2).
  split; [|split; [|split]].
  - intros p t H. by apply S1, S2.
  - lia.
  - intros m H. by apply O2, O1.
  - intros p Hp Hn. destruct (fb !! p) as [t|] eqn:E.
    + apply R2; [by eexists|done].
    + apply O2, R1; done.
Qed.

Lemma remove_step_inv (st : gmap string (list N) * list CleanBak.Msg * nat)
  (file : string) : clean_inv st (CleanBak.remove_step st file).
Proof.
  destruct st as [[fs out] n]. unfold CleanBak.remove_step, unlink.
  destruct (fs !! file) as [t|] eqn:E.
  - split; [|split; [|split]].
    + intros p u H. apply lookup_delete_Some in H as [_ H]. done.
    + rewrite map_size_delete_Some by (by eexists).
      assert (size fs <> O) as Hs.
      { intros Hz. apply map_size_empty_inv in Hz. subst fs.
        by rewrite lookup_empty in E. }
      lia.
    + intros m H. apply in_or_app. by left.
    + intros p Hp Hn. apply in_or_app. right. left. f_equal.
      apply lookup_delete_None in Hn as [->|Hn]; [done|].
      destruct Hp as [u Hp]. congruence.
  - split; [|split; [|split]]; try done.
    + intros m H. apply in_or_app. by left.
    + intros p [u Hp] Hn. congruence.
Qed.

Lemma fold_inv {A : Type}
  (step : gmap string (list N) * list CleanBak.Msg * nat -> A ->
          gmap string (list N) * list CleanBak.Msg * nat)
  (l : list A) :
  (forall st a, clean_inv st (step st a)) ->
  forall st, clean_inv st (fold_left step l st).
Proof.
  intros H. induction l as [|a l IH]; intros st; [apply clean_inv_refl|].
  cbn [fold_left]. eapply clean_inv_trans; [apply H|apply IH].
Qed.

Lemma dir_step_inv (env : Env)
  (st : gmap string (list N) * list CleanBak.Msg * nat) (d : string) :
  clean_inv st (CleanBak.dir_step env st d).
Proof.
  destruct st as [[fs out] n]. unfold CleanBak.dir_step.
  destruct (negb (is_dir env d)).
  - split; [|split; [|split]]; try done.
    + intros m H. apply in_or_app. by left.
    + intros p [u Hp] Hn. congruence.
  - apply fold_inv, remove_step_inv.
Qed.

Lemma clean_backups_inv (env : Env) (dirs : list string)
  (fs : gmap string (list N)) (out : list CleanBak.Msg) :
  clean_inv (fs, out, O) (CleanBak.clean_backups env dirs fs out).
Proof. apply fold_inv, dir_step_inv. Qed.

Lemma remove_fold (files : list string) :
  forall (fs : gmap string (list N)) (out : list CleanBak.Msg) (n : nat),
  List.NoDup files ->
  exists fs',
    fold_left CleanBak.remove_step files (fs, out, n) =
      (fs',
       out ++ List.map (fun p => if is_file fs p then CleanBak.Removed p
                                 else CleanBak.RemoveFailed p) files,
       (n + length (List.filter (is_file fs) files))%nat) /\
    (forall p, In p files -> fs' !! p = None) /\
    (forall p, ~ In p files -> fs' !! p = fs !! p).
Proof.
  induction files as [|f files IH]; intros fs out n Hnd.
  { exists fs. cbn [fold_left List.map List.filter length].
    rewrite app_nil_r, Nat.add_0_r. split; [done|].
    split; [by intros p []|done]. }
  apply List.NoDup_cons_iff in Hnd as [Hf Hnd].
  cbn [fold_left]. unfold CleanBak.remove_step at 2, unlink.
  destruct (fs !! f) as [t|] eqn:E.
  - assert (is_file fs f = true) as Hff by (unfold is_file; by rewrite E).
    assert (forall p, In p files -> is_file (delete f fs) p = is_file fs p)
      as Hfile.
    { intros p Hp. unfold is_file. rewrite lookup_delete_ne; [done|].
      by intros ->. }
    destruct (IH (delete f fs) (out ++ [CleanBak.Removed f]) (S n) Hnd)
      as (fs' & Hrun & Hin & Hout).
    exists fs'. split; [|split].
    + rewrite Hrun. cbn [List.map List.filter]. rewrite Hff.
      rewrite <- app_assoc. cbn [app length]. f_equal; [f_equal|].
      * do 2 f_equal. apply map_ext_in. intros p Hp. by rewrite Hfile.
      * rewrite (filter_ext_in (is_file (delete f fs)) (is_file fs)) by done.
        lia.
    + intros p [<-|Hp]; [|by apply Hin].
      rewrite Hout by done. apply lookup_delete_eq.
    + intros p Hp. rewrite Hout by (intros H; apply Hp; by right).
      apply lookup_delete_ne. intros ->. apply Hp. by left.
  - assert (is_file fs f = false) as Hff by (unfold is_file; by rewrite E).
    destruct (IH fs (out ++ [CleanBak.RemoveFailed f]) n Hnd)
      as (fs' & Hrun & Hin & Hout).
    exists fs'. split; [|split].
    + rewrite Hrun. cbn [List.map List.filter]. rewrite Hff.
      by rewrite <- app_assoc.
    + intros p [<-|Hp]; [|by apply Hin]. by rewrite Hout.
    + intros p Hp. apply Hout. intros H. apply Hp. by right.
Qed.

End CleanFacts.
Import CleanFacts.

(** The [main] of [ip.py] where every write goes through. *)
Lemma ip_main_run (env : Env) (fs : gmap string (list N))
  (files : list string) :
  is_dir env "domains/ip" = true ->
  rglob env "domains/ip" "*.lst" fs = files ->
  List.NoDup files ->
  Forall (fun f => has_suffix ".lst" f = true) files ->
  Forall (fun f => is_Some (fs !! f)) files ->
  let out_lines f := fst (fst (Ip.process_lines (lines_of fs f))) in
  let changed f := snd (fst (Ip.process_lines (lines_of fs f))) in
  let kept f := snd (Ip.process_lines (lines_of fs f)) in
  exists fs',
    Ip.main env fs =
      (fs',
       List.map (fun f => Ip.FileDone f (changed f) (kept f)) files ++
         [Ip.Done (length files) (sum_list (List.map changed files))
            (sum_list (List.map kept files))],
       Some (length files, sum_list (List.map changed files),
             sum_list (List.map kept files))) /\
    (forall f, In f files ->
       fs' !! f = Some (join NL (out_lines f) ++ NL) /\
       fs' !! bak_path f = Some (join NL (lines_of fs f))) /\
    (forall p, ~ In p files -> (forall f, In f files -> p <> bak_path f) ->
       fs' !! p = fs !! p).
Proof.
  intros Hdir Hscan Hnd Hlst Hin out_lines changed kept.
  rewrite List.Forall_forall in Hlst, Hin.
  destruct (walk_ok Ip.process_lst_file _ ip_rewrites
              (fun f (c : nat * nat) => Ip.FileDone f (fst c) (snd c))
              (fun (t : nat * nat * nat) (c : nat * nat) =>
                 (S (fst (fst t)), (snd (fst t) + fst c)%nat,
                  (snd t + snd c)%nat))
              files fs [] (O, O, O) Hnd Hin) as (fs' & Hrun & Hfiles & Hrest).
  { intros f g Hf _. by apply lst_not_bak, Hlst. }
  assert (forall f,
    file_result (fun l => ip_counts (Ip.process_lines l)) (text_of fs f) =
    (join NL (lines_of fs f), join NL (out_lines f) ++ NL,
     (changed f, kept f))) as Hres.
  { intros f. rewrite file_result_eq. unfold out_lines, changed, kept.
    by destruct (Ip.process_lines (lines_of fs f)) as [[o c] k]. }
  exists fs'. split; [|split; [|done]].
  - unfold Ip.main, Ip.TARGET_DIRS. cbn [fold_left].
    unfold Ip.dir_step. rewrite Hdir, Hscan. cbn [negb].
    rewrite (fold_left_ext_all _ _ _ _ ip_file_step_walk), Hrun.
    rewrite (fold_left_ext_all _
      (fun t f => (S (fst (fst t)), (snd (fst t) + changed f)%nat,
                   (snd t + kept f)%nat)))
      by (intros; by rewrite Hres).
    rewrite fold_totals3. cbn [app Nat.add]. do 2 f_equal.
    f_equal. apply map_ext. intros f. by rewrite Hres.
  - intros f Hf. destruct (Hfiles f Hf) as [H1 H2].
    by rewrite Hres in H1, H2.
Qed.

Lemma domains_ip_domain_file_step_walk
  (st : gmap string (list N) * list DomainsIp.Msg * option (nat * nat))
  (file : string) :
  DomainsIp.domain_file_step st file =
  walk_step DomainsIp.process_domain_lst_file DomainsIp.DomainFileDone
    (fun (t : nat * nat) c => (S (fst t), (snd t + c)%nat)) st file.
Proof. by destruct st as [[fs out] [[a b]|]]. Qed.

Lemma domains_ip_ip_file_step_walk
  (st : gmap string (list N) * list DomainsIp.Msg *
        option (nat * nat * nat)) (file : string) :
  DomainsIp.ip_file_step st file =
  walk_step DomainsIp.process_ip_lst_file
    (fun f (c : nat * nat) => DomainsIp.IpFileDone f (fst c) (snd c))
    (fun (t : nat * nat * nat) (c : nat * nat) =>
       (S (fst (fst t)), (snd (fst t) + fst c)%nat, (snd t + snd c)%nat))
    st file.
Proof.
  destruct st as [[fs out] [[[a b] d]|]]; [|done].
  cbn [DomainsIp.ip_file_step walk_step fst snd].
  by destruct (DomainsIp.process_ip_lst_file file fs) as [[fs' [c k]]|].
Qed.

Lemma ListNoDup_app {A : Type} (l k : list A) :
  List.NoDup (l ++ k) ->
  List.NoDup l /\ List.NoDup k /\ (forall x, In x l -> In x k -> False).
Proof.
  rewrite <- !NoDup_ListNoDup, NoDup_app. intros (H1 & H2 & H3).
  split; [done|]. split; [done|]. intros x Hl Hk.
  apply (H2 x); by apply list_elem_of_In.
Qed.

(** The [main] of [domains_ip.py] where every write goes through: the
    domain lists and then the IP lists are rewritten, each from the text
    it had at the start. *)
Lemma domains_ip_main_run (env : Env) (fs : gmap string (list N))
  (dfiles ifiles : list string) :
  is_dir env "domains/services" = true ->
  rglob env "domains/services" "*.lst" fs = dfiles ->
  is_dir env "domains/ip" = true ->
  (forall fs1, rglob env "domains/ip" "*.lst" fs1 = ifiles) ->
  List.NoDup (dfiles ++ ifiles) ->
  Forall (fun f => has_suffix ".lst" f = true) (dfiles ++ ifiles) ->
  Forall (fun f => is_Some (fs !! f)) (dfiles ++ ifiles) ->
  let dom_lines f := fst (DomainsIp.process_domain_lines (lines_of fs f)) in
  let dom_changed f :=
    snd (DomainsIp.process_domain_lines (lines_of fs f)) in
  let ip_lines f := fst (fst (DomainsIp.process_ip_lines (lines_of fs f))) in
  let ip_changed f :=
    snd (fst (DomainsIp.process_ip_lines (lines_of fs f))) in
  let ip_kept f := snd (DomainsIp.process_ip_lines (lines_of fs f)) in
  exists fs',
    DomainsIp.main env fs =
      (fs',
       List.map (fun f => DomainsIp.DomainFileDone f (dom_changed f)) dfiles ++
       List.map (fun f => DomainsIp.IpFileDone f (ip_changed f) (ip_kept f))
         ifiles ++
       [DomainsIp.Summary;
        DomainsIp.DomainTotals (length dfiles)
          (sum_list (List.map dom_changed dfiles));
        DomainsIp.IpTotals (length ifiles)
          (sum_list (List.map ip_changed ifiles))
          (sum_list (List.map ip_kept ifiles))],
       Some ((length dfiles, sum_list (List.map dom_changed dfiles)),
             (length ifiles, sum_list (List.map ip_changed ifiles),
              sum_list (List.map ip_kept ifiles)))) /\
    (forall f, In f dfiles ->
       fs' !! f = Some (join NL (dom_lines f) ++ NL) /\
       fs' !! bak_path f = Some (join NL (lines_of fs f))) /\
    (forall f, In f ifiles ->
       fs' !! f = Some (join NL (ip_lines f) ++ NL) /\
       fs' !! bak_path f = Some (join NL (lines_of fs f))) /\
    (forall p, ~ In p (dfiles ++ ifiles) ->
       (forall f, In f (dfiles ++ ifiles) -> p <> bak_path f) ->
       fs' !! p = fs !! p).
Proof.
  intros Hd Hds Hi His Hnd Hlst Hin dom_lines dom_changed ip_lines
    ip_changed ip_kept.
  rewrite List.Forall_forall in Hlst, Hin.
  apply ListNoDup_app in Hnd as (Hnd1 & Hnd2 & Hdisj).
  assert (forall f g, In f (dfiles ++ ifiles) -> f <> bak_path g) as Hnb.
  { intros f g Hf. by apply lst_not_bak, Hlst. }
  destruct (walk_ok DomainsIp.process_domain_lst_file _
              domains_ip_domain_rewrites DomainsIp.DomainFileDone
              (fun (t : nat * nat) c => (S (fst t), (snd t + c)%nat))
              dfiles fs [] (O, O) Hnd1) as (fs1 & Hrun1 & Hfiles1 & Hrest1).
  { intros f Hf. apply Hin, in_or_app. by left. }
  { intros f g Hf _. apply Hnb, in_or_app. by left. }
  assert (forall f, In f ifiles -> fs1 !! f = fs !! f) as Hsame.
  { intros f Hf. apply Hrest1.
    - intros Hf'. by apply (Hdisj f).
    - intros g _. apply Hnb, in_or_app. by right. }
  assert (forall f, In f ifiles -> text_of fs1 f = text_of fs f) as Htext.
  { intros f Hf. unfold text_of. by rewrite Hsame. }
  destruct (walk_ok DomainsIp.process_ip_lst_file _ domains_ip_ip_rewrites
              (fun f (c : nat * nat) => DomainsIp.IpFileDone f (fst c) (snd c))
              (fun (t : nat * nat * nat) (c : nat * nat) =>
                 (S (fst (fst t)), (snd (fst t) + fst c)%nat,
                  (snd t + snd c)%nat))
              ifiles fs1
              ([] ++ List.map
                 (fun f => DomainsIp.DomainFileDone f
                    (snd (file_result DomainsIp.process_domain_lines
                            (text_of fs f)))) dfiles)
              (O, O, O) Hnd2) as (fs2 & Hrun2 & Hfiles2 & Hrest2).
  { intros f Hf. rewrite Hsame by done. apply Hin, in_or_app. by right. }
  { intros f g Hf _. apply Hnb, in_or_app. by right. }
  assert (forall f,
    file_result (fun l => ip_counts (DomainsIp.process_ip_lines l))
      (text_of fs f) =
    (join NL (lines_of fs f), join NL (ip_lines f) ++ NL,
     (ip_changed f, ip_kept f))) as Hres.
  { intros f. rewrite file_result_eq. unfold ip_lines, ip_changed, ip_kept.
    by destruct (DomainsIp.process_ip_lines (lines_of fs f)) as [[o c] k]. }
  exists fs2. split; [|split; [|split]].
  - unfold DomainsIp.main, DomainsIp.DOMAIN_DIRS, DomainsIp.IP_DIRS.
    cbn [fold_left]. unfold DomainsIp.domain_dir_step.
    rewrite Hd, Hds. cbn [negb].
    rewrite (fold_left_ext_all _ _ _ _ domains_ip_domain_file_step_walk), Hrun1.
    rewrite (fold_left_ext_all _
      (fun t f => (S (fst t), (snd t + dom_changed f)%nat)))
      by (intros; by rewrite file_result_eq).
    rewrite fold_totals2. unfold DomainsIp.ip_dir_step.
    rewrite Hi, His. cbn [negb].
    rewrite (fold_left_ext_all _ _ _ _ domains_ip_ip_file_step_walk), Hrun2.
    rewrite (fold_left_ext_In _
      (fun t f => (S (fst (fst t)), (snd (fst t) + ip_changed f)%nat,
                   (snd t + ip_kept f)%nat)))
      by (intros t f Hf; by rewrite (Htext f Hf), Hres).
    rewrite fold_totals3. cbn [app Nat.add]. do 2 f_equal.
    rewrite app_assoc. f_equal. f_equal.
    + apply map_ext. intros f. by rewrite file_result_eq.
    + apply map_ext_in. intros f Hf. by rewrite (Htext f Hf), Hres.
  - intros f Hf. destruct (Hfiles1 f Hf) as [H1 H2].
    rewrite file_result_eq in H1, H2. rewrite !Hrest2; [done| | | |].
    + intros Hi'. apply (Hnb (bak_path f) f); [|done].
      apply in_or_app. by right.
    + intros g Hg E. apply bak_path_inj in E as ->. by apply (Hdisj g).
    + intros Hf'. by apply (Hdisj f).
    + intros g _. apply Hnb, in_or_app. by left.
  - intros f Hf. destruct (Hfiles2 f Hf) as [H1 H2].
    by rewrite (Htext f Hf), Hres in H1, H2.
  - intros p Hp Hpb. rewrite Hrest2, Hrest1; [done| | | |].
    + intros H. apply Hp, in_or_app. by left.
    + intros f Hf. apply Hpb, in_or_app. by left.
    + intros H. apply Hp, in_or_app. by right.
    + intros f Hf. apply Hpb, in_or_app. by right.
Qed.



Lemma clean_backups_missing (env : Env) (dirs : list string) :
  forall (fs : gmap string (list N)) (out : list CleanBak.Msg) (n : nat),
  Forall (fun d => is_dir env d = false) dirs ->
  fold_left (CleanBak.dir_step env) dirs (fs, out, n) =
  (fs, out ++ List.map CleanBak.DirNotFound dirs, n).
Proof.
  induction dirs as [|d dirs IH]; intros fs out n Hd.
  - cbn. by rewrite app_nil_r.
  - pose proof (Forall_inv Hd) as H1. cbn beta in H1.
    cbn [fold_left]. unfold CleanBak.dir_step at 2. rewrite H1. cbn [negb].
    rewrite IH by (by apply Forall_inv_tail in Hd).
    by rewrite <- app_assoc.
Qed.

(** Property X5. A directory that is not found costs a warning and
    nothing else. With its directory missing, each [main] leaves every
    file as it was and prints the warning and its last lines with totals
    of zero; [clean_backups], for any list of missing directories,
    removes nothing, returns 0 and prints one warning per directory, in
    their order. *)
Theorem X5_missing_directory_skipped (env : Env) (fs : gmap string (list N)) :
  (is_dir env "domains/services" = false ->
   Domains.main env fs =
     (fs, [Domains.DirNotFound "domains/services"; Domains.Done O O],
      Some (O, O))) /\
  (is_dir env "domains/ip" = false ->
   Ip.main env fs =
     (fs, [Ip.DirNotFound "domains/ip"; Ip.Done O O O], Some (O, O, O))) /\
  (is_dir env "domains/services" = false ->
   is_dir env "domains/ip" = false ->
   DomainsIp.main env fs =
     (fs,
      [DomainsIp.DomainDirNotFound "domains/services";
       DomainsIp.IpDirNotFound "domains/ip";
       DomainsIp.Summary; DomainsIp.DomainTotals O O;
       DomainsIp.IpTotals O O O],
      Some ((O, O), (O, O, O))) /\
   CleanBak.main env fs =
     (fs,
      [CleanBak.DirNotFound "domains/services";
       CleanBak.DirNotFound "domains/ip"; CleanBak.Total O], O)) /\
  (forall (dirs : list string) (out : list CleanBak.Msg),
     Forall (fun d => is_dir env d = false) dirs ->
     CleanBak.clean_backups env dirs fs out =
       (fs, out ++ List.map CleanBak.DirNotFound dirs, O)).
Proof.
  split; [|split; [|split]].
  - intros H. unfold Domains.main, Domains.TARGET_DIRS. cbn [fold_left].
    unfold Domains.dir_step. by rewrite H.
  - intros H. unfold Ip.main, Ip.TARGET_DIRS. cbn [fold_left].
    unfold Ip.dir_step. by rewrite H.
  - intros Hd Hi. split.
    + unfold DomainsIp.main, DomainsIp.DOMAIN_DIRS, DomainsIp.IP_DIRS.
      cbn [fold_left].
      unfold DomainsIp.domain_dir_step, DomainsIp.ip_dir_step.
      by rewrite Hd, Hi.
    + unfold CleanBak.main, CleanBak.clean_backups, CleanBak.DOMAIN_DIRS,
        CleanBak.IP_DIRS.
      rewrite !clean_backups_missing by (by repeat constructor). done.
  - intros dirs out H. by apply clean_backups_missing.
Qed.

(** Property X5 for [ip.py] and for [clean_backups] on two missing
    directories. *)
Lemma X5_missing_directory_skipped_witness :
  let env := MkEnv (fun _ => false) (fun _ _ _ => []) in
  let fs : gmap string (list N) := {[ "x.lst"%string := lit "10.0.0.1" ]} in
  Ip.main env fs =
    (fs, [Ip.DirNotFound "domains/ip"; Ip.Done O O O], Some (O, O, O)) /\
  CleanBak.clean_backups env ["a"%string; "b"%string] fs [] =
    (fs, [] ++ List.map CleanBak.DirNotFound ["a"%string; "b"%string], O).
Proof.
  intros env fs. split.
  - exact (proj1 (proj2 (X5_missing_directory_skipped env fs)) eq_refl).
  - apply (proj2 (proj2 (proj2 (X5_missing_directory_skipped env fs)))).
    by repeat constructor.
Defined.





Lemma NoDup_map_bak (files : list string) :
  List.NoDup files -> List.NoDup (List.map bak_path files).
Proof.
  induction 1 as [|f files Hf Hnd IH]; [constructor|].
  cbn [List.map]. constructor; [|done].
  intros (g & E & Hg)%in_map_iff. apply bak_path_inj in E as ->. done.
Qed.

Lemma filter_all {A : Type} (P : A -> bool) (l : list A) :
  (forall x, In x l -> P x = true) -> List.filter P l = l.
Proof.
  induction l as [|x l IH]; intros H; [done|].
  cbn [List.filter]. rewrite H by (by left). f_equal. apply IH.
  intros y Hy. apply H. by right.
Qed.

Lemma map_removed (fs : gmap string (list N)) (l : list string) :
  (forall p, In p l -> is_file fs p = true) ->
  List.map (fun p => if is_file fs p then CleanBak.Removed p
                     else CleanBak.RemoveFailed p) l =
  List.map CleanBak.Removed l.
Proof.
  intros H. apply map_ext_in. intros p Hp. by rewrite H.
Qed.

(** [domains_ip.py] where every write goes through, followed by
    [clean_bak.py]. *)
Lemma normalise_then_clean_run (env : Env) (fs : gmap string (list N))
  (dfiles ifiles : list string) :
  is_dir env "domains/services" = true ->
  rglob env "domains/services" "*.lst" fs = dfiles ->
  is_dir env "domains/ip" = true ->
  (forall fs1, rglob env "domains/ip" "*.lst" fs1 = ifiles) ->
  (forall fs1, rglob env "domains/services" "*.bak" fs1 =
               List.map bak_path dfiles) ->
  (forall fs1, rglob env "domains/ip" "*.bak" fs1 =
               List.map bak_path ifiles) ->
  List.NoDup (dfiles ++ ifiles) ->
  Forall (fun f => has_suffix ".lst" f = true) (dfiles ++ ifiles) ->
  Forall (fun f => is_Some (fs !! f)) (dfiles ++ ifiles) ->
  let '(fs1, _, _) := DomainsIp.main env fs in
  let '(fs2, out, total) := CleanBak.main env fs1 in
  total = (length dfiles + length ifiles)%nat /\
  out = List.map (fun f => CleanBak.Removed (bak_path f)) (dfiles ++ ifiles)
        ++ [CleanBak.Total total] /\
  (forall f, In f dfiles ->
     fs2 !! f =
       Some (join NL (fst (DomainsIp.process_domain_lines (lines_of fs f)))
             ++ NL) /\
     fs2 !! bak_path f = None) /\
  (forall f, In f ifiles ->
     fs2 !! f =
       Some (join NL (fst (fst (DomainsIp.process_ip_lines (lines_of fs f))))
             ++ NL) /\
     fs2 !! bak_path f = None) /\
  (forall p, ~ In p (dfiles ++ ifiles) ->
     (forall f, In f (dfiles ++ ifiles) -> p <> bak_path f) ->
     fs2 !! p = fs !! p).
Proof.
  intros Hd Hds Hi His Hdb Hib Hnd Hlst Hin.
  destruct (domains_ip_main_run env fs dfiles ifiles Hd Hds Hi His Hnd Hlst
              Hin) as (fs1 & Hmain & Hdf & Hif & Hrest).
  rewrite Hmain. clear Hmain.
  rewrite List.Forall_forall in Hlst.
  apply ListNoDup_app in Hnd as (Hnd1 & Hnd2 & Hdisj).
  assert (forall f g, In f (dfiles ++ ifiles) -> f <> bak_path g) as Hnb.
  { intros f g Hf. by apply lst_not_bak, Hlst. }
  destruct (remove_fold (List.map bak_path dfiles) fs1 [] O
              (NoDup_map_bak _ Hnd1)) as (fs2 & Hrun2 & Hin2 & Hout2).
  assert (forall f, In f ifiles -> ~ In (bak_path f) (List.map bak_path dfiles))
    as Hib2.
  { intros f Hf (g & E & Hg)%in_map_iff. apply bak_path_inj in E as ->.
    by apply (Hdisj f). }
  destruct (remove_fold (List.map bak_path ifiles) fs2
              ([] ++ List.map
                 (fun p => if is_file fs1 p then CleanBak.Removed p
                           else CleanBak.RemoveFailed p)
                 (List.map bak_path dfiles)) O
              (NoDup_map_bak _ Hnd2)) as (fs3 & Hrun3 & Hin3 & Hout3).
  unfold CleanBak.main, CleanBak.clean_backups, CleanBak.DOMAIN_DIRS,
    CleanBak.IP_DIRS. cbn [fold_left].
  unfold CleanBak.dir_step at 1. rewrite Hd, Hdb. cbn [negb]. rewrite Hrun2.
  unfold CleanBak.dir_step. rewrite Hi, Hib. cbn [negb]. rewrite Hrun3.
  assert (forall p, In p (List.map bak_path dfiles) -> is_file fs1 p = true)
    as Hf1.
  { intros p (f & <- & Hf)%in_map_iff. unfold is_file.
    by rewrite (proj2 (Hdf f Hf)). }
  assert (forall p, In p (List.map bak_path ifiles) -> is_file fs2 p = true)
    as Hf2.
  { intros p (f & <- & Hf)%in_map_iff. unfold is_file.
    rewrite Hout2 by (by apply Hib2). by rewrite (proj2 (Hif f Hf)). }
  rewrite (filter_all _ _ Hf1), (filter_all _ _ Hf2),
    (map_removed _ _ Hf1), (map_removed _ _ Hf2).
  - rewrite !length_map. split; [done|]. split.
    { cbn [app Nat.add]. by rewrite List.map_app, !List.map_map. }
    split; [|split].
    + intros f Hf. split.
      * rewrite Hout3, Hout2; [by apply Hdf| |].
        -- intros (g & E & _)%in_map_iff. symmetry in E. revert E.
           apply Hnb, in_or_app. by left.
        -- intros (g & E & _)%in_map_iff. symmetry in E. revert E.
           apply Hnb, in_or_app. by left.
      * rewrite Hout3.
        -- apply Hin2. by apply in_map.
        -- intros (g & E & Hg)%in_map_iff. apply bak_path_inj in E as ->.
           by apply (Hdisj f).
    + intros f Hf. split.
      * rewrite Hout3, Hout2; [by apply Hif| |].
        -- intros (g & E & _)%in_map_iff. symmetry in E. revert E.
           apply Hnb, in_or_app. by right.
        -- intros (g & E & _)%in_map_iff. symmetry in E. revert E.
           apply Hnb, in_or_app. by right.
      * apply Hin3. by apply in_map.
    + intros p Hp Hpb. rewrite Hout3, Hout2; [by apply Hrest| |].
      * intros (g & E & Hg)%in_map_iff. symmetry in E. revert E.
        apply Hpb, in_or_app. by left.
      * intros (g & E & Hg)%in_map_iff. symmetry in E. revert E.
        apply Hpb, in_or_app. by right.
Qed.

(** * Runs in which a write can fail *)

Module IoFacts.

Lemma domains_io_rewrites :
  rewrites_io Domains.Io.process_lst_file (file_result Domains.process_lines).
Proof.
  intros writable path fs.
  unfold Domains.Io.process_lst_file, read_text, file_result,
    try_write_text, write_text, Domains.MAKE_BACKUP.
  destruct (fs !! path) as [content|]; [|done].
  cbn [fmap option_fmap option_map].
  destruct (Domains.process_lines _) as [out changed].
  destruct (writable (bak_path path)); [|done].
  by destruct (writable path).
Qed.

Lemma ip_io_rewrites :
  rewrites_io Ip.Io.process_lst_file
    (file_result (fun l => ip_counts (Ip.process_lines l))).
Proof.
  intros writable path fs.
  unfold Ip.Io.process_lst_file, read_text, file_result,
    try_write_text, write_text, Ip.MAKE_BACKUP.
  destruct (fs !! path) as [content|]; [|done].
  cbn [fmap option_fmap option_map].
  destruct (Ip.process_lines _) as [[out changed] kept].
  destruct (writable (bak_path path)); [|done].
  by destruct (writable path).
Qed.

Lemma domains_ip_domain_io_rewrites :
  rewrites_io DomainsIp.Io.process_domain_lst_file
    (file_result DomainsIp.process_domain_lines).
Proof.
  intros writable path fs.
  unfold DomainsIp.Io.process_domain_lst_file, read_text, file_result,
    try_write_text, write_text, DomainsIp.MAKE_BACKUP.
  destruct (fs !! path) as [content|]; [|done].
  cbn [fmap option_fmap option_map].
  destruct (DomainsIp.process_domain_lines _) as [out changed].
  destruct (writable (bak_path path)); [|done].
  by destruct (writable path).
Qed.

Lemma domains_ip_ip_io_rewrites :
  rewrites_io DomainsIp.Io.process_ip_lst_file
    (file_result (fun l => ip_counts (DomainsIp.process_ip_lines l))).
Proof.
  intros writable path fs.
  unfold DomainsIp.Io.process_ip_lst_file, read_text, file_result,
    try_write_text, write_text, DomainsIp.MAKE_BACKUP.
  destruct (fs !! path) as [content|]; [|done].
  cbn [fmap option_fmap option_map].
  destruct (DomainsIp.process_ip_lines _) as [[out changed] kept].
  destruct (writable (bak_path path)); [|done].
  by destruct (writable path).
Qed.

Section WalkIoFacts.
Context {C T M : Type}.
Variable proc :
  string -> gmap string (list N) -> option (gmap string (list N) * C).
Variable procio :
  (string -> bool) -> string -> gmap string (list N) ->
  gmap string (list N) * option C.
Variable result : list N -> list N * list N * C.
Hypothesis Hrw : rewrites proc result.
Hypothesis Hio : rewrites_io procio result.
Variable msg : string -> C -> M.
Variable acc : T -> C -> T.
Variable writable : string -> bool.

(** Where both writes go through, the loop body is the one that takes
    them to. *)
Lemma walk_step_io_plain (st : gmap string (list N) * list M * option T)
  (f : string) :
  writable f = true -> writable (bak_path f) = true ->
  walk_step_io (procio writable) msg acc st f = walk_step proc msg acc st f.
Proof.
  destruct st as [[fs out] [t|]]; [|done]. intros Hf Hb.
  cbn [walk_step_io walk_step]. rewrite Hio, Hrw, Hb, Hf.
  by destruct (fs !! f).
Qed.

Lemma walk_io_plain (files : list string)
  (st : gmap string (list N) * list M * option T) :
  (forall f, In f files ->
     writable f = true /\ writable (bak_path f) = true) ->
  fold_left (walk_step_io (procio writable) msg acc) files st =
  fold_left (walk_step proc msg acc) files st.
Proof.
  intros H. apply fold_left_ext_In. intros a f Hf.
  destruct (H f Hf). by apply walk_step_io_plain.
Qed.

Lemma walk_io_None (files : list string) (fs : gmap string (list N))
  (out : list M) :
  fold_left (walk_step_io (procio writable) msg acc) files (fs, out, None) =
  (fs, out, None).
Proof. by induction files. Qed.

(** The loop stops at the first file whose read or one of whose writes
    fails. *)
Lemma walk_io_abort (pre : list string) (bad : string) (post : list string)
  (fs : gmap string (list N)) (out : list M) (t : T) :
  List.NoDup pre -> ~ In bad pre ->
  (forall f, In f pre -> is_Some (fs !! f)) ->
  (forall f g, In f (bad :: pre) -> f <> bak_path g) ->
  (forall f, In f pre ->
     writable f = true /\ writable (bak_path f) = true) ->
  is_file fs bad && writable (bak_path bad) && writable bad = false ->
  exists fs',
    fold_left (walk_step_io (procio writable) msg acc) (pre ++ bad :: post)
      (fs, out, Some t) =
      (fs',
       out ++ List.map (fun f => msg f (snd (result (text_of fs f)))) pre,
       None) /\
    (forall f, In f pre ->
       fs' !! f = Some (snd (fst (result (text_of fs f)))) /\
       fs' !! bak_path f = Some (fst (fst (result (text_of fs f))))) /\
    fs' !! bad = fs !! bad /\
    fs' !! bak_path bad =
      (if is_file fs bad && writable (bak_path bad)
       then Some (fst (fst (result (text_of fs bad))))
       else fs !! bak_path bad) /\
    (forall p, ~ In p (bad :: pre) ->
       (forall f, In f (bad :: pre) -> p <> bak_path f) ->
       fs' !! p = fs !! p).
Proof.
  intros Hnd Hnot Hin Hnb Hw Hbad.
  destruct (walk_ok proc result Hrw msg acc pre fs out t Hnd)
    as (fs1 & Hrun & Hfiles & Hrest).
  { done. }
  { intros f g Hf _. apply Hnb. by right. }
  assert (forall p, ~ In p (bad :: pre) ->
            (forall f, In f (bad :: pre) -> p <> bak_path f) ->
            fs1 !! p = fs !! p) as Hrest'.
  { intros p Hp Hpb. apply Hrest.
    - intros Hf. apply Hp. by right.
    - intros f Hf. apply Hpb. by right. }
  assert (fs1 !! bad = fs !! bad) as Hb1.
  { apply Hrest; [done|]. intros f _. apply Hnb. by left. }
  assert (fs1 !! bak_path bad = fs !! bak_path bad) as Hb2.
  { apply Hrest.
    - intros Hf. by apply (Hnb (bak_path bad) bad); [right|].
    - intros f Hf E. apply bak_path_inj in E as ->. done. }
  rewrite fold_left_app, (walk_io_plain pre _ Hw), Hrun.
  cbn [fold_left]. unfold walk_step_io at 2. rewrite Hio, Hb1.
  unfold is_file in *. destruct (fs !! bad) as [content|] eqn:Hc.
  2:{ eexists. split; [apply walk_io_None|].
      split; [done|]. split; [by rewrite Hb1|]. by split. }
  assert (text_of fs bad = content) as Ht
    by (unfold text_of; by rewrite Hc).
  cbn [andb] in Hbad |- *.
  destruct (writable (bak_path bad)) eqn:Ewb.
  - cbn [andb] in Hbad. rewrite Hbad. cbv zeta.
    eexists. split; [apply walk_io_None|].
    split; [|split; [|split]].
    + intros f Hf.
      rewrite !lookup_insert_ne; [by apply Hfiles| |].
      * intros E. apply bak_path_inj in E as ->. done.
      * intros E. symmetry in E. revert E. apply Hnb. by right.
    + rewrite lookup_insert_ne by apply bak_path_ne. by rewrite Hb1.
    + by rewrite lookup_insert_eq, Ht.
    + intros p Hp Hpb. rewrite lookup_insert_ne; [by apply Hrest'|].
      intros E. symmetry in E. revert E. apply Hpb. by left.
  - eexists. split; [apply walk_io_None|].
    split; [done|]. split; [by rewrite Hb1|]. by split.
Qed.

End WalkIoFacts.

Lemma domains_io_file_step_walk (writable : string -> bool)
  (st : gmap string (list N) * list Domains.Msg * option (nat * nat))
  (file : string) :
  Domains.Io.file_step writable st file =
  walk_step_io (Domains.Io.process_lst_file writable) Domains.FileDone
    (fun (t : nat * nat) c => (S (fst t), (snd t + c)%nat)) st file.
Proof.
  destruct st as [[fs out] [[a b]|]]; [|done].
  cbn [Domains.Io.file_step walk_step_io fst snd].
  by destruct (Domains.Io.process_lst_file writable file fs) as [fs' [c|]].
Qed.

Lemma ip_io_file_step_walk (writable : string -> bool)
  (st : gmap string (list N) * list Ip.Msg * option (nat * nat * nat))
  (file : string) :
  Ip.Io.file_step writable st file =
  walk_step_io (Ip.Io.process_lst_file writable)
    (fun f (c : nat * nat) => Ip.FileDone f (fst c) (snd c))
    (fun (t : nat * nat * nat) (c : nat * nat) =>
       (S (fst (fst t)), (snd (fst t) + fst c)%nat, (snd t + snd c)%nat))
    st file.
Proof.
  destruct st as [[fs out] [[[a b] d]|]]; [|done].
  cbn [Ip.Io.file_step walk_step_io fst snd].
  by destruct (Ip.Io.process_lst_file writable file fs) as [fs' [[c k]|]].
Qed.

Lemma domains_ip_domain_io_file_step_walk (writable : string -> bool)
  (st : gmap string (list N) * list DomainsIp.Msg * option (nat * nat))
  (file : string) :
  DomainsIp.Io.domain_file_step writable st file =
  walk_step_io (DomainsIp.Io.process_domain_lst_file writable)
    DomainsIp.DomainFileDone
    (fun (t : nat * nat) c => (S (fst t), (snd t + c)%nat)) st file.
Proof.
  destruct st as [[fs out] [[a b]|]]; [|done].
  cbn [DomainsIp.Io.domain_file_step walk_step_io fst snd].
  by destruct (DomainsIp.Io.process_domain_lst_file writable file fs)
    as [fs' [c|]].
Qed.

Lemma domains_ip_ip_io_file_step_walk (writable : string -> bool)
  (st : gmap string (list N) * list DomainsIp.Msg *
        option (nat * nat * nat)) (file : string) :
  DomainsIp.Io.ip_file_step writable st file =
  walk_step_io (DomainsIp.Io.process_ip_lst_file writable)
    (fun f (c : nat * nat) => DomainsIp.IpFileDone f (fst c) (snd c))
    (fun (t : nat * nat * nat) (c : nat * nat) =>
       (S (fst (fst t)), (snd (fst t) + fst c)%nat, (snd t + snd c)%nat))
    st file.
Proof.
  destruct st as [[fs out] [[[a b] d]|]]; [|done].
  cbn [DomainsIp.Io.ip_file_step walk_step_io fst snd].
  by destruct (DomainsIp.Io.process_ip_lst_file writable file fs)
    as [fs' [[c k]|]].
Qed.

(** A run none of whose writes fails is the run of the definitions that
    take the writes to go through. *)
Lemma domains_io_main_plain (writable : string -> bool) (env : Env)
  (fs : gmap string (list N)) :
  (forall f, In f (rglob env "domains/services" "*.lst" fs) ->
     writable f = true /\ writable (bak_path f) = true) ->
  Domains.Io.main writable env fs = Domains.main env fs.
Proof.
  intros H. unfold Domains.Io.main, Domains.main, Domains.TARGET_DIRS.
  cbn [fold_left]. unfold Domains.Io.dir_step, Domains.dir_step.
  destruct (negb (is_dir env _)); [done|].
  rewrite (fold_left_ext_all _ _ _ _ (domains_io_file_step_walk writable)),
    (fold_left_ext_all _ _ _ _ domains_file_step_walk).
  by rewrite (walk_io_plain _ _ _ domains_rewrites domains_io_rewrites
                _ _ writable _ _ H).
Qed.

Lemma ip_io_main_plain (writable : string -> bool) (env : Env)
  (fs : gmap string (list N)) :
  (forall f, In f (rglob env "domains/ip" "*.lst" fs) ->
     writable f = true /\ writable (bak_path f) = true) ->
  Ip.Io.main writable env fs = Ip.main env fs.
Proof.
  intros H. unfold Ip.Io.main, Ip.main, Ip.TARGET_DIRS.
  cbn [fold_left]. unfold Ip.Io.dir_step, Ip.dir_step.
  destruct (negb (is_dir env _)); [done|].
  rewrite (fold_left_ext_all _ _ _ _ (ip_io_file_step_walk writable)),
    (fold_left_ext_all _ _ _ _ ip_file_step_walk).
  by rewrite (walk_io_plain _ _ _ ip_rewrites ip_io_rewrites
                _ _ writable _ _ H).
Qed.

Lemma domains_ip_io_main_plain (writable : string -> bool) (env : Env)
  (fs : gmap string (list N)) :
  (forall f, In f (rglob env "domains/services" "*.lst" fs) ->
     writable f = true /\ writable (bak_path f) = true) ->
  (forall fs1 f, In f (rglob env "domains/ip" "*.lst" fs1) ->
     writable f = true /\ writable (bak_path f) = true) ->
  DomainsIp.Io.main writable env fs = DomainsIp.main env fs.
Proof.
  intros Hd Hi.
  unfold DomainsIp.Io.main, DomainsIp.main, DomainsIp.DOMAIN_DIRS,
    DomainsIp.IP_DIRS.
  cbn [fold_left].
  assert (DomainsIp.Io.domain_dir_step writable env (fs, [], Some (O, O))
            "domains/services" =
          DomainsIp.domain_dir_step env (fs, [], Some (O, O))
            "domains/services") as ->.
  { unfold DomainsIp.Io.domain_dir_step, DomainsIp.domain_dir_step.
    destruct (negb (is_dir env _)); [done|].
    rewrite (fold_left_ext_all _ _ _ _
               (domains_ip_domain_io_file_step_walk writable)),
      (fold_left_ext_all _ _ _ _ domains_ip_domain_file_step_walk).
    by rewrite (walk_io_plain _ _ _ domains_ip_domain_rewrites
                  domains_ip_domain_io_rewrites _ _ writable _ _ Hd). }
  destruct (DomainsIp.domain_dir_step env _ _) as [[fs1 out1] [[a b]|]];
    [|done].
  assert (DomainsIp.Io.ip_dir_step writable env (fs1, out1, Some (O, O, O))
            "domains/ip" =
          DomainsIp.ip_dir_step env (fs1, out1, Some (O, O, O))
            "domains/ip") as ->; [|done].
  unfold DomainsIp.Io.ip_dir_step, DomainsIp.ip_dir_step.
  destruct (negb (is_dir env _)); [done|].
  rewrite (fold_left_ext_all _ _ _ _
             (domains_ip_ip_io_file_step_walk writable)),
    (fold_left_ext_all _ _ _ _ domains_ip_ip_file_step_walk).
  by rewrite (walk_io_plain _ _ _ domains_ip_ip_rewrites
                domains_ip_ip_io_rewrites _ _ writable _ _ (Hi fs1)).
Qed.

End IoFacts.
Import IoFacts.







(** A cleaning none of whose removals is refused is the one of the
    definitions that take every file to be removable. *)
Lemma clean_io_remove_fold (removable : string -> bool)
  (files : list string) (st : gmap string (list N) * list CleanBak.Msg * nat) :
  (forall p, In p files -> removable p = true) ->
  fold_left (CleanBak.Io.remove_step removable) files st =
  fold_left CleanBak.remove_step files st.
Proof.
  intros H. apply fold_left_ext_In. intros [[fs out] n] p Hp.
  unfold CleanBak.Io.remove_step, CleanBak.remove_step, try_unlink.
  by rewrite (H p Hp).
Qed.

Lemma clean_io_main_plain (removable : string -> bool) (env : Env)
  (fs : gmap string (list N)) :
  (forall fs1 p, In p (rglob env "domains/services" "*.bak" fs1) ->
     removable p = true) ->
  (forall fs1 p, In p (rglob env "domains/ip" "*.bak" fs1) ->
     removable p = true) ->
  CleanBak.Io.main removable env fs = CleanBak.main env fs.
Proof.
  intros Hd Hi.
  unfold CleanBak.Io.main, CleanBak.main, CleanBak.Io.clean_backups,
    CleanBak.clean_backups, CleanBak.DOMAIN_DIRS, CleanBak.IP_DIRS.
  cbn [fold_left].
  assert (CleanBak.Io.dir_step removable env (fs, [], O) "domains/services" =
          CleanBak.dir_step env (fs, [], O) "domains/services") as ->.
  { unfold CleanBak.Io.dir_step, CleanBak.dir_step.
    destruct (negb (is_dir env _)); [done|].
    apply clean_io_remove_fold, Hd. }
  destruct (CleanBak.dir_step env _ _) as [[fs1 out1] n1].
  assert (CleanBak.Io.dir_step removable env (fs1, out1, O) "domains/ip" =
          CleanBak.dir_step env (fs1, out1, O) "domains/ip") as ->; [|done].
  unfold CleanBak.Io.dir_step, CleanBak.dir_step.
  destruct (negb (is_dir env _)); [done|].
  apply clean_io_remove_fold, Hi.
Qed.





(** * Reading a rewritten file again *)

Module LineFacts.

Lemma splitlines_one_line_aux (n : nat) :
  forall s, (length s <= n)%nat ->
  Forall (fun l => one_line l = true) (splitlines s).
Proof.
  induction n as [|n IH]; intros s Hn.
  { destruct s; [constructor|cbn in Hn; lia]. }
  destruct s as [|c t]; [constructor|].
  cbn [length] in Hn. rewrite splitlines_cons.
  destruct (islinebreak c) eqn:Ec.
  - destruct t as [|d t']; [by repeat constructor|].
    cbn [length] in Hn.
    destruct ((c =? 0x0D) && (d =? 0x0A)); constructor; try done;
      apply IH; cbn [length]; lia.
  - pose proof (IH t ltac:(lia)) as Ht.
    destruct (splitlines t) as [|l r]; [|inversion Ht; subst].
    + constructor; [|done]. unfold one_line. cbn. by rewrite Ec.
    + constructor; [|done]. unfold one_line in *. cbn. by rewrite Ec.
Qed.

Lemma splitlines_one_line (s : list N) :
  Forall (fun l => one_line l = true) (splitlines s).
Proof. by apply (splitlines_one_line_aux (length s)). Qed.

Lemma splitlines_line (l rest : list N) :
  one_line l = true ->
  splitlines (l ++ 0x0A :: rest) = l :: splitlines rest.
Proof.
  induction l as [|c l IH]; intros H.
  - cbn [app]. rewrite splitlines_cons.
    change (islinebreak 0x0A) with true. cbv iota.
    destruct rest as [|d t']; [done|].
    by change ((0x0A =? 0x0D) && (d =? 0x0A)) with false.
  - unfold one_line in H. cbn [forallb] in H.
    apply andb_prop in H as [Hc Hl]. apply negb_true_iff in Hc.
    cbn [app]. rewrite splitlines_cons, Hc. by rewrite (IH Hl).
Qed.

Lemma splitlines_join (ls : list (list N)) :
  ls <> [] -> Forall (fun l => one_line l = true) ls ->
  splitlines (join NL ls ++ NL) = ls.
Proof.
  induction ls as [|x r IH]; [done|]. intros _ H.
  pose proof (Forall_inv H) as Hx. cbn beta in Hx.
  apply Forall_inv_tail in H.
  destruct r as [|y r].
  - cbn [join]. unfold NL. by rewrite (splitlines_line x [] Hx).
  - rewrite join_cons_nonempty by done. rewrite <- !app_assoc.
    unfold NL at 1. cbn [app]. rewrite (splitlines_line _ _ Hx).
    f_equal. by apply IH.
Qed.

Lemma one_line_lf_only (l : list N) :
  one_line l = true -> Spec.lf_only l = true.
Proof.
  unfold one_line, Spec.lf_only. apply forallb_weaken.
  intros c ->. done.
Qed.

Lemma join_lf_only (ls : list (list N)) :
  Forall (fun l => one_line l = true) ls ->
  Spec.lf_only (join NL ls ++ NL) = true.
Proof.
  intros H. unfold Spec.lf_only. rewrite forallb_app. apply andb_true_intro.
  split; [|done]. unfold NL. apply forallb_join; [done|].
  eapply Forall_impl; [exact H|]. intros l Hl. by apply one_line_lf_only.
Qed.

(** Reading back what a file function wrote. *)
Lemma read_back (ls : list (list N)) :
  Forall (fun l => one_line l = true) ls ->
  splitlines (translate_newlines (join NL ls ++ NL)) = reread ls.
Proof.
  intros H. rewrite translate_newlines_lf_only by (by apply join_lf_only).
  destruct ls as [|x r]; [done|]. by apply splitlines_join.
Qed.

Lemma forallb_lstrip (P : N -> bool) (s : list N) :
  forallb P s = true -> forallb P (lstrip s) = true.
Proof.
  induction s as [|c t IH]; [done|]. cbn [lstrip].
  destruct (isspace c); [|done]. cbn [forallb]. intros [_ H]%andb_prop. auto.
Qed.

Lemma forallb_rstrip (P : N -> bool) (s : list N) :
  forallb P s = true -> forallb P (rstrip s) = true.
Proof.
  induction s as [|c t IH]; [done|]. cbn [forallb rstrip].
  intros [Hc Ht]%andb_prop. specialize (IH Ht).
  destruct (rstrip t) as [|d r].
  - destruct (isspace c); [done|]. cbn. by rewrite Hc.
  - cbn [forallb]. by rewrite Hc.
Qed.

Lemma forallb_strip (P : N -> bool) (s : list N) :
  forallb P s = true -> forallb P (strip s) = true.
Proof. intros H. by apply forallb_rstrip, forallb_lstrip. Qed.

Lemma domain_line_one_line (raw : list N) :
  one_line raw = true -> one_line (Spec.domain_line raw) = true.
Proof.
  intros H. unfold Spec.domain_line.
  destruct (Spec.is_blank raw); [done|].
  destruct (Spec.is_comment raw); [done|].
  destruct (Spec.has_domain_prefix raw); [by apply forallb_strip|].
  unfold one_line. rewrite forallb_app. apply andb_true_intro.
  split; [by vm_compute|by apply forallb_strip].
Qed.

End LineFacts.

Module IpLineFacts.
Import LineFacts.

Lemma nonspace_one_line (P : N -> bool) (s : list N) :
  (forall c, P c = true -> isspace c = false) ->
  forallb P s = true -> one_line s = true.
Proof.
  intros HP. unfold one_line. apply forallb_weaken. intros c Hc.
  apply HP in Hc. apply negb_true_iff.
  destruct (islinebreak c) eqn:E; [|done].
  unfold islinebreak in E. unfold isspace in Hc.
  repeat match goal with
  | H : _ || _ = true |- _ => apply orb_prop in H as [H|H]
  | H : _ && _ = true |- _ => apply andb_prop in H as [? ?]
  | H : _ || _ = false |- _ => apply orb_false_elim in H as [? ?]
  end;
  repeat match goal with
  | H : (_ =? _) = true |- _ => apply N.eqb_eq in H
  | H : (_ <=? _) = true |- _ => apply N.leb_le in H
  | H : (_ =? _) = false |- _ => apply N.eqb_neq in H
  | H : _ && _ = false |- _ => apply andb_false_iff in H as [H|H]
  | H : (_ <=? _) = false |- _ => apply N.leb_gt in H
  end; lia.
Qed.

Lemma v4_char_nonspace (c : N) : v4_char c = true -> isspace c = false.
Proof.
  unfold v4_char. intros [H|H]%orb_prop; [by apply isdigit_nonspace|].
  apply N.eqb_eq in H as ->. by vm_compute.
Qed.

Lemma one_line_app (a b : list N) :
  one_line (a ++ b) = one_line a && one_line b.
Proof. apply forallb_app. Qed.

Lemma partition_forallb (P : N -> bool) (sep : N) (s b a : list N)
  (f : bool) :
  partition sep s = (b, f, a) -> forallb P s = true ->
  forallb P b = true /\ forallb P a = true.
Proof.
  revert b f a. induction s as [|c t IH]; intros b f a.
  - by intros [= <- <- <-].
  - cbn [partition forallb]. intros H [Hc Ht]%andb_prop.
    destruct (c =? sep).
    + by injection H as <- <- <-.
    + destruct (partition sep t) as [[b' f'] a'] eqn:E.
      injection H as <- <- <-. destruct (IH _ _ _ eq_refl Ht) as [Hb Ha].
      cbn [forallb]. by rewrite Hc, Hb.
Qed.

Lemma split_forallb (P : N -> bool) (sep : N) (s : list N) :
  forallb P s = true -> Forall (fun p => forallb P p = true) (split sep s).
Proof.
  induction s as [|c t IH]; [by repeat constructor|].
  cbn [forallb split]. intros [Hc Ht]%andb_prop. specialize (IH Ht).
  destruct (c =? sep); [by constructor|].
  destruct (split sep t) as [|h r]; [by repeat constructor; cbn; rewrite Hc|].
  inversion IH; subst. constructor; [|done]. cbn. by rewrite Hc.
Qed.

Lemma IPv6Address_scope (s : list N) (a : Address) :
  IPv6Address s = Some a -> one_line s = true -> scope_one_line a.
Proof.
  unfold IPv6Address. destruct (contains (ch "/") s); [done|].
  unfold _split_scope_id.
  destruct (partition (ch "%") s) as [[addr sep] sc] eqn:E.
  intros H Hs. destruct (partition_forallb _ _ _ _ _ _ E Hs) as [_ Hsc].
  destruct sep; cbn in H.
  - destruct (is_empty sc || contains (ch "%") sc); [done|]. cbn in H.
    destruct (v6_ip_int_from_string addr); [|done]. by injection H as <-.
  - destruct (v6_ip_int_from_string addr); [|done]. by injection H as <-.
Qed.

Lemma ip_address_scope (s : list N) (a : Address) :
  ip_address s = Some a -> one_line s = true -> scope_one_line a.
Proof.
  unfold ip_address. destruct (IPv4Address s) as [a4|] eqn:E.
  - intros [= <-] _. by apply IPv4Address_inv in E as (_ & n & -> & _).
  - apply IPv6Address_scope.
Qed.

Lemma address_text_one_line (a : Address) :
  wf_address a -> scope_one_line a -> one_line (str_of_address a) = true.
Proof.
  destruct a as [n|n sc]; cbn [wf_address scope_one_line str_of_address].
  - intros Hn _. destruct (v4_print_parse n Hn) as (_ & H & _).
    by apply (nonspace_one_line v4_char); [apply v4_char_nonspace|].
  - intros [Hn _] Hsc. destruct (v6_text n Hn) as (_ & H & _).
    assert (one_line (v6_string_from_ip_int n) = true) as H6
      by (by apply (nonspace_one_line v6_char); [apply v6_char_nonspace|]).
    destruct sc as [sc|]; [|done]. destruct (is_empty sc); [done|].
    rewrite !one_line_app, H6, Hsc. by vm_compute.
Qed.

Lemma network_scope (s : list N) (net : Network) :
  ip_network s = Some net -> one_line s = true ->
  scope_one_line (network_address net).
Proof.
  intros Hn Hs. unfold ip_network in Hn.
  assert (forall addr mask, _split_addr_prefix s = Some (addr, mask) ->
            one_line addr = true) as Haddr.
  { intros addr mask H. unfold _split_addr_prefix in H.
    pose proof (split_forallb _ (ch "/") s Hs) as Hf.
    destruct (split (ch "/") s) as [|x [|y [|z r]]]; try done;
      injection H as <- _; by inversion Hf. }
  destruct (IPv4Network s) as [n4|] eqn:E4.
  - injection Hn as <-. unfold IPv4Network in E4.
    apply bind_Some in E4 as ([addr mask] & _ & H).
    apply bind_Some in H as (a & Ha & H).
    apply bind_Some in H as (p & _ & H).
    apply IPv4Address_inv in Ha as (_ & n & -> & _).
    by destruct (negb _); injection H as <-.
  - unfold IPv6Network in Hn.
    apply bind_Some in Hn as ([addr mask] & Hsp & H).
    apply bind_Some in H as (a & Ha & H).
    apply bind_Some in H as (p & _ & H).
    destruct (negb _); injection H as <-; [done|].
    cbn [network_address]. eapply IPv6Address_scope; [done|]. by eapply Haddr.
Qed.

Lemma network_text_one_line (net : Network) :
  wf_network net -> scope_one_line (network_address net) ->
  one_line (str_of_network net) = true.
Proof.
  intros (Hw & Hp & _) Hsc. unfold str_of_network.
  rewrite !one_line_app, (address_text_one_line _ Hw Hsc).
  assert (prefixlen net < 256) as Hlt.
  { unfold max_prefixlen in Hp. change IPV4LENGTH with 32 in Hp.
    change IPV6LENGTH with 128 in Hp.
    destruct (is_v4 (network_address net)); lia. }
  destruct (dec_facts _ Hlt) as (Hd & _).
  rewrite (nonspace_one_line isdigit_char _ isdigit_nonspace Hd).
  by vm_compute.
Qed.

End IpLineFacts.

Module RerunFacts.
Import LineFacts IpLineFacts.

Lemma candidate_cidr_one_line (c cidr : list N) :
  one_line c = true -> Spec.candidate_cidr c = Some cidr ->
  one_line cidr = true.
Proof.
  intros Hc. unfold Spec.candidate_cidr. destruct (contains (ch "/") c).
  - intros (net & Hn & ->)%fmap_Some.
    apply network_text_one_line; [by eapply ip_network_wf|].
    by eapply network_scope.
  - intros (a & Ha & ->)%fmap_Some. rewrite host_cidr_network.
    apply network_text_one_line.
    + apply host_network_wf. by eapply ip_address_wf.
    + cbn [network_address]. by eapply ip_address_scope.
Qed.

Lemma ip_rule_one_line (cidr : list N) :
  one_line cidr = true -> one_line (ip_rule cidr) = true.
Proof.
  intros H. unfold ip_rule. rewrite !one_line_app, H. by vm_compute.
Qed.

Lemma forallb_drop (P : N -> bool) (n : nat) (s : list N) :
  forallb P s = true -> forallb P (drop n s) = true.
Proof.
  revert s. induction n as [|n IH]; intros [|c t]; try done.
  cbn [forallb drop]. intros [_ H]%andb_prop. by apply IH.
Qed.

Lemma prefixed_candidate_one_line (s : list N) :
  one_line s = true -> one_line (Spec.prefixed_candidate s) = true.
Proof.
  intros H. unfold Spec.prefixed_candidate. apply forallb_strip.
  pose proof (split_forallb _ (ch ",") _
                (forallb_strip _ _ (forallb_drop _ 8 _ H))) as Hf.
  destruct (split _ _) as [|h r]; [done|]. by inversion Hf.
Qed.

Lemma ip_normalize_one_line (raw r : list N) :
  one_line raw = true -> Ip.normalize_ip_or_cidr raw = Some r ->
  one_line r = true.
Proof.
  intros Hraw. pose proof (forallb_strip _ _ Hraw) as Hs.
  destruct (Spec.is_prefixed (strip raw)) eqn:Hp.
  - rewrite (normalize_prefixed _ Hp). intros (cidr & Hc & ->)%fmap_Some.
    apply ip_rule_one_line. eapply candidate_cidr_one_line; [|done].
    by apply prefixed_candidate_one_line.
  - destruct (is_empty (strip raw) || startswith (lit "#") (strip raw))
      eqn:Hb.
    + destruct (normalize_passthrough raw Hb) as [-> _]. by intros [= <-].
    + rewrite (normalize_plain _ Hp Hb).
      destruct (if contains (ch "/") (strip raw) then ip_network (strip raw)
                else None) as [net|] eqn:E.
      * intros [= <-]. apply ip_rule_one_line.
        destruct (contains (ch "/") (strip raw)); [|done].
        apply network_text_one_line; [by eapply ip_network_wf|].
        by eapply network_scope.
      * intros (cidr & (a & Ha & ->)%fmap_Some & ->)%fmap_Some.
        apply ip_rule_one_line. rewrite host_cidr_network.
        apply network_text_one_line.
        -- apply host_network_wf. by eapply ip_address_wf.
        -- cbn [network_address]. by eapply ip_address_scope.
Qed.

Lemma domains_ip_normalize_one_line (raw r : list N) :
  one_line raw = true -> DomainsIp.normalize_ip_or_cidr raw = Some r ->
  one_line r = true.
Proof.
  intros Hraw.
  destruct (is_empty (strip raw) || startswith (lit "#") (strip raw)) eqn:Hb.
  - destruct (normalize_passthrough raw Hb) as [_ ->]. by intros [= <-].
  - rewrite normalize_agree by (by right). by apply ip_normalize_one_line.
Qed.

Lemma omap_one_line (normalize : list N -> option (list N))
  (l : list (list N)) :
  (forall raw r, one_line raw = true -> normalize raw = Some r ->
     one_line r = true) ->
  Forall (fun x => one_line x = true) l ->
  Forall (fun x => one_line x = true) (omap normalize l).
Proof.
  intros H. induction 1 as [|raw l Hraw Hl IH]; [constructor|].
  cbn [omap list_omap]. destruct (normalize raw) as [r|] eqn:E; [|done].
  constructor; [by eapply H|done].
Qed.

Lemma domain_lines_one_line (l : list (list N)) :
  Forall (fun x => one_line x = true) l ->
  Forall (fun x => one_line x = true) (List.map Spec.domain_line l).
Proof.
  induction 1 as [|raw l Hraw Hl IH]; [constructor|].
  cbn [List.map]. constructor; [by apply domain_line_one_line|done].
Qed.

Lemma lines_of_Some (fs : gmap string (list N)) (path : string)
  (content : list N) :
  fs !! path = Some content ->
  lines_of fs path = splitlines (translate_newlines content).
Proof. intros H. unfold lines_of. by rewrite H. Qed.

Lemma join_reread (ls : list (list N)) : join NL (reread ls) = join NL ls.
Proof. by destruct ls. Qed.

Section Rerun.
Context {C : Type}.
Variable proc :
  string -> gmap string (list N) -> option (gmap string (list N) * C).
Variable process : list (list N) -> list (list N) * C.
Hypothesis Hrw : rewrites proc (file_result process).
Hypothesis Hline :
  forall l, Forall (fun x => one_line x = true) l ->
            Forall (fun x => one_line x = true) (fst (process l)).

Lemma first_run (path : string) (fs : gmap string (list N))
  (content : list N) :
  fs !! path = Some content ->
  exists fs1,
    proc path fs = Some (fs1, snd (process (lines_of fs path))) /\
    fs1 !! path = Some (join NL (fst (process (lines_of fs path))) ++ NL) /\
    lines_of fs1 path = reread (fst (process (lines_of fs path))).
Proof.
  intros H. rewrite Hrw, H. cbn [fmap option_fmap option_map].
  eexists. split; [|split].
  - f_equal. f_equal. unfold file_result. rewrite (lines_of_Some _ _ _ H).
    by destruct (process _).
  - rewrite lookup_insert_eq. f_equal. unfold file_result.
    rewrite (lines_of_Some _ _ _ H). by destruct (process _).
  - unfold lines_of at 1. rewrite lookup_insert_eq. cbn [default].
    unfold file_result. rewrite (lines_of_Some _ _ _ H).
    destruct (process _) as [out c] eqn:E. cbn [fst snd].
    apply read_back. replace out with (fst (process
      (splitlines (translate_newlines content)))) by (by rewrite E).
    apply Hline, splitlines_one_line.
Qed.

Lemma second_run (path : string) (fs : gmap string (list N))
  (content : list N) (c0 : C) :
  fs !! path = Some content ->
  process (reread (fst (process (lines_of fs path)))) =
    (reread (fst (process (lines_of fs path))), c0) ->
  exists fs1 c1 fs2,
    proc path fs = Some (fs1, c1) /\
    proc path fs1 = Some (fs2, c0) /\
    fs2 !! path = fs1 !! path /\
    fs2 !! bak_path path =
      Some (join NL (fst (process (lines_of fs path)))).
Proof.
  intros H Hfix. destruct (first_run path fs content H) as (fs1 & E1 & T1 & L1).
  destruct (first_run path fs1 _ T1) as (fs2 & E2 & T2 & _).
  rewrite L1, Hfix in E2, T2. cbn [fst snd] in E2, T2.
  exists fs1, (snd (process (lines_of fs path))), fs2.
  split; [done|]. split; [done|]. split.
  - by rewrite T1, T2, join_reread.
  - pose proof E2 as E2'. rewrite Hrw, T1 in E2'.
    cbn [fmap option_fmap option_map] in E2'. injection E2' as <- _.
    rewrite lookup_insert_ne by (intros E; by apply (bak_path_ne path)).
    rewrite lookup_insert_eq. f_equal. unfold file_result.
    fold (lines_of fs1 path) in L1.
    assert (splitlines (translate_newlines
              (join NL (fst (process (lines_of fs path))) ++ NL)) =
            reread (fst (process (lines_of fs path)))) as ->.
    { rewrite <- L1. unfold lines_of. by rewrite T1. }
    rewrite Hfix. cbn [fst]. apply join_reread.
Qed.

End Rerun.

End RerunFacts.
Import LineFacts IpLineFacts RerunFacts.

Module SecondRunFacts.

Lemma domains_out_one_line (l : list (list N)) :
  Forall (fun x => one_line x = true) l ->
  Forall (fun x => one_line x = true) (fst (Domains.process_lines l)).
Proof.
  rewrite process_lines_spec. unfold Spec.domain_normalizer. cbn [fst].
  apply domain_lines_one_line.
Qed.

Lemma domains_ip_domain_out_one_line (l : list (list N)) :
  Forall (fun x => one_line x = true) l ->
  Forall (fun x => one_line x = true)
    (fst (DomainsIp.process_domain_lines l)).
Proof.
  rewrite process_domain_lines_spec. unfold Spec.domain_normalizer.
  cbn [fst]. apply domain_lines_one_line.
Qed.

Lemma ip_counts_fst (r : list (list N) * nat * nat) :
  fst (ip_counts r) = fst (fst r).
Proof. by destruct r as [[o c] k]. Qed.

Lemma ip_counts_snd (r : list (list N) * nat * nat) :
  snd (ip_counts r) = (snd (fst r), snd r).
Proof. by destruct r as [[o c] k]. Qed.

Lemma ip_out_one_line (l : list (list N)) :
  Forall (fun x => one_line x = true) l ->
  Forall (fun x => one_line x = true)
    (fst (ip_counts (Ip.process_lines l))).
Proof.
  rewrite ip_counts_fst, ip_process_lines_spec. unfold Spec.ip_normalizer.
  cbn [fst]. apply omap_one_line, ip_normalize_one_line.
Qed.

Lemma domains_ip_ip_out_one_line (l : list (list N)) :
  Forall (fun x => one_line x = true) l ->
  Forall (fun x => one_line x = true)
    (fst (ip_counts (DomainsIp.process_ip_lines l))).
Proof.
  rewrite ip_counts_fst, domains_ip_process_lines_spec.
  unfold Spec.ip_normalizer. cbn [fst].
  apply omap_one_line, domains_ip_normalize_one_line.
Qed.

Lemma domain_rerun (l : list (list N)) :
  Spec.domain_normalizer (reread (fst (Spec.domain_normalizer l))) =
  (reread (fst (Spec.domain_normalizer l)), O).
Proof.
  destruct (fst (Spec.domain_normalizer l)) as [|x r] eqn:E.
  - by vm_compute.
  - cbn [reread]. rewrite <- E. apply domain_normalizer_idem.
Qed.

Lemma ip_rerun (normalize : list N -> option (list N))
  (l : list (list N)) :
  normalize [] = Some [] ->
  (forall raw r, normalize raw = Some r ->
     Spec.comma_free_rule r = true -> normalize r = Some r) ->
  forallb Spec.comma_free_rule (omap normalize l) = true ->
  Spec.ip_normalizer normalize (reread (omap normalize l)) =
  (reread (omap normalize l), O, length (reread (omap normalize l))).
Proof.
  intros Hnil Htwice Hfree.
  destruct (omap normalize l) as [|x r] eqn:E.
  - cbn [reread]. unfold Spec.ip_normalizer, Spec.line_changed,
      Spec.line_kept. cbn [omap list_omap List.filter].
    rewrite Hnil. by cbn.
  - cbn [reread]. rewrite <- E. apply second_run_fixed; [done|].
    by rewrite E.
Qed.

End SecondRunFacts.
Import SecondRunFacts.

(** Property X9. What a file function wrote is what the next run reads.
    After each of the four file functions has rewritten a file, the
    lines that a file function reads in that file are the lines that
    were put out; a file from which no line was put out reads as one
    empty line. *)
Theorem X9_rewritten_file_reads_back (path : string)
  (fs : gmap string (list N)) (content : list N) :
  fs !! path = Some content ->
  (exists fs' changed,
     Domains.process_lst_file path fs = Some (fs', changed) /\
     lines_of fs' path =
       reread (fst (Domains.process_lines (lines_of fs path)))) /\
  (exists fs' changed,
     DomainsIp.process_domain_lst_file path fs = Some (fs', changed) /\
     lines_of fs' path =
       reread (fst (DomainsIp.process_domain_lines (lines_of fs path)))) /\
  (exists fs' counts,
     Ip.process_lst_file path fs = Some (fs', counts) /\
     lines_of fs' path =
       reread (fst (fst (Ip.process_lines (lines_of fs path))))) /\
  (exists fs' counts,
     DomainsIp.process_ip_lst_file path fs = Some (fs', counts) /\
     lines_of fs' path =
       reread (fst (fst (DomainsIp.process_ip_lines (lines_of fs path))))).
Proof.
  intros H. split; [|split; [|split]].
  - destruct (first_run _ _ domains_rewrites domains_out_one_line path fs
                content H)
      as (fs' & E & _ & L). by eexists _, _.
  - destruct (first_run _ _ domains_ip_domain_rewrites
                domains_ip_domain_out_one_line path fs content H)
      as (fs' & E & _ & L). by eexists _, _.
  - destruct (first_run _ _ ip_rewrites ip_out_one_line path fs content H)
      as (fs' & E & _ & L). rewrite ip_counts_fst in L. by eexists _, _.
  - destruct (first_run _ _ domains_ip_ip_rewrites domains_ip_ip_out_one_line
                path fs content H)
      as (fs' & E & _ & L). rewrite ip_counts_fst in L. by eexists _, _.
Qed.

(** Property X9 at an IP list of one network without a final line
    feed. *)
Lemma X9_rewritten_file_reads_back_witness :
  exists fs' counts,
    Ip.process_lst_file "ip.lst"
      {[ "ip.lst"%string := lit "10.1.2.3/24" ]} = Some (fs', counts) /\
    lines_of fs' "ip.lst" =
      reread (fst (fst (Ip.process_lines
        (lines_of {[ "ip.lst"%string := lit "10.1.2.3/24" ]} "ip.lst")))).
Proof.
  refine (proj1 (proj2 (proj2 (X9_rewritten_file_reads_back "ip.lst"
    {[ "ip.lst"%string := lit "10.1.2.3/24" ]} (lit "10.1.2.3/24") _)))).
  by vm_compute.
Defined.

(** Property X10. A second run of a file function on the file it has
    rewritten. The second run changes no line and leaves the text of the
    file as the first run wrote it, and it writes the backup anew: the
    backup then holds the lines that the first run put out, not the text
    the file had at the start. For the IP lists this holds when no rule
    that the first run put out has a comma inside its CIDR text. *)
Theorem X10_second_run_on_a_file (path : string) (fs : gmap string (list N))
  (content : list N) :
  fs !! path = Some content ->
  (exists fs1 changed fs2,
     Domains.process_lst_file path fs = Some (fs1, changed) /\
     Domains.process_lst_file path fs1 = Some (fs2, O) /\
     fs2 !! path = fs1 !! path /\
     fs2 !! bak_path path =
       Some (join NL (fst (Domains.process_lines (lines_of fs path))))) /\
  (exists fs1 changed fs2,
     DomainsIp.process_domain_lst_file path fs = Some (fs1, changed) /\
     DomainsIp.process_domain_lst_file path fs1 = Some (fs2, O) /\
     fs2 !! path = fs1 !! path /\
     fs2 !! bak_path path =
       Some (join NL (fst (DomainsIp.process_domain_lines
                             (lines_of fs path))))) /\
  (forallb Spec.comma_free_rule
     (fst (fst (Ip.process_lines (lines_of fs path)))) = true ->
   exists fs1 counts fs2 kept,
     Ip.process_lst_file path fs = Some (fs1, counts) /\
     Ip.process_lst_file path fs1 = Some (fs2, (O, kept)) /\
     fs2 !! path = fs1 !! path /\
     fs2 !! bak_path path =
       Some (join NL (fst (fst (Ip.process_lines (lines_of fs path)))))) /\
  (forallb Spec.comma_free_rule
     (fst (fst (DomainsIp.process_ip_lines (lines_of fs path)))) = true ->
   exists fs1 counts fs2 kept,
     DomainsIp.process_ip_lst_file path fs = Some (fs1, counts) /\
     DomainsIp.process_ip_lst_file path fs1 = Some (fs2, (O, kept)) /\
     fs2 !! path = fs1 !! path /\
     fs2 !! bak_path path =
       Some (join NL (fst (fst (DomainsIp.process_ip_lines
                                  (lines_of fs path)))))).
Proof.
  intros H. split; [|split; [|split]].
  - apply (second_run _ _ domains_rewrites domains_out_one_line path fs
             content O H).
    rewrite !process_lines_spec. apply domain_rerun.
  - apply (second_run _ _ domains_ip_domain_rewrites
             domains_ip_domain_out_one_line path fs content O H).
    rewrite !process_domain_lines_spec. apply domain_rerun.
  - intros Hfree.
    destruct (second_run _ _ ip_rewrites ip_out_one_line path fs content
                (O, length (reread (fst (fst (Ip.process_lines
                                               (lines_of fs path))))))
                H) as (fs1 & c1 & fs2 & E1 & E2 & T & B).
    { rewrite ip_counts_fst. revert Hfree. rewrite !ip_process_lines_spec.
      unfold Spec.ip_normalizer at 1 3 4 5. cbn [fst]. intros Hfree.
      rewrite ip_rerun; [done|by vm_compute| |done].
      intros raw r Hr Hc. apply (normalize_twice raw r Hr).
      intros cidr ->. by apply comma_free_rule_cidr. }
    rewrite ip_counts_fst in B. by eexists _, _, _, _.
  - intros Hfree.
    destruct (second_run _ _ domains_ip_ip_rewrites domains_ip_ip_out_one_line
                path fs content
                (O, length (reread (fst (fst (DomainsIp.process_ip_lines
                                               (lines_of fs path))))))
                H) as (fs1 & c1 & fs2 & E1 & E2 & T & B).
    { rewrite ip_counts_fst. revert Hfree.
      rewrite !domains_ip_process_lines_spec.
      unfold Spec.ip_normalizer at 1 3 4 5. cbn [fst]. intros Hfree.
      rewrite ip_rerun; [done|by vm_compute| |done].
      intros raw r Hr Hc. apply (domains_ip_normalize_twice raw r Hr).
      intros cidr ->. by apply comma_free_rule_cidr. }
    rewrite ip_counts_fst in B. by eexists _, _, _, _.
Qed.

(** Property X10 at an IP list of one network. *)
Lemma X10_second_run_on_a_file_witness :
  exists fs1 counts fs2 kept,
    Ip.process_lst_file "ip.lst"
      {[ "ip.lst"%string := lit "10.1.2.3/24" ]} = Some (fs1, counts) /\
    Ip.process_lst_file "ip.lst" fs1 = Some (fs2, (O, kept)) /\
    fs2 !! "ip.lst"%string = fs1 !! "ip.lst"%string /\
    fs2 !! bak_path "ip.lst" =
      Some (join NL (fst (fst (Ip.process_lines
        (lines_of {[ "ip.lst"%string := lit "10.1.2.3/24" ]} "ip.lst"))))).
Proof.
  refine (proj1 (proj2 (proj2 (X10_second_run_on_a_file "ip.lst"
    {[ "ip.lst"%string := lit "10.1.2.3/24" ]} (lit "10.1.2.3/24") _))) _);
    by vm_compute.
Defined.

(** * The text of the rewritten file *)

Module WrittenFacts.

Lemma join_terminated (ls : list (list N)) :
  join NL ls ++ NL = Spec.terminated_lines ls.
Proof.
  destruct ls as [|x r]; [done|]. unfold Spec.terminated_lines.
  revert x. induction r as [|y r IH]; intros x.
  - cbn [join List.map List.concat]. by rewrite app_nil_r.
  - rewrite join_cons_nonempty by done.
    change (List.concat (List.map (fun l => l ++ NL) (x :: y :: r)))
      with ((x ++ NL) ++ List.concat (List.map (fun l => l ++ NL) (y :: r))).
    by rewrite <- IH, <- !app_assoc.
Qed.

Lemma join_snoc (ls : list (list N)) (l : list N) :
  ls <> [] -> join NL (ls ++ [l]) = join NL ls ++ NL ++ l.
Proof.
  induction ls as [|x r IH]; [done|]. intros _.
  destruct r as [|y r]; [done|].
  change ((x :: y :: r) ++ [l]) with (x :: ((y :: r) ++ [l])).
  rewrite join_cons_nonempty by (by destruct r).
  rewrite IH by done. rewrite (join_cons_nonempty NL x (y :: r)) by done.
  by rewrite <- !app_assoc.
Qed.

Lemma one_trailing_newline_snoc (s : list N) (c : N) :
  Spec.one_trailing_newline ((s ++ [c]) ++ NL) = negb (islinebreak c).
Proof.
  unfold Spec.one_trailing_newline, NL.
  rewrite !rev_app_distr. by cbn.
Qed.

(** The text written for lines without a line boundary ends with one
    line terminator unless its last line, which is not the only one, is
    empty. *)
Lemma written_one_newline (ls : list (list N)) :
  Forall (fun l => one_line l = true) ls ->
  Spec.one_trailing_newline (join NL ls ++ NL) = true <->
  (length ls <= 1)%nat \/ List.last ls [] <> [].
Proof.
  intros H.
  destruct ls as [|x r] using rev_ind; [by split; [left; cbn; lia|]|].
  clear IHr. rewrite last_last.
  apply Forall_app in H as [_ Hx]. apply Forall_inv in Hx.
  destruct x as [|c x] using rev_ind.
  - destruct r as [|y r].
    + split; [left; cbn; lia|done].
    + rewrite join_snoc by done.
      change (NL ++ []) with ([] ++ [0x0A]). rewrite app_assoc.
      rewrite one_trailing_newline_snoc. split; [done|].
      intros [Hl|Hl]; [|done]. rewrite length_app in Hl. cbn in Hl. lia.
  - clear IHx. unfold one_line in Hx. rewrite forallb_app in Hx.
    apply andb_prop in Hx as [_ Hc]. cbn [forallb] in Hc.
    rewrite andb_true_r in Hc.
    assert (join NL (r ++ [x ++ [c]]) = (match r with
              | [] => x | _ => join NL r ++ NL ++ x end) ++ [c]) as ->.
    { destruct r as [|y r]; [done|]. rewrite join_snoc by done.
      by rewrite <- !app_assoc. }
    rewrite one_trailing_newline_snoc, Hc. split; [|done].
    intros _. right. by destruct x.
Qed.

End WrittenFacts.
Import WrittenFacts.

(** Claim C9, at a file on which it fails: a list whose last line is
    blank is rewritten to a text that ends with two line feeds. *)
Lemma C9_blank_last_line_two_line_feeds :
  exists fs' changed,
    Domains.process_lst_file "d.lst"
      {[ "d.lst"%string := lit "example.com" ++ NL ++ NL ]}
      = Some (fs', changed) /\
    fs' !! "d.lst"%string =
      Some (lit "DOMAIN-SUFFIX,example.com" ++ NL ++ NL) /\
    Spec.one_trailing_newline (lit "DOMAIN-SUFFIX,example.com" ++ NL ++ NL)
      = false.
Proof.
  destruct (domains_process_lst_file_store "d.lst"
    {[ "d.lst"%string := lit "example.com" ++ NL ++ NL ]}
    (lit "example.com" ++ NL ++ NL)) as (fs' & n & E & W & _);
    [by vm_compute|].
  exists fs', n. split; [done|]. split; [|by vm_compute].
  rewrite W. by vm_compute.
Qed.

(** Claim C9, amended.  For every file and every content, each of the
    four file functions rewrites the file with its transformed lines,
    each followed by one line feed, and with a single line feed when no
    line is left, whether or not the content ended with a line
    terminator.  The text ends with exactly one line terminator unless
    the last of two or more transformed lines is empty. *)
Theorem C9_rewritten_file (path : string) (fs : gmap string (list N))
  (content : list N) :
  fs !! path = Some content ->
  let src_lines := splitlines (translate_newlines content) in
  let written (fs' : gmap string (list N)) (out_lines : list (list N)) :=
    fs' !! path = Some (Spec.terminated_lines out_lines) /\
    (Spec.one_trailing_newline (Spec.terminated_lines out_lines) = true <->
     (length out_lines <= 1)%nat \/ List.last out_lines [] <> []) in
  (exists fs' counts,
     Ip.process_lst_file path fs = Some (fs', counts) /\
     written fs' (fst (fst (Ip.process_lines src_lines)))) /\
  (exists fs' counts,
     DomainsIp.process_ip_lst_file path fs = Some (fs', counts) /\
     written fs' (fst (fst (DomainsIp.process_ip_lines src_lines)))) /\
  (exists fs' changed,
     Domains.process_lst_file path fs = Some (fs', changed) /\
     written fs' (fst (Domains.process_lines src_lines))) /\
  (exists fs' changed,
     DomainsIp.process_domain_lst_file path fs = Some (fs', changed) /\
     written fs' (fst (DomainsIp.process_domain_lines src_lines))).
Proof.
  intros H src_lines written.
  destruct (ip_process_lst_file_store path fs content H)
    as (f1 & c1 & E1 & W1 & _).
  destruct (domains_ip_process_ip_lst_file_store path fs content H)
    as (f2 & c2 & E2 & W2 & _).
  destruct (domains_process_lst_file_store path fs content H)
    as (f3 & c3 & E3 & W3 & _).
  destruct (domains_ip_process_domain_lst_file_store path fs content H)
    as (f4 & c4 & E4 & W4 & _).
  pose proof (splitlines_one_line (translate_newlines content)) as Hsrc.
  fold src_lines in Hsrc, W1, W2, W3, W4.
  assert (forall fs' out,
    fs' !! path = Some (join NL out ++ NL) ->
    Forall (fun l => one_line l = true) out -> written fs' out) as Hw.
  { intros fs' out W Hout. unfold written.
    rewrite <- join_terminated. split; [done|].
    by apply written_one_newline. }
  split; [|split; [|split]].
  - exists f1, c1. split; [done|]. apply Hw; [done|].
    rewrite <- ip_counts_fst. by apply ip_out_one_line.
  - exists f2, c2. split; [done|]. apply Hw; [done|].
    rewrite <- ip_counts_fst. by apply domains_ip_ip_out_one_line.
  - exists f3, c3. split; [done|]. apply Hw; [done|].
    by apply domains_out_one_line.
  - exists f4, c4. split; [done|]. apply Hw; [done|].
    by apply domains_ip_domain_out_one_line.
Qed.

(** Claim C9 at a list of two lines without a final line terminator,
    whose rewritten file holds the two rules, each followed by one line
    feed, and at a list whose only line is rejected, whose rewritten
    file is a single line feed. *)
Lemma C9_rewritten_file_witness :
  (exists fs' changed,
     Domains.process_lst_file "d.lst"
       {[ "d.lst"%string := lit "example.com" ++ NL ++ lit "example.org" ]}
       = Some (fs', changed) /\
     fs' !! "d.lst"%string =
       Some (lit "DOMAIN-SUFFIX,example.com" ++ NL ++
             lit "DOMAIN-SUFFIX,example.org" ++ NL) /\
     Spec.one_trailing_newline
       (lit "DOMAIN-SUFFIX,example.com" ++ NL ++
        lit "DOMAIN-SUFFIX,example.org" ++ NL) = true) /\
  (exists fs' counts,
     Ip.process_lst_file "ip.lst" {[ "ip.lst"%string := lit "not-an-ip" ]}
       = Some (fs', counts) /\
     fs' !! "ip.lst"%string = Some NL).
Proof.
  split.
  - destruct (C9_rewritten_file "d.lst"
      {[ "d.lst"%string := lit "example.com" ++ NL ++ lit "example.org" ]}
      (lit "example.com" ++ NL ++ lit "example.org"))
      as (_ & _ & (fs' & changed & E & W & Hone) & _); [by vm_compute|].
    exists fs', changed. split; [done|]. split; [rewrite W; by vm_compute|].
    etransitivity; [|apply Hone; right; by vm_compute]. by vm_compute.
  - destruct (C9_rewritten_file "ip.lst"
      {[ "ip.lst"%string := lit "not-an-ip" ]} (lit "not-an-ip"))
      as ((fs' & counts & E & W & _) & _); [by vm_compute|].
    exists fs', counts. split; [done|]. rewrite W. by vm_compute.
Defined.

(** * More on what the IP normaliser accepts *)

Module NormFacts.

Lemma contains_nonempty (c : N) (s : list N) :
  contains c s = true -> is_empty s = false.
Proof. by destruct s. Qed.

Lemma slash_line (line : list N) :
  Spec.is_comment line = false ->
  Spec.is_prefixed (strip line) = false ->
  contains (ch "/") (strip line) = true ->
  Ip.normalize_ip_or_cidr line =
    (fun net => ip_rule (str_of_network net)) <$> ip_network (strip line) /\
  DomainsIp.normalize_ip_or_cidr line =
    (fun net => ip_rule (str_of_network net)) <$> ip_network (strip line) /\
  ip_address (strip line) = None.
Proof.
  intros Hc Hp Hs.
  assert (is_empty (strip line) || startswith (lit "#") (strip line) = false)
    as Hb.
  { by rewrite (contains_nonempty _ _ Hs), is_comment_strip, Hc. }
  assert (ip_address (strip line) = None) as Ha.
  { destruct (ip_address (strip line)) as [a|] eqn:E; [|done].
    apply ip_address_inv in E as [E _]. congruence. }
  rewrite normalize_agree by (by right).
  rewrite (normalize_plain _ Hp Hb), Hs, Ha.
  by destruct (ip_network (strip line)).
Qed.

Lemma strip_rule (cidr : list N) : strip (ip_rule cidr) = ip_rule cidr.
Proof.
  unfold ip_rule. rewrite app_assoc.
  eapply strip_text.
  - eval_lits. rewrite <- app_assoc. cbn [app]. reflexivity.
  - by vm_compute.
  - by eval_lits.
  - by vm_compute.
Qed.

Lemma normalize_strip (line : list N) :
  Ip.normalize_ip_or_cidr line = strip <$> DomainsIp.normalize_ip_or_cidr line.
Proof.
  destruct (is_empty (strip line) || startswith (lit "#") (strip line)) eqn:Hb.
  - by destruct (normalize_passthrough line Hb) as [-> ->].
  - rewrite normalize_agree by (by right).
    destruct (Ip.normalize_ip_or_cidr line) as [r|] eqn:E; [|done].
    destruct (normalize_result _ _ E) as [[Hb' _]|(_ & _ & net & _ & ->)].
    + congruence.
    + cbn. by rewrite strip_rule.
Qed.

Lemma omap_fmap_strip (f g : list N -> option (list N)) (l : list (list N)) :
  (forall x, f x = strip <$> g x) ->
  omap f l = List.map strip (omap g l).
Proof.
  intros H. induction l as [|x l IH]; [done|].
  cbn [omap list_omap]. rewrite H. destruct (g x); cbn; by rewrite IH.
Qed.

Lemma domains_ip_normalize_result (raw r : list N) :
  DomainsIp.normalize_ip_or_cidr raw = Some r ->
  (is_empty (strip raw) || startswith (lit "#") (strip raw) = true /\
   r = raw) \/
  (exists net, wf_network net /\ r = ip_rule (str_of_network net)).
Proof.
  intros H.
  destruct (is_empty (strip raw) || startswith (lit "#") (strip raw)) eqn:Hb.
  - left. destruct (normalize_passthrough raw Hb) as [_ E]. split; congruence.
  - right. rewrite normalize_agree in H by (by right).
    destruct (normalize_result _ _ H) as [[Hb' _]|(_ & _ & net & Hw & ->)].
    + congruence.
    + by exists net.
Qed.

End NormFacts.
Import NormFacts.

(** Property X11. A line with a [/] that is neither a comment nor
    already prefixed is a network or nothing: both normalisers return
    the rule of the network that [ip_network] reads in the trimmed line
    and reject the line when there is none. The parse as a bare address
    that follows a failed network parse never succeeds on such a line. *)
Theorem X11_slash_line_network_or_dropped (line : list N) :
  Spec.is_comment line = false ->
  startswith (lit "IP-CIDR,") (upper (strip line)) = false ->
  contains (ch "/") (strip line) = true ->
  ip_address (strip line) = None /\
  Ip.normalize_ip_or_cidr line =
    (fun net => lit "IP-CIDR," ++ str_of_network net ++ lit ",no-resolve")
      <$> ip_network (strip line) /\
  DomainsIp.normalize_ip_or_cidr line =
    (fun net => lit "IP-CIDR," ++ str_of_network net ++ lit ",no-resolve")
      <$> ip_network (strip line).
Proof.
  intros Hc Hp Hs. by destruct (slash_line line Hc Hp Hs) as (-> & -> & ->).
Qed.

(** Property X11 at the line ["10.1.2.3/33"], which is no network. *)
Lemma X11_slash_line_network_or_dropped_witness :
  Ip.normalize_ip_or_cidr (lit "10.1.2.3/33") =
    (fun net => lit "IP-CIDR," ++ str_of_network net ++ lit ",no-resolve")
      <$> ip_network (strip (lit "10.1.2.3/33")).
Proof.
  refine (proj1 (proj2 (X11_slash_line_network_or_dropped
    (lit "10.1.2.3/33") _ _ _))); by vm_compute.
Defined.

(** Property X12. The two copies of the IP normaliser differ by a
    [strip] and by nothing else: on every line the result of [ip.py] is
    the trimmed result of [domains_ip.py], and so is every line of the
    output for a whole file; the two outputs have the same number of
    lines. *)
Theorem X12_ip_scripts_agree_up_to_strip :
  (forall line : list N,
     Ip.normalize_ip_or_cidr line =
       strip <$> DomainsIp.normalize_ip_or_cidr line) /\
  (forall src_lines : list (list N),
     fst (fst (Ip.process_lines src_lines)) =
       List.map strip (fst (fst (DomainsIp.process_ip_lines src_lines))) /\
     length (fst (fst (Ip.process_lines src_lines))) =
       length (fst (fst (DomainsIp.process_ip_lines src_lines)))).
Proof.
  split; [apply normalize_strip|]. intros src_lines.
  rewrite ip_process_lines_spec, domains_ip_process_lines_spec.
  unfold Spec.ip_normalizer. cbn [fst].
  rewrite (omap_fmap_strip _ DomainsIp.normalize_ip_or_cidr)
    by apply normalize_strip.
  by rewrite length_map.
Qed.

(** Property X13. Every line that the IP normalisation of a file puts
    out is a blank line, a comment line, or a rule
    [IP-CIDR,<cidr>,no-resolve] whose CIDR text has a prefix length and
    is the text of the network that [ip_network] reads in it. *)
Theorem X13_ip_output_lines (src_lines : list (list N)) (r : list N) :
  In r (fst (fst (Ip.process_lines src_lines))) \/
  In r (fst (fst (DomainsIp.process_ip_lines src_lines))) ->
  Spec.is_blank r = true \/ Spec.is_comment r = true \/
  exists net,
    r = lit "IP-CIDR," ++ str_of_network net ++ lit ",no-resolve" /\
    ip_network (str_of_network net) = Some net /\
    contains (ch "/") (str_of_network net) = true.
Proof.
  rewrite ip_process_lines_spec, domains_ip_process_lines_spec.
  unfold Spec.ip_normalizer. cbn [fst].
  assert (forall raw, is_empty (strip raw) || startswith (lit "#") (strip raw)
                      = true ->
            Spec.is_blank raw = true \/ Spec.is_comment raw = true) as Hpass.
  { intros raw H. rewrite strip_empty_iff, is_comment_strip in H.
    by apply orb_prop in H. }
  assert (forall net, wf_network net ->
    exists net', ip_rule (str_of_network net) =
                 lit "IP-CIDR," ++ str_of_network net' ++ lit ",no-resolve" /\
      ip_network (str_of_network net') = Some net' /\
      contains (ch "/") (str_of_network net') = true) as Hrule.
  { intros net Hw. exists net. split; [done|]. split; [by apply network_text|].
    by destruct (network_text_shape net Hw) as (_ & _ & ?). }
  intros [Hin|Hin]; destruct (omap_In _ _ _ Hin) as [raw Hraw].
  - destruct (normalize_result _ _ Hraw) as [[Hb ->]|(_ & _ & net & Hw & ->)].
    + destruct (Hpass raw Hb) as [H|H].
      * left. by rewrite is_blank_strip.
      * right. left. by rewrite is_comment_strip_strip.
    + right. right. by apply Hrule.
  - destruct (domains_ip_normalize_result _ _ Hraw)
      as [[Hb ->]|(net & Hw & ->)].
    + destruct (Hpass raw Hb) as [H|H]; [by left|by right; left].
    + right. right. by apply Hrule.
Qed.

(** Property X13 at the rule that comes of the line ["10.1.2.3/24"]. *)
Lemma X13_ip_output_lines_witness :
  Spec.is_blank (lit "IP-CIDR,10.1.2.0/24,no-resolve") = true \/
  Spec.is_comment (lit "IP-CIDR,10.1.2.0/24,no-resolve") = true \/
  exists net,
    lit "IP-CIDR,10.1.2.0/24,no-resolve" =
      lit "IP-CIDR," ++ str_of_network net ++ lit ",no-resolve" /\
    ip_network (str_of_network net) = Some net /\
    contains (ch "/") (str_of_network net) = true.
Proof.
  refine (X13_ip_output_lines [lit "# lan"; lit "10.1.2.3/24"; lit "junk"]
    (lit "IP-CIDR,10.1.2.0/24,no-resolve") _).
  left. by vm_compute; tauto.
Defined.

(** Property X14. Every line that the domain normalisation of a file
    puts out is a blank line, a comment line, or a line that starts with
    [DOMAIN-SUFFIX,] and has no white space around it. *)
Theorem X14_domain_output_lines (src_lines : list (list N)) (r : list N) :
  In r (fst (Domains.process_lines src_lines)) \/
  In r (fst (DomainsIp.process_domain_lines src_lines)) ->
  Spec.is_blank r = true \/ Spec.is_comment r = true \/
  (startswith (lit "DOMAIN-SUFFIX,") r = true /\ strip r = r).
Proof.
  rewrite process_lines_spec, process_domain_lines_spec.
  unfold Spec.domain_normalizer. cbn [fst].
  intros H. assert (In r (List.map Spec.domain_line src_lines)) as Hin
    by (by destruct H).
  clear H. apply in_map_iff in Hin as (raw & <- & _).
  unfold Spec.domain_line.
  destruct (Spec.is_blank raw) eqn:Hb; [by left|].
  destruct (Spec.is_comment raw) eqn:Hc; [by right; left|].
  right. right. destruct (Spec.has_domain_prefix raw) eqn:Hp.
  - split; [done|]. apply strip_fixed.
  - split; [apply startswith_app|]. by apply domain_rule_fixed.
Qed.

(** Property X14 at the rule that comes of the line ["  example.com "]. *)
Lemma X14_domain_output_lines_witness :
  Spec.is_blank (lit "DOMAIN-SUFFIX,example.com") = true \/
  Spec.is_comment (lit "DOMAIN-SUFFIX,example.com") = true \/
  (startswith (lit "DOMAIN-SUFFIX,") (lit "DOMAIN-SUFFIX,example.com") = true /\
   strip (lit "DOMAIN-SUFFIX,example.com") =
     lit "DOMAIN-SUFFIX,example.com").
Proof.
  refine (X14_domain_output_lines [lit "# list"; lit "  example.com "]
    (lit "DOMAIN-SUFFIX,example.com") _).
  left. by vm_compute; tauto.
Defined.

Module BoundFacts.

Lemma split_no_sep (sep : N) (s : list N) :
  contains sep s = false -> split sep s = [s].
Proof.
  induction s as [|c t IH]; [done|]. cbn [contains existsb split].
  intros [Hc Ht]%orb_false_elim. rewrite N.eqb_sym, Hc.
  unfold contains in IH. by rewrite (IH Ht).
Qed.

Lemma IPv6Address_no_colon (s : list N) :
  contains (ch ":") s = false -> contains (ch "%") s = false ->
  IPv6Address s = None.
Proof.
  intros Hc Hp. unfold IPv6Address. destruct (contains (ch "/") s); [done|].
  unfold _split_scope_id. rewrite (partition_none _ _ Hp). cbn.
  unfold v6_ip_int_from_string. destruct (is_empty s); [done|].
  by rewrite (split_no_sep _ _ Hc).
Qed.

Lemma IPv4Address_not_v6 (s : list N) (a : Address) :
  IPv4Address s = Some a -> IPv6Address s = None.
Proof.
  intros (_ & n & _ & H)%IPv4Address_inv. apply v4_parse_chars in H.
  apply IPv6Address_no_colon; by apply (forallb_contains v4_char);
    [vm_compute|].
Qed.

Lemma digits_not_dotted (p : list N) :
  forallb isdigit_char p = true -> v4_prefix_from_ip_string p = None.
Proof.
  intros H. unfold v4_prefix_from_ip_string, v4_ip_int_from_string.
  destruct (is_empty p); [done|].
  assert (contains (ch ".") p = false) as Hd
    by (by apply (forallb_contains isdigit_char); [vm_compute|]).
  by rewrite (split_no_sep _ _ Hd).
Qed.

Lemma prefix_too_long (m : N) (p : list N) :
  m < int10 p -> _prefix_from_prefix_string m p = None.
Proof.
  intros H. unfold _prefix_from_prefix_string.
  destruct (negb (isascii_isdigit p)); [done|].
  unfold int. destruct (max_str_digits <? _); [done|].
  by apply N.leb_gt in H as ->.
Qed.

Lemma ip_network_prefix_too_long (addr p : list N) (a : Address) :
  ip_address addr = Some a ->
  forallb isdigit_char p = true ->
  (if is_v4 a then 32 else 128) < int10 p ->
  ip_network (addr ++ lit "/" ++ p) = None.
Proof.
  intros Ha Hp Hlt.
  pose proof (ip_address_inv _ _ Ha) as [Hs _].
  assert (contains (ch "/") p = false) as Hd
    by (by apply (forallb_contains isdigit_char); [vm_compute|]).
  pose proof (split_addr_prefix_text addr p Hs Hd) as Hsplit.
  unfold ip_network, IPv4Network, IPv6Network. rewrite Hsplit. cbn.
  unfold ip_address in Ha. destruct (IPv4Address addr) as [a4|] eqn:E4.
  - injection Ha as ->. rewrite (IPv4Address_not_v6 _ _ E4).
    pose proof (IPv4Address_inv _ _ E4) as (_ & n & -> & _).
    cbn [is_v4] in Hlt. cbn.
    unfold v4_make_netmask.
    change IPV4LENGTH with 32.
    by rewrite (prefix_too_long 32 p Hlt), (digits_not_dotted p Hp).
  - cbn. rewrite Ha. cbn.
    pose proof (IPv6Address_inv _ _ Ha) as (_ & _ & H6). rewrite H6 in Hlt.
    unfold v6_make_netmask. change IPV6LENGTH with 128.
    by rewrite (prefix_too_long 128 p Hlt).
Qed.

End BoundFacts.
Import BoundFacts.

(** Property X15. A prefix length beyond the width of the address makes
    the line be dropped. When the trimmed line is the text of an
    address, a [/] and a decimal number above 32 for an IPv4 address,
    above 128 for an IPv6 address, both normalisers reject the line. *)
Theorem X15_prefix_length_out_of_range (line addr p : list N) (a : Address) :
  strip line = addr ++ lit "/" ++ p ->
  ip_address addr = Some a ->
  forallb isdigit_char p = true ->
  (if is_v4 a then 32 else 128) < int10 p ->
  Ip.normalize_ip_or_cidr line = None /\
  DomainsIp.normalize_ip_or_cidr line = None.
Proof.
  intros Hs Ha Hp Hlt.
  pose proof (ip_network_prefix_too_long addr p a Ha Hp Hlt) as Hn.
  pose proof (ip_address_inv _ _ Ha) as [_ (c & t & Haddr & Hc)].
  assert (valid_start (strip line)) as Hv.
  { exists c, (t ++ lit "/" ++ p). by rewrite Hs, Haddr. }
  apply valid_start_plain in Hv as (Hpre & He & Hcom).
  assert (contains (ch "/") (strip line) = true) as Hsl.
  { rewrite Hs, !contains_app. eval_lits. cbn. by rewrite orb_true_r. }
  destruct (slash_line line) as (H1 & H2 & _); try done.
  { by rewrite <- is_comment_strip. }
  by rewrite H1, H2, Hs, Hn.
Qed.

(** Property X15 at the lines [" 192.0.2.0/33"] and
    ["2001:db8::/129"]. *)
Lemma X15_prefix_length_out_of_range_witness :
  Ip.normalize_ip_or_cidr (lit " 192.0.2.0/33") = None /\
  DomainsIp.normalize_ip_or_cidr (lit "2001:db8::/129") = None.
Proof.
  split.
  - refine (proj1 (X15_prefix_length_out_of_range (lit " 192.0.2.0/33")
      (lit "192.0.2.0") (lit "33") (V4 0xC0000200) _ _ _ _)); by vm_compute.
  - refine (proj2 (X15_prefix_length_out_of_range (lit "2001:db8::/129")
      (lit "2001:db8::") (lit "129")
      (V6 0x20010DB8000000000000000000000000 None) _ _ _ _)); by vm_compute.
Defined.

(** * The characters of an address *)

Module CharFacts.

Lemma find_skip_fold_empty (parts : list (list N)) (a n : nat)
  (st : option (option nat)) (i : nat) :
  fold_left (find_skip_step parts) (seq a n) st = Some (Some i) ->
  st = Some (Some i) \/ is_empty (nth i parts []) = true.
Proof.
  revert a st. induction n as [|n IH]; intros a st; [by left|].
  cbn [seq fold_left]. intros H. apply IH in H as [H|H]; [|by right].
  unfold find_skip_step in H. destruct st as [sk|]; [|done]. cbn in H.
  destruct (is_empty (nth a parts [])) eqn:E.
  - destruct sk; [done|]. injection H as <-. by right.
  - by left.
Qed.

Lemma find_skip_index_empty (parts : list (list N)) (i : nat) :
  find_skip_index parts = Some (Some i) -> is_empty (nth i parts []) = true.
Proof.
  unfold find_skip_index. by intros [H|H]%find_skip_fold_empty.
Qed.

Lemma fold_parse_Forall (l : list (list N)) (a v : N) :
  fold_left parse_hextets_step l (Some a) = Some v ->
  Forall (fun p => forallb ishex_char p = true) l.
Proof.
  revert a. induction l as [|p l IH]; intros a; [constructor|].
  cbn [fold_left]. unfold parse_hextets_step at 2. cbn [mbind option_bind].
  destruct (_parse_hextet p) as [h|] eqn:Hp; cbn [mbind option_bind];
    [|by rewrite fold_parse_None].
  intros H. constructor; [|by eapply IH].
  by apply parse_hextet_inv in Hp as [? _].
Qed.

Lemma is_empty_hex (p : list N) :
  is_empty p = true -> forallb ishex_char p = true.
Proof. by destruct p. Qed.

(** Every part that the loops of [_ip_int_from_string] leave out is
    empty, so every part is made of hexadecimal digits. *)
Lemma parsed_parts_hex (parts : list (list N)) (skip : option nat)
  (hi lo sk : nat) (ip v : N) :
  find_skip_index parts = Some skip ->
  match skip with
  | Some skip_index =>
      parts_hi ← (if is_empty (nth 0 parts []) then
                    if negb (skip_index - 1 =? 0)%nat then None
                    else Some (skip_index - 1)%nat
                  else Some skip_index);
      parts_lo ← (if is_empty (List.last parts []) then
                    if negb (length parts - skip_index - 1 - 1 =? 0)%nat
                    then None
                    else Some (length parts - skip_index - 1 - 1)%nat
                  else Some (length parts - skip_index - 1)%nat);
      if (_HEXTET_COUNT - (parts_hi + parts_lo) <? 1)%nat then None
      else Some (parts_hi, parts_lo,
                 (_HEXTET_COUNT - (parts_hi + parts_lo))%nat)
  | None =>
      if negb (length parts =? _HEXTET_COUNT)%nat then None
      else if is_empty (nth 0 parts []) then None
      else if is_empty (List.last parts []) then None
      else Some (length parts, 0%nat, 0%nat)
  end = Some (hi, lo, sk) ->
  fold_left parse_hextets_step (take hi parts) (Some 0) = Some ip ->
  fold_left parse_hextets_step (drop (length parts - lo) parts)
    (Some (N.shiftl ip (16 * N.of_nat sk))) = Some v ->
  Forall (fun p => forallb ishex_char p = true) parts.
Proof.
  intros Hskip Hidx Hhi Hlo.
  apply fold_parse_Forall in Hhi, Hlo.
  rewrite Forall_lookup in Hhi, Hlo. apply Forall_lookup. intros j p Hj.
  pose proof (lookup_lt_Some _ _ _ Hj) as Hlen.
  assert (forall k, (k < length parts)%nat ->
                    is_empty (nth k parts []) = true ->
                    k = j -> forallb ishex_char p = true) as Hempty.
  { intros k _ Hk ->. rewrite nth_lookup, Hj in Hk. by apply is_empty_hex. }
  assert (List.last parts [] = nth (length parts - 1) parts []) as Hlast.
  { destruct parts as [|q parts] using rev_ind; [done|].
    rewrite last_last, length_app. cbn [length].
    rewrite nth_lookup, lookup_app_r by lia.
    by replace (length parts + 1 - 1 - length parts)%nat with 0%nat by lia. }
  destruct (decide (j < hi)%nat) as [Hc|Hc].
  { apply (Hhi j p). rewrite lookup_take_lt by done. done. }
  destruct (decide (length parts - lo <= j)%nat) as [Hd|Hd].
  { apply (Hlo (j - (length parts - lo))%nat p). rewrite lookup_drop.
    by replace (length parts - lo + (j - (length parts - lo)))%nat with j
      by lia. }
  destruct skip as [i|].
  - pose proof (find_skip_index_range _ _ Hskip) as Hi.
    pose proof (find_skip_index_empty _ _ Hskip) as Hie.
    apply bind_Some in Hidx as (hi' & Hh & Hidx).
    apply bind_Some in Hidx as (lo' & Hl & Hidx).
    destruct (_ <? 1)%nat; [done|]. injection Hidx as <- <- _.
    destruct (is_empty (nth 0 parts [])) eqn:E0;
      destruct (is_empty (List.last parts [])) eqn:El;
      repeat match goal with
      | H : (if negb ?b then None else Some _) = Some _ |- _ =>
          let E := fresh "E" in
          destruct b eqn:E; [cbn in H|done]; apply Nat.eqb_eq in E
      | H : Some _ = Some _ |- _ => injection H as <-
      end.
    + rewrite Hlast in El.
      destruct (decide (j = 0)%nat) as [->|]; [by apply (Hempty 0%nat)|].
      destruct (decide (j = i)); [by apply (Hempty i); [lia| |]|].
      apply (Hempty (length parts - 1)%nat); [lia|done|lia].
    + destruct (decide (j = 0)%nat) as [->|]; [by apply (Hempty 0%nat)|].
      apply (Hempty i); [lia|done|lia].
    + rewrite Hlast in El.
      destruct (decide (j = i)); [by apply (Hempty i); [lia| |]|].
      apply (Hempty (length parts - 1)%nat); [lia|done|lia].
    + apply (Hempty i); [lia|done|lia].
  - destruct (negb _); [done|]. destruct (is_empty _); [done|].
    destruct (is_empty _); [done|]. injection Hidx as <- <- _. lia.
Qed.

Lemma hex_addr_char (p : list N) :
  forallb ishex_char p = true -> forallb addr_char p = true.
Proof.
  apply forallb_weaken. intros c Hc. unfold addr_char. by rewrite Hc.
Qed.

Lemma v4_addr_char (p : list N) :
  forallb v4_char p = true -> forallb addr_char p = true.
Proof.
  apply forallb_weaken. intros c. unfold v4_char, addr_char.
  intros [H|H]%orb_prop.
  - by rewrite (isdigit_ishex _ H).
  - rewrite H. apply orb_true_r.
Qed.

Lemma v6_from_parts_chars (parts : list (list N)) (n : N) :
  v6_from_parts parts = Some n ->
  Forall (fun p => forallb addr_char p = true) parts.
Proof.
  unfold v6_from_parts. destruct (length parts <? 3)%nat eqn:Hlen; [done|].
  apply Nat.ltb_ge in Hlen.
  intros (parts' & Hparts & H)%bind_Some. revert H.
  destruct (_HEXTET_COUNT + 1 <? length parts')%nat; [done|].
  intros (skip & Hskip & H)%bind_Some.
  apply bind_Some in H as ([[hi lo] sk] & Hidx & H).
  apply bind_Some in H as (ip & Hhi & Hlo).
  pose proof (parsed_parts_hex parts' skip hi lo sk ip n Hskip Hidx Hhi Hlo)
    as Hhex.
  destruct (contains (ch ".") (List.last parts [])).
  - apply bind_Some in Hparts as (a & Ha & [= <-]).
    apply Forall_app in Hhex as [Hhex _].
    assert (parts = removelast parts ++ [List.last parts []]) as Hsplit.
    { apply app_removelast_last. by destruct parts. }
    rewrite Hsplit. apply Forall_app. split.
    + eapply Forall_impl; [exact Hhex|]. intros p. apply hex_addr_char.
    + constructor; [|done].
      apply IPv4Address_inv in Ha as (_ & m & _ & Hm).
      by apply v4_addr_char, (v4_parse_chars _ m).
  - injection Hparts as <-.
    eapply Forall_impl; [exact Hhex|]. intros p. apply hex_addr_char.
Qed.

Lemma v6_parse_chars (s : list N) (n : N) :
  v6_ip_int_from_string s = Some n -> forallb addr_char s = true.
Proof.
  rewrite v6_ip_int_from_string_parts. destruct (is_empty s); [done|].
  intros H%v6_from_parts_chars. rewrite <- (join_split (ch ":") s).
  apply forallb_join; [by vm_compute|done].
Qed.

Lemma ip_address_chars (s : list N) (a : Address) :
  contains (ch "%") s = false -> ip_address s = Some a ->
  forallb addr_char s = true.
Proof.
  intros Hp. unfold ip_address. destruct (IPv4Address s) as [a4|] eqn:E4.
  - intros _. apply IPv4Address_inv in E4 as (_ & n & _ & Hn).
    by apply v4_addr_char, (v4_parse_chars _ n).
  - unfold IPv6Address. destruct (contains (ch "/") s); [done|].
    unfold _split_scope_id. rewrite (partition_none _ _ Hp). cbn.
    intros (ip & Hip & _)%bind_Some. by eapply v6_parse_chars.
Qed.

Lemma split_addr_prefix_join (s addr : list N) (mask : option (list N)) :
  _split_addr_prefix s = Some (addr, mask) ->
  s = addr ++ match mask with Some m => ch "/" :: m | None => [] end.
Proof.
  unfold _split_addr_prefix. intros H.
  rewrite <- (join_split (ch "/") s).
  destruct (split (ch "/") s) as [|a [|m [|x r]]]; try done;
    injection H as <- <-; cbn [join app]; by rewrite ?app_nil_r.
Qed.

Lemma digits_net_char (m : list N) :
  forallb isdigit_char m = true -> forallb net_char m = true.
Proof.
  apply forallb_weaken. intros c Hc. unfold net_char, addr_char.
  by rewrite (isdigit_ishex _ Hc).
Qed.

Lemma addr_net_char (m : list N) :
  forallb addr_char m = true -> forallb net_char m = true.
Proof.
  apply forallb_weaken. intros c Hc. unfold net_char. by rewrite Hc.
Qed.

Lemma prefix_string_digits (max : N) (m : list N) (p : N) :
  _prefix_from_prefix_string max m = Some p ->
  forallb isdigit_char m = true.
Proof.
  unfold _prefix_from_prefix_string, isascii_isdigit.
  destruct (is_empty m); [done|]. by destruct (forallb isdigit_char m).
Qed.

Lemma ip_network_chars (s : list N) (net : Network) :
  contains (ch "%") s = false -> ip_network s = Some net ->
  forallb net_char s = true.
Proof.
  intros Hp Hn.
  assert (forall addr mask a,
    _split_addr_prefix s = Some (addr, mask) ->
    ip_address addr = Some a ->
    match mask with
    | Some m => forallb net_char m = true
    | None => True
    end -> forallb net_char s = true) as Hall.
  { intros addr mask a Hs Ha Hm.
    apply split_addr_prefix_join in Hs. rewrite Hs in Hp |- *.
    rewrite contains_app in Hp. apply orb_false_elim in Hp as [Hp _].
    rewrite forallb_app.
    rewrite (addr_net_char _ (ip_address_chars _ _ Hp Ha)).
    destruct mask as [m|]; [|done]. cbn [forallb andb]. rewrite Hm.
    by vm_compute. }
  unfold ip_network in Hn. destruct (IPv4Network s) as [n4|] eqn:E4.
  - unfold IPv4Network in E4.
    apply bind_Some in E4 as ([addr mask] & Hs & H).
    apply bind_Some in H as (a & Ha & H).
    apply bind_Some in H as (p & Hmask & _).
    apply (Hall addr mask a Hs); [unfold ip_address; by rewrite Ha|].
    destruct mask as [m|]; [|done]. unfold v4_make_netmask in Hmask.
    destruct (_prefix_from_prefix_string IPV4LENGTH m) as [q|] eqn:Eq.
    + by apply digits_net_char, (prefix_string_digits IPV4LENGTH _ q).
    + unfold v4_prefix_from_ip_string in Hmask.
      apply bind_Some in Hmask as (ip & Hip & _).
      by apply addr_net_char, v4_addr_char, (v4_parse_chars _ ip).
  - unfold IPv6Network in Hn.
    apply bind_Some in Hn as ([addr mask] & Hs & H).
    apply bind_Some in H as (a & Ha & H).
    apply bind_Some in H as (p & Hmask & _).
    apply (Hall addr mask a Hs).
    + unfold ip_address. destruct (IPv4Address addr) eqn:E; [|done].
      pose proof (IPv4Address_not_v6 _ _ E). congruence.
    + destruct mask as [m|]; [|done]. unfold v6_make_netmask in Hmask.
      by apply digits_net_char, (prefix_string_digits IPV6LENGTH _ p).
Qed.

Lemma stray_not_parsed (c : N) (s : list N) :
  net_char c = false -> contains c s = true ->
  contains (ch "%") s = false ->
  ip_network s = None /\ ip_address s = None.
Proof.
  intros Hc Hs Hp. split.
  - destruct (ip_network s) as [net|] eqn:E; [|done].
    pose proof (forallb_contains _ _ _ Hc (ip_network_chars _ _ Hp E)).
    congruence.
  - destruct (ip_address s) as [a|] eqn:E; [|done].
    pose proof (forallb_contains _ _ _ Hc
                  (addr_net_char _ (ip_address_chars _ _ Hp E))).
    congruence.
Qed.

End CharFacts.
Import CharFacts.

(** Property X16. A line with anything beside the address is dropped.
    When the candidate (the trimmed line, or the first field after the
    prefix of a line that is already prefixed) has no [%] and holds a
    character that is neither a hexadecimal digit nor one of [:], [.]
    and [/] (a space before a trailing comment, a comma, a letter of a
    host name), both normalisers reject the line, unless it is a
    comment. *)
Theorem X16_stray_character_rejected (line : list N) (c : N) :
  ishex_char c = false -> c <> ch ":" -> c <> ch "." -> c <> ch "/" ->
  (Spec.is_comment line = false ->
   startswith (lit "IP-CIDR,") (upper (strip line)) = false ->
   contains c (strip line) = true ->
   contains (ch "%") (strip line) = false ->
   Ip.normalize_ip_or_cidr line = None /\
   DomainsIp.normalize_ip_or_cidr line = None) /\
  (startswith (lit "IP-CIDR,") (upper (strip line)) = true ->
   let candidate :=
     strip (hd [] (split (ch ",") (strip (drop 8 (strip line))))) in
   contains c candidate = true ->
   contains (ch "%") candidate = false ->
   Ip.normalize_ip_or_cidr line = None /\
   DomainsIp.normalize_ip_or_cidr line = None).
Proof.
  intros Hh H1 H2 H3.
  assert (net_char c = false) as Hc.
  { unfold net_char, addr_char. rewrite Hh. cbn [orb].
    by repeat (apply orb_false_intro; [|by apply N.eqb_neq]);
      apply N.eqb_neq. }
  split.
  - intros Hcom Hpre Hs Hp.
    destruct (stray_not_parsed c _ Hc Hs Hp) as [Hn Ha].
    assert (is_empty (strip line) || startswith (lit "#") (strip line)
            = false) as Hb.
    { by rewrite (contains_nonempty _ _ Hs), is_comment_strip, Hcom. }
    rewrite normalize_agree by (by right).
    rewrite (normalize_plain _ Hpre Hb), Hn, Ha.
    by destruct (contains (ch "/") (strip line)).
  - intros Hpre candidate Hs Hp.
    destruct (stray_not_parsed c _ Hc Hs Hp) as [Hn Ha].
    rewrite normalize_agree by (by left).
    rewrite (normalize_prefixed _ Hpre).
    fold (Spec.prefixed_candidate (strip line)) in candidate.
    unfold Spec.candidate_cidr. fold candidate. rewrite Hn, Ha.
    by destruct (contains (ch "/") candidate).
Qed.

(** Property X16 at an address followed by a comment and at a rule
    whose first field is a host name. *)
Lemma X16_stray_character_rejected_witness :
  Ip.normalize_ip_or_cidr (lit "10.0.0.1 # office") = None /\
  DomainsIp.normalize_ip_or_cidr (lit "IP-CIDR,example.com,no-resolve")
    = None.
Proof.
  split.
  - refine (proj1 (proj1 (X16_stray_character_rejected
      (lit "10.0.0.1 # office") (ch " ") _ _ _ _) _ _ _ _)); by vm_compute.
  - refine (proj2 (proj2 (X16_stray_character_rejected
      (lit "IP-CIDR,example.com,no-resolve") (ch "x") _ _ _ _) _ _ _));
      by vm_compute.
Defined.

Module QuadFacts.

Lemma IPv6Address_needs_colon (s : list N) :
  contains (ch ":") s = false -> IPv6Address s = None.
Proof.
  intros Hc. unfold IPv6Address. destruct (contains (ch "/") s); [done|].
  unfold _split_scope_id.
  destruct (partition (ch "%") s) as [[addr f] sc] eqn:E.
  destruct (partition_contains _ (ch ":") _ _ _ _ E Hc) as [Ha _].
  assert (v6_ip_int_from_string addr = None) as Hv.
  { unfold v6_ip_int_from_string. destruct (is_empty addr); [done|].
    by rewrite (split_no_sep _ _ Ha). }
  destruct (negb f); cbn; [by rewrite Hv|].
  destruct (_ || _); cbn; [done|by rewrite Hv].
Qed.

Lemma quad_text (a b c d : N) :
  a <= 255 -> b <= 255 -> c <= 255 -> d <= 255 ->
  v4_string_from_ip_int (int_from_bytes [a; b; c; d]) =
  str_of_int a ++ lit "." ++ str_of_int b ++ lit "." ++ str_of_int c ++
  lit "." ++ str_of_int d.
Proof.
  intros Ha Hb Hc Hd. unfold v4_string_from_ip_int.
  by rewrite to_bytes4_from_bytes.
Qed.

Lemma host_rule_v4 (n : N) :
  ip_rule (host_cidr (V4 n)) =
  lit "IP-CIDR," ++ v4_string_from_ip_int n ++ lit "/32,no-resolve".
Proof.
  unfold ip_rule, host_cidr. cbn [is_v4 str_of_address].
  rewrite <- !app_assoc.
  by change (lit "/32" ++ lit ",no-resolve") with (lit "/32,no-resolve").
Qed.

Lemma bare_quad (line r : list N) :
  Spec.is_blank line = false -> Spec.is_comment line = false ->
  Spec.is_prefixed (strip line) = false ->
  contains (ch "/") (strip line) = false ->
  contains (ch ":") (strip line) = false ->
  Ip.normalize_ip_or_cidr line = Some r <->
  (exists a b c d,
     a <= 255 /\ b <= 255 /\ c <= 255 /\ d <= 255 /\
     strip line =
       str_of_int a ++ lit "." ++ str_of_int b ++ lit "." ++
       str_of_int c ++ lit "." ++ str_of_int d) /\
  r = lit "IP-CIDR," ++ strip line ++ lit "/32,no-resolve".
Proof.
  intros Hbl Hcom Hpre Hsl Hcol.
  assert (is_empty (strip line) || startswith (lit "#") (strip line) = false)
    as Hb.
  { rewrite strip_empty_iff, is_comment_strip.
    fold (Spec.is_blank line). by rewrite Hbl, Hcom. }
  split.
  - rewrite (normalize_plain _ Hpre Hb), Hsl.
    intros (cidr & (a & Ha & ->)%fmap_Some & ->)%fmap_Some.
    unfold ip_address in Ha. rewrite (IPv6Address_needs_colon _ Hcol) in Ha.
    destruct (IPv4Address (strip line)) as [a4|] eqn:E4; [|done].
    injection Ha as ->.
    apply IPv4Address_inv in E4 as (_ & n & -> & Hn).
    pose proof (v4_roundtrip _ _ Hn) as Htext.
    rewrite host_rule_v4, Htext. split; [|done].
    pose proof (to_bytes4_lt n) as Hlt. unfold to_bytes4 in Hlt.
    exists (N.shiftr n 24 mod 256), (N.shiftr n 16 mod 256),
      (N.shiftr n 8 mod 256), (n mod 256).
    repeat match goal with
    | H : Forall _ (_ :: _) |- _ =>
        let H1 := fresh "Hb" in
        pose proof (Forall_inv H) as H1; cbn beta in H1;
        apply Forall_inv_tail in H
    end.
    repeat (split; [lia|]). by rewrite <- Htext.
  - intros [(a & b & c & d & Ha & Hb' & Hc & Hd & Hs) ->].
    rewrite <- (quad_text a b c d Ha Hb' Hc Hd) in Hs.
    pose proof (int_from_bytes4_lt a b c d Ha Hb' Hc Hd) as Hlt.
    destruct (v4_print_parse _ Hlt) as (Hparse & _).
    rewrite <- Hs in Hparse.
    assert (ip_address (strip line) = Some (V4 (int_from_bytes [a; b; c; d])))
      as Hip.
    { unfold ip_address, IPv4Address. by rewrite Hsl, Hparse. }
    rewrite (normalize_plain _ Hpre Hb), Hsl, Hip.
    cbn [fmap option_fmap option_map].
    by rewrite host_rule_v4, Hs.
Qed.

End QuadFacts.
Import QuadFacts.

(** Property X17. Which lines are bare IPv4 addresses. Among the lines
    that are not blank, not a comment and not already prefixed and that
    have neither a [/] nor a [:], the normalisers accept exactly those
    whose trimmed form is four decimal numbers up to 255, each written
    as [str] writes it (no sign, no leading zero), with a dot between
    them; the rule is the trimmed line between [IP-CIDR,] and
    [/32,no-resolve]. *)
Theorem X17_bare_ipv4_exactly_dotted_quads (line r : list N) :
  Spec.is_blank line = false -> Spec.is_comment line = false ->
  startswith (lit "IP-CIDR,") (upper (strip line)) = false ->
  contains (ch "/") (strip line) = false ->
  contains (ch ":") (strip line) = false ->
  (Ip.normalize_ip_or_cidr line = Some r <->
   (exists a b c d,
      a <= 255 /\ b <= 255 /\ c <= 255 /\ d <= 255 /\
      strip line =
        str_of_int a ++ lit "." ++ str_of_int b ++ lit "." ++
        str_of_int c ++ lit "." ++ str_of_int d) /\
   r = lit "IP-CIDR," ++ strip line ++ lit "/32,no-resolve") /\
  (DomainsIp.normalize_ip_or_cidr line = Some r <->
   (exists a b c d,
      a <= 255 /\ b <= 255 /\ c <= 255 /\ d <= 255 /\
      strip line =
        str_of_int a ++ lit "." ++ str_of_int b ++ lit "." ++
        str_of_int c ++ lit "." ++ str_of_int d) /\
   r = lit "IP-CIDR," ++ strip line ++ lit "/32,no-resolve").
Proof.
  intros Hbl Hcom Hpre Hsl Hcol.
  assert (DomainsIp.normalize_ip_or_cidr line = Ip.normalize_ip_or_cidr line)
    as ->.
  { apply normalize_agree. right. rewrite strip_empty_iff, is_comment_strip.
    fold (Spec.is_blank line). by rewrite Hbl, Hcom. }
  split; by apply bare_quad.
Qed.

(** Property X17 at the line [" 192.168.1.1"]. *)
Lemma X17_bare_ipv4_exactly_dotted_quads_witness :
  Ip.normalize_ip_or_cidr (lit " 192.168.1.1") =
    Some (lit "IP-CIDR,192.168.1.1/32,no-resolve") <->
  (exists a b c d,
     a <= 255 /\ b <= 255 /\ c <= 255 /\ d <= 255 /\
     strip (lit " 192.168.1.1") =
       str_of_int a ++ lit "." ++ str_of_int b ++ lit "." ++
       str_of_int c ++ lit "." ++ str_of_int d) /\
  lit "IP-CIDR,192.168.1.1/32,no-resolve" =
    lit "IP-CIDR," ++ strip (lit " 192.168.1.1") ++ lit "/32,no-resolve".
Proof.
  refine (proj1 (X17_bare_ipv4_exactly_dotted_quads (lit " 192.168.1.1")
    (lit "IP-CIDR,192.168.1.1/32,no-resolve") _ _ _ _ _)); by vm_compute.
Defined.
